(** * Shelfari metadata source: a shallow embedding and its properties

    The development follows the two Python modules of the plugin:
    [shelfari/__init__.py] (class [Shelfari]: query construction, search
    result filtering, the [identify] driver) and [shelfari/worker.py]
    (class [Worker]: detail page parsing, cache writes, record emission).

    Python text is represented by [string], a [unicode] value by its
    UTF-8 bytes; a Python exception is a value
    of [exn] carried by [result]; the objects the code mutates (log, result
    queue, the two caches of the plugin, the requests made through the
    browser) are the fields of [world], threaded by the monad [M]. *)

From Stdlib Require Import ZArith Ascii String List Bool Lia.
From Stdlib Require Import SpecFloat.
From stdpp Require Import gmap strings list.

Set Warnings "-register-all".

Local Open Scope string_scope.
Local Open Scope list_scope.

(** ** Python text primitives *)

Module Py.

Definition is_space (c : ascii) : bool :=
  let n := nat_of_ascii c in
  Nat.eqb n 32 || (Nat.leb 9 n && Nat.leb n 13).

Definition is_digit (c : ascii) : bool :=
  let n := nat_of_ascii c in Nat.leb 48 n && Nat.leb n 57.

Definition is_alpha (c : ascii) : bool :=
  let n := nat_of_ascii c in
  (Nat.leb 65 n && Nat.leb n 90) || (Nat.leb 97 n && Nat.leb n 122).

(** [\w] of the [re] module without the UNICODE flag. *)
Definition is_word (c : ascii) : bool :=
  is_alpha c || is_digit c || Nat.eqb (nat_of_ascii c) 95.

Fixpoint lstrip (s : string) : string :=
  match s with
  | String c s' => if is_space c then lstrip s' else s
  | EmptyString => EmptyString
  end.

Fixpoint rstrip (s : string) : string :=
  match s with
  | String c s' =>
      match rstrip s' with
      | EmptyString => if is_space c then EmptyString else String c EmptyString
      | r => String c r
      end
  | EmptyString => EmptyString
  end.

(** [str.strip()]: the white space of a byte string is ASCII 9 to 13
    and 32. *)
Definition strip (s : string) : string := rstrip (lstrip s).

(** *** [unicode] values, held as their UTF-8 bytes *)

(** The bytes [10xxxxxx], which continue a character. *)
Definition is_continuation (c : ascii) : bool :=
  let n := nat_of_ascii c in Nat.leb 128 n && Nat.ltb n 192.

Definition starts_with_continuation (t : string) : bool :=
  match t with
  | String c _ => is_continuation c
  | EmptyString => false
  end.

(** The characters of a text: each is a byte that continues nothing with
    the bytes that continue it. *)
Fixpoint chars (s : string) : list string :=
  match s with
  | EmptyString => []
  | String c s' =>
      match chars s' with
      | t :: ts =>
          if starts_with_continuation t then String c t :: ts
          else String c EmptyString :: t :: ts
      | [] => [String c EmptyString]
      end
  end.

(** The UTF-8 bytes of a code point. *)
Definition utf8 (cp : N) : string :=
  (if cp <? 128 then String (ascii_of_N cp) ""
   else if cp <? 2048 then
     String (ascii_of_N (192 + cp / 64))
       (String (ascii_of_N (128 + cp mod 64)) "")
   else if cp <? 65536 then
     String (ascii_of_N (224 + cp / 4096))
       (String (ascii_of_N (128 + (cp / 64) mod 64))
          (String (ascii_of_N (128 + cp mod 64)) ""))
   else
     String (ascii_of_N (240 + cp / 262144))
       (String (ascii_of_N (128 + (cp / 4096) mod 64))
          (String (ascii_of_N (128 + (cp / 64) mod 64))
             (String (ascii_of_N (128 + cp mod 64)) ""))))%N.

(** The white space of [unicode] in Python 2.7 ([Py_UNICODE_ISSPACE]):
    the characters that [unicode.strip()] removes. *)
Definition unicode_spaces : list N :=
  [ 0x09; 0x0A; 0x0B; 0x0C; 0x0D; 0x1C; 0x1D; 0x1E; 0x1F; 0x20; 0x85; 0xA0;
    0x1680; 0x180E;
    0x2000; 0x2001; 0x2002; 0x2003; 0x2004; 0x2005; 0x2006; 0x2007; 0x2008;
    0x2009; 0x200A; 0x2028; 0x2029; 0x202F; 0x205F; 0x3000 ]%N.

Definition is_unicode_space (t : string) : bool :=
  existsb (fun cp => String.eqb t (utf8 cp)) unicode_spaces.

Fixpoint drop_spaces (l : list string) : list string :=
  match l with
  | t :: l' => if is_unicode_space t then drop_spaces l' else l
  | [] => []
  end.

Definition concat (l : list string) : string := fold_right String.append "" l.

(** [unicode.strip()]: the characters without the white space at the
    start and at the end. *)
Definition ustrip (s : string) : string :=
  concat (rev (drop_spaces (rev (drop_spaces (chars s))))).

Fixpoint is_ascii (s : string) : bool :=
  match s with
  | String c s' => Nat.ltb (nat_of_ascii c) 128 && is_ascii s'
  | EmptyString => true
  end.

(** [.strip()] of a text that lxml hands back ([text_content()], an XPath
    string): under Python 2 lxml gives a [str] when the text is plain
    ASCII and a [unicode] otherwise. *)
Definition text_strip (s : string) : string :=
  if is_ascii s then strip s else ustrip s.

(** [needle in hay] *)
Fixpoint contains (needle hay : string) : bool :=
  String.prefix needle hay ||
  match hay with
  | String _ h => contains needle h
  | EmptyString => false
  end.

(** [sep.join(l)] *)
Fixpoint join (sep : string) (l : list string) : string :=
  match l with
  | [] => ""
  | [x] => x
  | x :: rest => x +:+ sep +:+ join sep rest
  end.

(** [s.split(c)] for a one-character separator *)
Fixpoint split (sep : ascii) (s : string) : list string :=
  match s with
  | EmptyString => [""]
  | String c s' =>
      if Ascii.eqb c sep then "" :: split sep s'
      else match split sep s' with
           | w :: ws => String c w :: ws
           | [] => [String c ""]
           end
  end.

Fixpoint filter (p : ascii -> bool) (s : string) : string :=
  match s with
  | String c s' => if p c then String c (filter p s') else filter p s'
  | EmptyString => EmptyString
  end.

Fixpoint take_while (p : ascii -> bool) (s : string) : string :=
  match s with
  | String c s' => if p c then String c (take_while p s') else EmptyString
  | EmptyString => EmptyString
  end.

Fixpoint drop_while (p : ascii -> bool) (s : string) : string :=
  match s with
  | String c s' => if p c then drop_while p s' else s
  | EmptyString => EmptyString
  end.

(** Truth value of a text, of [None], of a list. *)
Definition nonempty (s : string) : bool :=
  match s with EmptyString => false | _ => true end.

Definition truthy (o : option string) : bool :=
  match o with Some s => nonempty s | None => false end.

Definition truthy_list {A} (o : option (list A)) : bool :=
  match o with Some (_ :: _) => true | _ => false end.

(** [urllib.quote(s)] with its default [safe='/'] *)
Definition always_safe (c : ascii) : bool :=
  is_alpha c || is_digit c ||
  existsb (Ascii.eqb c) ["_"%char; "."%char; "-"%char; "/"%char].

Definition hex_digit (n : nat) : ascii :=
  if Nat.ltb n 10 then ascii_of_nat (48 + n) else ascii_of_nat (55 + n).

Definition quote_char (c : ascii) : string :=
  if always_safe c then String c ""
  else let n := nat_of_ascii c in
       String "%" (String (hex_digit (n / 16)) (String (hex_digit (n mod 16)) "")).

Fixpoint quote (s : string) : string :=
  match s with
  | String c s' => quote_char c +:+ quote s'
  | EmptyString => EmptyString
  end.

End Py.

(** ** Exceptions and the state the code works on *)

Inductive exn :=
| TypeError | NameError | IndexError | AttributeError | ValueError.

Inductive result (A : Type) :=
| Ok (a : A)
| Raise (e : exn).
Arguments Ok {A} a.
Arguments Raise {A} e.

Inductive level := Info | Error | Exception.

(** A log call: the method, the message template of the source and the
    values formatted into it. *)
Record entry := Log { lvl : level; template : string; args : list string }.

(** ** The element tree of [lxml] and the XPath fragment the code uses *)

Inductive element :=
| Element (tag : string) (attrib : list (string * string))
          (text : string) (children : list element) (tail : string).

Definition tag (e : element) : string :=
  match e with Element t _ _ _ _ => t end.
Definition attrib (e : element) : list (string * string) :=
  match e with Element _ a _ _ _ => a end.
Definition children (e : element) : list element :=
  match e with Element _ _ _ k _ => k end.
Definition tail (e : element) : string :=
  match e with Element _ _ _ _ t => t end.

(** [e.get(name, None)] *)
Fixpoint lookup_attr (name : string) (l : list (string * string)) : option string :=
  match l with
  | [] => None
  | (k, v) :: l' => if String.eqb k name then Some v else lookup_attr name l'
  end.

Definition get (e : element) (name : string) : option string :=
  lookup_attr name (attrib e).

(** [e.text_content()]: the XPath string value of the element. *)
Fixpoint text_content (e : element) : string :=
  match e with
  | Element _ _ t kids _ =>
      t +:+ (fix inner (ks : list element) : string :=
               match ks with
               | [] => ""
               | k :: ks' => text_content k +:+ tail k +:+ inner ks'
               end) kids
  end.

(** [tostring(e, method='text', encoding=unicode)]: text of the element
    followed by its tail. *)
Definition tostring_text (e : element) : string := text_content e +:+ tail e.

Module XPath.

Inductive axis := Child | Descendant.

Inductive pred :=
| AttrEq (name value : string)        (* [@name="value"] *)
| AttrEqChild (name child : string).  (* [@name=child]: a child element *)

Record step := Step { ax : axis; name : option string; preds : list pred }.

Definition holds (e : element) (p : pred) : bool :=
  match p with
  | AttrEq a v =>
      match get e a with Some x => String.eqb x v | None => false end
  | AttrEqChild a c =>
      match get e a with
      | Some x =>
          existsb (fun k => String.eqb (tag k) c && String.eqb (text_content k) x)
                  (children e)
      | None => false
      end
  end.

Definition test (s : step) (e : element) : bool :=
  match name s with Some t => String.eqb (tag e) t | None => true end
  && forallb (holds e) (preds s).

(** [matches rsteps chain]: the location path whose steps, last first,
    are [rsteps] selects the head of [chain]; the rest of [chain] are its
    ancestors, nearest first, up to and excluding the context node. *)
Fixpoint matches (rsteps : list step) (chain : list element) {struct rsteps} : bool :=
  match rsteps with
  | [] => match chain with [] => true | _ => false end
  | s :: rest =>
      match chain with
      | [] => false
      | n :: up =>
          test s n &&
          match ax s with
          | Child => matches rest up
          | Descendant =>
              (fix any (c : list element) : bool :=
                 matches rest c ||
                 match c with [] => false | _ :: c' => any c' end) up
          end
      end
  end.

(** Nodes selected below a context, in document order. *)
Fixpoint select (rsteps : list step) (chain : list element) (e : element)
  : list element :=
  match e with
  | Element _ _ _ kids _ =>
      (if matches rsteps (e :: chain) then [e] else []) ++
      (fix inner (ks : list element) : list element :=
         match ks with
         | [] => []
         | k :: ks' => select rsteps (e :: chain) k ++ inner ks'
         end) kids
  end.

(** An absolute path ([//...]): the context is the document. *)
Definition absolute (steps : list step) (root : element) : list element :=
  select (rev steps) [] root.

(** A relative path ([./...]) evaluated at [ctx]. *)
Definition relative (steps : list step) (ctx : element) : list element :=
  flat_map (select (rev steps) []) (children ctx).

(** A trailing [/@name] step. *)
Definition attr_values (name : string) (nodes : list element) : list string :=
  omap (fun e => get e name) nodes.

Definition child (t : string) : step := Step Child (Some t) [].
Definition child_where (t a v : string) : step := Step Child (Some t) [AttrEq a v].
Definition desc (t : string) : step := Step Descendant (Some t) [].
Definition desc_where (t a v : string) : step := Step Descendant (Some t) [AttrEq a v].

End XPath.

(** ** Records, the host application and the mutable world *)

(** Python [float]: IEEE 754 binary64, round to nearest even. *)
Definition float := spec_float.
Definition prec : Z := 53.
Definition emax : Z := 1024.

(** The fields of calibre's [Metadata] that the plugin assigns. *)
Module Metadata.

Record t := Make {
  title : string;
  authors : list string;
  series : option string;
  series_index : option (list string);
  identifiers : gmap string string;
  isbn : option string;
  rating : option float;
  comments : option string;
  has_cover : bool;
  tags : option (list string);
  publisher : option string;
  pubdate : option string;
  language : option string;
  source_relevance : option nat
}.

(** [Metadata(title, authors)] *)
Definition new (title0 : string) (authors0 : list string) : t :=
  Make title0 authors0 None None ∅ None None None false None None None None None.

Definition set_series (v : option string) (i : option (list string)) (m : t) : t :=
  Make (title m) (authors m) v i (identifiers m) (isbn m) (rating m)
       (comments m) (has_cover m) (tags m) (publisher m) (pubdate m)
       (language m) (source_relevance m).

Definition set_identifier (k v : string) (m : t) : t :=
  Make (title m) (authors m) (series m) (series_index m)
       (<[k := v]> (identifiers m)) (isbn m) (rating m)
       (comments m) (has_cover m) (tags m) (publisher m) (pubdate m)
       (language m) (source_relevance m).

Definition set_isbn (v : option string) (m : t) : t :=
  Make (title m) (authors m) (series m) (series_index m) (identifiers m)
       v (rating m) (comments m) (has_cover m) (tags m) (publisher m)
       (pubdate m) (language m) (source_relevance m).

Definition set_rating (v : option float) (m : t) : t :=
  Make (title m) (authors m) (series m) (series_index m) (identifiers m)
       (isbn m) v (comments m) (has_cover m) (tags m) (publisher m)
       (pubdate m) (language m) (source_relevance m).

Definition set_comments (v : option string) (m : t) : t :=
  Make (title m) (authors m) (series m) (series_index m) (identifiers m)
       (isbn m) (rating m) v (has_cover m) (tags m) (publisher m)
       (pubdate m) (language m) (source_relevance m).

Definition set_has_cover (v : bool) (m : t) : t :=
  Make (title m) (authors m) (series m) (series_index m) (identifiers m)
       (isbn m) (rating m) (comments m) v (tags m) (publisher m)
       (pubdate m) (language m) (source_relevance m).

Definition set_tags (v : option (list string)) (m : t) : t :=
  Make (title m) (authors m) (series m) (series_index m) (identifiers m)
       (isbn m) (rating m) (comments m) (has_cover m) v (publisher m)
       (pubdate m) (language m) (source_relevance m).

Definition set_publisher_pubdate (p d : option string) (m : t) : t :=
  Make (title m) (authors m) (series m) (series_index m) (identifiers m)
       (isbn m) (rating m) (comments m) (has_cover m) (tags m) p d
       (language m) (source_relevance m).

Definition set_language (v : option string) (m : t) : t :=
  Make (title m) (authors m) (series m) (series_index m) (identifiers m)
       (isbn m) (rating m) (comments m) (has_cover m) (tags m) (publisher m)
       (pubdate m) v (source_relevance m).

Definition set_source_relevance (v : option nat) (m : t) : t :=
  Make (title m) (authors m) (series m) (series_index m) (identifiers m)
       (isbn m) (rating m) (comments m) (has_cover m) (tags m) (publisher m)
       (pubdate m) (language m) v.

End Metadata.

(** What a request through the browser can end in. *)
Inductive failure := HTTP404 | SocketTimeout | OtherFailure.

Inductive net (A : Type) :=
| Got (a : A)
| Failed (f : failure).
Arguments Got {A} a.
Arguments Failed {A} f.

Record response := Response { geturl : string; read : net string }.

(** What the plugin calls and does not define: calibre's helpers
    ([check_isbn], the token generators of [Source], [lower],
    [canonicalize_lang], [clean_downloaded_metadata],
    [sanitize_comments_html], [as_unicode]), the browser, the HTML parser
    ([fromstring] after [clean_ascii_chars]), the HTML serialiser and the
    stored preference [KEY_GET_EDITIONS]. *)
Class Host := {
  check_isbn : option string -> option string;
  get_title_tokens : option string -> bool -> bool -> list string;
  get_author_tokens : option (list string) -> bool -> list string;
  lower : string -> string;
  canonicalize_lang : option string -> option string;
  clean_downloaded_metadata : Metadata.t -> Metadata.t;
  sanitize_comments_html : string -> string;
  as_unicode : failure -> string;
  open_novisit : string -> net response;
  fromstring : string -> result element;
  tostring_html : element -> string;
  KEY_GET_EDITIONS : bool
}.

Record world := World {
  log : list entry;
  requests : list string;
  result_queue : list Metadata.t;
  isbn_to_identifier : gmap string string;
  identifier_to_cover_url : gmap string string
}.

Definition empty_world : world :=
  {| log := []; requests := []; result_queue := [];
     isbn_to_identifier := ∅; identifier_to_cover_url := ∅ |}.

(** Computations that change the world and may raise. *)
Definition M (A : Type) : Type := world -> result A * world.

Definition ret {A} (a : A) : M A := fun w => (Ok a, w).
Definition raise {A} (e : exn) : M A := fun w => (Raise e, w).
Definition bind {A B} (m : M A) (k : A -> M B) : M B :=
  fun w => match m w with
           | (Ok a, w') => k a w'
           | (Raise e, w') => (Raise e, w')
           end.
(** [try: m  except: h] *)
Definition try_except {A} (m : M A) (h : exn -> M A) : M A :=
  fun w => match m w with
           | (Ok a, w') => (Ok a, w')
           | (Raise e, w') => h e w'
           end.
Definition lift {A} (r : result A) : M A := fun w => (r, w).

Notation "x <- m ;; k" := (bind m (fun x => k))
  (at level 100, m at next level, right associativity).
Notation "m ;;; k" := (bind m (fun _ => k))
  (at level 100, right associativity).

Definition log_call (l : level) (t : string) (a : list string) : M unit :=
  fun w => (Ok tt,
            {| log := log w ++ [Log l t a]; requests := requests w;
               result_queue := result_queue w;
               isbn_to_identifier := isbn_to_identifier w;
               identifier_to_cover_url := identifier_to_cover_url w |}).

(** [browser.open_novisit(url, timeout=...)]: the request is recorded. *)
Definition browse `{Host} (url : string) : M (net response) :=
  fun w => (Ok (open_novisit url),
            {| log := log w; requests := requests w ++ [url];
               result_queue := result_queue w;
               isbn_to_identifier := isbn_to_identifier w;
               identifier_to_cover_url := identifier_to_cover_url w |}).

(** [result_queue.put(mi)] *)
Definition put (mi : Metadata.t) : M unit :=
  fun w => (Ok tt,
            {| log := log w; requests := requests w;
               result_queue := result_queue w ++ [mi];
               isbn_to_identifier := isbn_to_identifier w;
               identifier_to_cover_url := identifier_to_cover_url w |}).

(** [Source.cache_isbn_to_identifier] and [Source.cache_identifier_to_cover_url] *)
Definition cache_isbn_to_identifier (i sid : string) : M unit :=
  fun w => (Ok tt,
            {| log := log w; requests := requests w;
               result_queue := result_queue w;
               isbn_to_identifier := <[i := sid]> (isbn_to_identifier w);
               identifier_to_cover_url := identifier_to_cover_url w |}).

Definition cache_identifier_to_cover_url (sid url : string) : M unit :=
  fun w => (Ok tt,
            {| log := log w; requests := requests w;
               result_queue := result_queue w;
               isbn_to_identifier := isbn_to_identifier w;
               identifier_to_cover_url := <[sid := url]> (identifier_to_cover_url w) |}).

(** [Source.cached_isbn_to_identifier] and
    [Source.cached_identifier_to_cover_url]: [dict.get(key, None)] *)
Definition cached_isbn_to_identifier (i : string) : M (option string) :=
  fun w => (Ok (isbn_to_identifier w !! i), w).

Definition cached_identifier_to_cover_url (sid : string) : M (option string) :=
  fun w => (Ok (identifier_to_cover_url w !! sid), w).

(** [m] run on a queue of its own ([rq = Queue()]): the items it puts are
    handed back and the queue of the caller is as before. *)
Definition private_queue {A} (m : M A) : M (A * list Metadata.t) :=
  fun w =>
    let restore (w' : world) :=
      {| log := log w'; requests := requests w';
         result_queue := result_queue w;
         isbn_to_identifier := isbn_to_identifier w';
         identifier_to_cover_url := identifier_to_cover_url w' |} in
    match m {| log := log w; requests := requests w; result_queue := [];
               isbn_to_identifier := isbn_to_identifier w;
               identifier_to_cover_url := identifier_to_cover_url w |} with
    | (Ok a, w') => (Ok (a, result_queue w'), restore w')
    | (Raise e, w') => (Raise e, restore w')
    end.

(** ** The regular expressions of the source *)

Module Re.

(** A pattern tried at one position of the subject: the length of its
    match there and the text of its group.  The patterns of the plugin
    match in at most one way at a position and never match the empty
    text. *)
Definition matcher := string -> option (nat * string).

Fixpoint drop (n : nat) (s : string) : string :=
  match n, s with
  | S k, String _ s' => drop k s'
  | _, _ => s
  end.

(** [re.search(p, s)]: the group of the leftmost match. *)
Fixpoint search (m : matcher) (s : string) : option string :=
  match m s with
  | Some (_, g) => Some g
  | None =>
      match s with
      | String _ s' => search m s'
      | EmptyString => None
      end
  end.

(** [re.sub(p, '', s)]: every match, left to right, is removed. *)
Fixpoint sub_from (m : matcher) (skip : nat) (s : string) : string :=
  match s with
  | EmptyString => EmptyString
  | String c s' =>
      match skip with
      | S k => sub_from m k s'
      | O =>
          match m s with
          | Some (S k, _) => sub_from m k s'
          | _ => String c (sub_from m O s')
          end
      end
  end.

Definition sub (m : matcher) (s : string) : string := sub_from m 0 s.

(** [/books/(\d+)] *)
Definition books_id : matcher := fun s =>
  if String.prefix "/books/" s then
    match Py.take_while Py.is_digit (drop 7 s) with
    | EmptyString => None
    | d => Some (7 + String.length d, d)
    end
  else None.

(** [\((\d{4})\)$] *)
Definition year_at_end : matcher := fun s =>
  match s with
  | String "(" (String a (String b (String c (String d (String ")" rest))))) =>
      if forallb Py.is_digit [a; b; c; d]
         && (String.eqb rest "" || String.eqb rest (String "010" ""))
      then Some (6, String a (String b (String c (String d ""))))
      else None
  | _ => None
  end.

(** [: Book (\d+)] *)
Definition book_number : matcher := fun s =>
  if String.prefix ": Book " s then
    match Py.take_while Py.is_digit (drop 7 s) with
    | EmptyString => None
    | d => Some (7 + String.length d, d)
    end
  else None.

(** [\s*\([\w\s]*\)] *)
Definition role : matcher := fun s =>
  match Py.drop_while Py.is_space s with
  | String "(" inside =>
      match Py.drop_while (fun c => Py.is_word c || Py.is_space c) inside with
      | String ")" rest => Some (String.length s - String.length rest, "")
      | _ => None
      end
  | _ => None
  end.

End Re.

(** ** [shelfari/worker.py]: class [Worker] *)

Module Worker.

(** The attributes of a worker that its methods read and assign. *)
Record t := Make {
  url : string;
  relevance : nat;
  cover_url : option string;
  shelfari_id : option string;
  isbn : option string
}.

(** [Worker.__init__] *)
Definition init (u : string) (r : nat) : t := Make u r None None None.

Definition lm : list (string * list string) :=
  [ ("eng", ["English"; "Englisch"]);
    ("fra", ["French"; "Français"]);
    ("ita", ["Italian"; "Italiano"]);
    ("dut", ["Dutch"]);
    ("deu", ["German"; "Deutsch"]);
    ("spa", ["Spanish"; "Español"; "Espaniol"]);
    ("jpn", ["Japanese"; "日本語"]);
    ("por", ["Portuguese"; "Português"]) ].

(** The two loops of [__init__] that fill [self.lang_map]. *)
Definition lang_map_of (table : list (string * list string)) : gmap string string :=
  fold_left
    (fun m '(code, names) => fold_left (fun m' name => <[name := code]> m') names m)
    table ∅.

Definition lang_map : gmap string string := lang_map_of lm.

Definition digit_value (c : ascii) : Z := Z.of_nat (nat_of_ascii c - 48).

Fixpoint int_of_digits_from (acc : Z) (s : string) : Z :=
  match s with
  | String c s' => int_of_digits_from (10 * acc + digit_value c) s'
  | EmptyString => acc
  end.

Definition int_of_digits (s : string) : Z := int_of_digits_from 0 s.

Definition float_of_Z (n : Z) : float := binary_normalize prec emax n 0 false.

(** [float(text)] for a text of decimal digits *)
Definition float_of_digits (s : string) : result float :=
  match s with
  | EmptyString => Raise ValueError
  | _ => Ok (float_of_Z (int_of_digits s))
  end.

Definition parse_shelfari_id (u : string) : result string :=
  match Re.search Re.books_id u with
  | Some d => Ok d
  | None => Raise AttributeError
  end.

Definition parse_title_series (root : element)
  : result (option string * option string * option (list string)) :=
  let title_node := XPath.absolute [XPath.desc_where "h1" "class" "hover_title"] root in
  match title_node with
  | [] => Ok (None, None, None)
  | h :: _ =>
      let title_text := Py.text_strip (text_content h) in
      (* [re.sub] with the [unicode] literal [''] gives a [unicode] *)
      let title_text :=
        match Re.search Re.year_at_end title_text with
        | Some _ => Py.ustrip (Re.sub Re.year_at_end title_text)
        | None => title_text
        end in
      let series_node := XPath.absolute [XPath.desc_where "span" "class" "series"] root in
      match series_node with
      | [] => Ok (Some title_text, None, None)
      | sn :: _ =>
          let series_text := Py.text_strip (text_content sn) in
          match Re.search Re.book_number series_text with
          | Some n =>
              Ok (Some title_text,
                  Some (Py.ustrip (Re.sub Re.book_number series_text)),
                  Some [n])
          | None => Ok (Some title_text, Some series_text, None)
          end
      end
  end.

(** [re.sub(m, '', text).strip()]: the replacement is a [unicode]
    literal (the module imports [unicode_literals]), so a text in which
    something was replaced comes back as [unicode]; a text without a match
    comes back as it was given. *)
Definition sub_strip (m : Re.matcher) (text : string) : string :=
  match Re.search m text with
  | Some _ => Py.ustrip (Re.sub m text)
  | None => Py.text_strip (Re.sub m text)
  end.

Definition parse_authors (root : element) : result (option (list string)) :=
  let div_authors :=
    XPath.absolute [XPath.desc_where "div" "id" "WikiModule_Contributors";
                    XPath.desc "ol"; XPath.child "li"] root in
  match div_authors with
  | [] => Ok None
  | _ => Ok (Some (map (fun li => sub_strip Re.role (text_content li))
                       div_authors))
  end.

Definition c100 : float := float_of_Z 100.

(** The part of [parse_rating] that follows the node lookup. *)
Definition rating_of_text (rating_text : string) : result (option float) :=
  let rating_text := Py.filter Py.is_digit rating_text in
  match float_of_digits rating_text with
  | Raise e => Raise e
  | Ok rating_value =>
      if SFleb c100 rating_value
      then Ok (Some (SFdiv prec emax rating_value c100))
      else Ok (Some rating_value)
  end.

Definition rating_path : list XPath.step :=
  [XPath.Step XPath.Descendant (Some "ul") [XPath.AttrEqChild "class" "rating"];
   XPath.child_where "li" "class" "current"].

Definition parse_rating (root : element) : result (option float) :=
  match XPath.absolute rating_path root with
  | n :: _ => rating_of_text (text_content n)
  | [] => Ok None
  end.

(** One pass of [comments.replace('  ', ' ')]. *)
Fixpoint replace_double_space (skip : bool) (s : string) : string :=
  match s with
  | EmptyString => EmptyString
  | String c s' =>
      if skip then replace_double_space false s'
      else if String.prefix "  " s then String " " (replace_double_space true s')
      else String c (replace_double_space false s')
  end.

Fixpoint collapse (fuel : nat) (s : string) : string :=
  match fuel with
  | O => s
  | S k =>
      if Py.contains "  " s then collapse k (replace_double_space false s) else s
  end.

Section WithHost.
Context `{Host}.

Definition parse_comments (root : element) : result (option string) :=
  match XPath.absolute [XPath.desc_where "div" "class" "ugc nonTruncatedSum";
                        XPath.child "p"] root with
  | desc :: _ =>
      let comments := Py.ustrip (tostring_html desc) in
      let comments := collapse (String.length comments) comments in
      Ok (Some (sanitize_comments_html comments))
  | [] => Ok None
  end.

Definition parse_cover (root : element) : result (option string) :=
  match XPath.attr_values "src"
          (XPath.absolute [XPath.desc_where "div" "id" "BookMasterImage";
                           XPath.desc "img"] root) with
  | img_url :: _ => Ok (Some img_url)
  | [] => Ok None
  end.

Definition parse_isbn (root : element) : result (option string) :=
  match XPath.absolute
          [XPath.desc_where "acronym" "title" "International Standard Book Number"]
          root with
  | n :: _ => Ok (Some (Py.strip (Py.filter Py.is_digit (text_content n))))
  | [] => Ok None
  end.

(** [re.search] is handed the element [div], not its text: the call
    raises as soon as a block mentions a publisher. *)
Definition parse_publisher_and_date (root : element)
  : result (option string * option string) :=
  let edition_node :=
    XPath.absolute [XPath.desc_where "div" "id" "WikiModule_FirstEdition";
                    XPath.desc "div"] root in
  if existsb (fun div => Py.contains "Publisher" (text_content div)) edition_node
  then Raise TypeError
  else Ok (None, None).

Definition parse_tags (root : element) : result (option (list string)) :=
  Ok None.

Definition language_path : list XPath.step :=
  [XPath.desc_where "div" "id" "metacol";
   XPath.child_where "div" "id" "details";
   XPath.child_where "div" "class" "buttons";
   XPath.child_where "div" "id" "bookDataBox";
   XPath.child "div";
   XPath.child_where "div" "itemprop" "inLanguage"].

Definition _parse_language (root : element) : result (option string) :=
  match XPath.absolute language_path root with
  | n :: _ =>
      let raw := Py.ustrip (tostring_text n) in
      let ans := lang_map !! raw in
      if Py.truthy ans then Ok ans
      else
        let ans := canonicalize_lang ans in
        if Py.truthy ans then Ok ans else Ok None
  | [] => Ok None
  end.

Definition url_arg (self : t) : list string := [url self].

(** [if not title or not authors or not shelfari_id] *)
Definition incomplete (title : option string) (authors : option (list string))
           (sid : option string) : bool :=
  negb (Py.truthy title) || negb (Py.truthy_list authors) || negb (Py.truthy sid).

(** [try: m  except: self.log.exception(template % self.url)]; the
    names assigned in [m] keep the value [otherwise]. *)
Definition guarded {A} (self : t) (template : string) (otherwise : A) (m : M A) : M A :=
  try_except m (fun _ => log_call Exception template (url_arg self) ;;; ret otherwise).

(** The two cache writes of [parse_details]. *)
Definition write_caches (self : t) : M unit :=
  if Py.truthy (shelfari_id self) then
    (if Py.truthy (isbn self)
     then cache_isbn_to_identifier (default "" (isbn self))
                                   (default "" (shelfari_id self))
     else ret tt) ;;;
    (if Py.truthy (cover_url self)
     then cache_identifier_to_cover_url (default "" (shelfari_id self))
                                        (default "" (cover_url self))
     else ret tt)
  else ret tt.

(** The block of [parse_details] from [mi = Metadata(title, authors)]
    to [result_queue.put(mi)]. *)
Definition emit (self : t) (root : element)
           (title : string) (series : option string)
           (series_index : option (list string))
           (authors : list string) (sid : string) : M t :=
  let mi := Metadata.new title authors in
  let mi := if Py.truthy series then Metadata.set_series series series_index mi
            else mi in
  let mi := Metadata.set_identifier "shelfari" sid mi in
  let self := Make (url self) (relevance self) (cover_url self) (Some sid) (isbn self) in
  sm <-
    guarded self "Error parsing ISBN for url: %r" (self, mi)
      (i <- lift (parse_isbn root) ;;
       ret (if Py.truthy i
            then (Make (url self) (relevance self) (cover_url self)
                       (shelfari_id self) i,
                  Metadata.set_isbn i mi)
            else (self, mi))) ;;
  let '(self, mi) := sm in
  mi <-
    guarded self "Error parsing ratings for url: %r" mi
      (r <- lift (parse_rating root) ;; ret (Metadata.set_rating r mi)) ;;
  mi <-
    guarded self "Error parsing comments for url: %r" mi
      (c <- lift (parse_comments root) ;; ret (Metadata.set_comments c mi)) ;;
  self <-
    guarded self "Error parsing cover for url: %r" self
      (c <- lift (parse_cover root) ;;
       ret (Make (url self) (relevance self) c (shelfari_id self) (isbn self))) ;;
  let mi := Metadata.set_has_cover (Py.truthy (cover_url self)) mi in
  mi <-
    guarded self "Error parsing tags for url: %r" mi
      (tags <- lift (parse_tags root) ;;
       ret (if Py.truthy_list tags then Metadata.set_tags tags mi else mi)) ;;
  mi <-
    guarded self "Error parsing publisher and date for url: %r" mi
      (pd <- lift (parse_publisher_and_date root) ;;
       ret (Metadata.set_publisher_pubdate (fst pd) (snd pd) mi)) ;;
  mi <-
    guarded self "Error parsing language for url: %r" mi
      (lang <- lift (_parse_language root) ;;
       ret (if Py.truthy lang then Metadata.set_language lang mi else mi)) ;;
  let mi := Metadata.set_source_relevance (Some (relevance self)) mi in
  write_caches self ;;;
  let mi := clean_downloaded_metadata mi in
  put mi ;;;
  ret self.

Definition parse_details (self : t) (root : element) : M t :=
  sid <-
    guarded self "Error parsing shelfari id for url: %r" None
      (s <- lift (parse_shelfari_id (url self)) ;; ret (Some s)) ;;
  tss <-
    guarded self "Error parsing title and series for url: %r" (None, None, None)
      (lift (parse_title_series root)) ;;
  let '(title, series, series_index) := tss in
  authors <-
    guarded self "Error parsing authors for url: %r" (Some [])
      (lift (parse_authors root)) ;;
  if incomplete title authors sid then
    log_call Error "Could not find title/authors/shelfari id for %r" (url_arg self) ;;;
    log_call Error "Shelfari: %r Title: %r Authors: %r"
             [default "None" sid; default "None" title;
              Py.join ", " (default [] authors)] ;;;
    ret self
  else
    emit self root (default "" title) series series_index
         (default [] authors) (default "" sid).

Definition get_details (self : t) : M t :=
  log_call Info "Shelfari book url: %r" (url_arg self) ;;;
  r <- browse (url self) ;;
  match (match r with Got resp => read resp | Failed f => Failed f end) with
  | Failed HTTP404 =>
      log_call Error "URL malformed: %r" (url_arg self) ;;; ret self
  | Failed SocketTimeout =>
      log_call Error "Shelfari timed out. Try again later." [] ;;; ret self
  | Failed OtherFailure =>
      log_call Exception "Failed to make details query: %r" (url_arg self) ;;; ret self
  | Got raw =>
      let raw := Py.strip raw in
      if Py.contains "<title>404 - " raw then
        log_call Error "URL malformed: %r" (url_arg self) ;;; ret self
      else
        match fromstring raw with
        | Raise _ =>
            log_call Exception "Failed to parse shelfari details page: %r"
                     (url_arg self) ;;;
            ret self
        | Ok root =>
            (* the page title is read and nothing is done with it *)
            match XPath.absolute
                    [XPath.Step XPath.Descendant None [XPath.AttrEq "id" "errorMessage"]]
                    root with
            | _ :: _ => raise TypeError (* [tostring] is given the list *)
            | [] => parse_details self root
            end
        end
  end.

Definition run (self : t) : M unit :=
  try_except
    (get_details self ;;; ret tt)
    (fun _ => log_call Exception "get_details failed for url: %r" (url_arg self)).

End WithHost.

Section Genres.
(** [unicode.lower] and the stored preference [KEY_GENRE_MAPPINGS], its
    items in the order of [iteritems]. *)
Variable str_lower : string -> string.
Variable KEY_GENRE_MAPPINGS : list (string * list string).

(** [dict((k.lower(), v) for (k, v) in calibre_tag_lookup.iteritems())] *)
Definition calibre_tag_map : gmap string (list string) :=
  fold_left (fun m kv => <[str_lower kv.1 := kv.2]> m) KEY_GENRE_MAPPINGS ∅.

(** The loop [for tag in tags] *)
Fixpoint add_tags (tags tags_to_add : list string) : list string :=
  match tags with
  | [] => tags_to_add
  | tag :: rest =>
      add_tags rest (if existsb (String.eqb tag) tags_to_add
                     then tags_to_add
                     else tags_to_add ++ [tag])
  end.

(** The loop [for genre_tag in genre_tags] *)
Fixpoint add_genres (genre_tags tags_to_add : list string) : list string :=
  match genre_tags with
  | [] => tags_to_add
  | genre_tag :: rest =>
      match calibre_tag_map !! str_lower genre_tag with
      | Some (tag :: more) => add_genres rest (add_tags (tag :: more) tags_to_add)
      | _ => add_genres rest tags_to_add
      end
  end.

Definition _convert_genres_to_calibre_tags (genre_tags : list string) : list string :=
  add_genres genre_tags [].

End Genres.

End Worker.

(** ** [shelfari/__init__.py]: class [Shelfari] *)

Module Shelfari.

Definition BASE_URL : string := "http://www.shelfari.com".

(** The variable [q] of [_create_query] is a list until it is joined. *)
Inductive qvalue :=
| QList (l : list string)
| QText (s : string).

Definition q_truthy (q : qvalue) : bool :=
  match q with
  | QList l => match l with [] => false | _ => true end
  | QText s => Py.nonempty s
  end.

(** What [identify] hands back to its caller. *)
Inductive returned :=
| NoValue
| Text (s : string)
| Formatted (template : string) (args : list string).

(** A statement list that may [return] before its end. *)
Inductive flow (A : Type) :=
| Return (v : returned)
| Continue (a : A).
Arguments Return {A} v.
Arguments Continue {A} a.

Section WithHost.
Context `{Host}.

Definition _create_query (title : option string) (authors : option (list string))
           (identifiers : gmap string string) : result (option string) :=
  let isbn := check_isbn (identifiers !! "isbn") in
  let q : list string := [] in
  let q := match isbn with
           | Some i => q ++ ["Isbn=" +:+ i]
           | None => q
           end in
  let q :=
    if Py.truthy title || Py.truthy_list authors then
      let title_tokens := get_title_tokens title false true in
      let author_tokens := get_author_tokens authors true in
      let title_tokens := map Py.quote title_tokens in
      let author_tokens := map Py.quote author_tokens in
      let q := match title_tokens with
               | [] => q
               | _ => q ++ ["Title=" +:+ Py.join "+" title_tokens]
               end in
      let q := match author_tokens with
               | [] => q
               | _ => q ++ ["Author=" +:+ Py.join "+" author_tokens]
               end in
      QText (Py.join "&" q)
    else QList q in
  if negb (q_truthy q) then Ok None
  else
    match q with
    | QText s => Ok (Some (BASE_URL +:+ "/search/books?" +:+ s))
    | QList _ => Raise TypeError (* text + list *)
    end.

(** The loops of [ismatch] that stop at the first token found. *)
Fixpoint first_found (tokens : list string) (hay : string) (found : bool) : bool :=
  match tokens with
  | [] => found
  | t :: rest =>
      if Py.contains (lower t) hay then true else first_found rest hay found
  end.

Definition ismatch (title_tokens author_tokens : list string)
           (title : string) (authors : list string) : bool :=
  let authors := lower (Py.join " " authors) in
  let title := lower title in
  let match_ := match title_tokens with [] => true | _ => false end in
  let match_ := first_found title_tokens title match_ in
  let amatch := match author_tokens with [] => true | _ => false end in
  let amatch := first_found author_tokens authors amatch in
  let amatch := match author_tokens with [] => true | _ => amatch end in
  match_ && amatch.

Definition entry_title_path : list XPath.step :=
  [XPath.child_where "div" "class" "text"; XPath.child "h3"; XPath.child "a"].

Definition entry_authors_path : list XPath.step :=
  [XPath.child_where "div" "class" "text"; XPath.child "a"].

(** The body of the loop over [results]. *)
Fixpoint each_result (title_tokens author_tokens : list string) (root : element)
         (results : list element) (matches : list string) : M (list string) :=
  match results with
  | [] => ret matches
  | result :: rest =>
      let shelfari_id := get result "id" in
      (if Py.truthy shelfari_id
       then raise NameError (* the name [shelfari] is bound nowhere *)
       else ret tt) ;;;
      match XPath.relative entry_title_path result with
      | [] => raise IndexError
      | a :: _ =>
          let title := Py.text_strip (text_content a) in
          match XPath.relative entry_authors_path result with
          | [] => raise IndexError
          | b :: _ =>
              let authors := Py.split "," (Py.text_strip (text_content b)) in
              if negb (ismatch title_tokens author_tokens title authors) then
                log_call Error "Rejecting as not close enough match: %s %s"
                         [title; Py.join ", " authors] ;;;
                each_result title_tokens author_tokens root rest matches
              else
                (* the path is evaluated at [root], not at [result] *)
                let url_node :=
                  XPath.attr_values "href" (XPath.relative entry_title_path root) in
                match url_node with
                | result_url :: _ =>
                    (if KEY_GET_EDITIONS
                     then log_call Info "Getting editions is not currently supported" []
                     else ret tt) ;;;
                    each_result title_tokens author_tokens root rest
                                (matches ++ [result_url])
                | [] => each_result title_tokens author_tokens root rest matches
                end
          end
      end
  end.

Definition results_path : list XPath.step :=
  [XPath.desc_where "ol" "class" "book_results"; XPath.child "li"].

Definition _parse_search_results (orig_title : option string)
           (orig_authors : option (list string)) (root : element)
           (matches : list string) : M (list string) :=
  let results := XPath.absolute results_path root in
  match results with
  | [] => ret matches
  | _ =>
      let title_tokens := get_title_tokens orig_title true false in
      let author_tokens := get_author_tokens orig_authors true in
      each_result title_tokens author_tokens root results matches
  end.

(** The [else] branch of [identify]: the search and what it finds. *)
Definition search (title : option string) (authors : option (list string))
           (identifiers : gmap string string) (isbn : option string)
  : M (flow (list string * string)) :=
  q <- lift (_create_query title authors identifiers) ;;
  match q with
  | None =>
      log_call Error "Insufficient metadata to construct query" [] ;;;
      ret (Return NoValue)
  | Some query =>
      log_call Info "Querying: %s" [query] ;;;
      r <- browse query ;;
      match r with
      | Failed e =>
          log_call Exception "Failed to make identify query: %r" [query] ;;;
          ret (Return (Text (as_unicode e)))
      | Got response =>
          matches <-
            (if Py.truthy isbn then
               let location := geturl response in
               if negb (Py.contains "/search/" location) then
                 log_call Info "ISBN match location: %r" [location] ;;;
                 ret [location]
               else ret []
             else ret []) ;;
          if negb (Py.truthy isbn) then
            match read response with
            | Failed _ =>
                log_call Exception "Failed to parse shelfari page for query: %r" [query] ;;;
                ret (Return (Formatted "Failed to parse shelfari page for query: %r"
                                       [query]))
            | Got raw =>
                let raw := Py.strip raw in
                if negb (Py.nonempty raw) then
                  log_call Error "Failed to get raw result for query: %r" [query] ;;;
                  ret (Return NoValue)
                else
                  match fromstring raw with
                  | Raise _ =>
                      log_call Exception "Failed to parse shelfari page for query: %r"
                               [query] ;;;
                      ret (Return (Formatted
                                     "Failed to parse shelfari page for query: %r"
                                     [query]))
                  | Ok root =>
                      m <- _parse_search_results title authors root matches ;;
                      ret (Continue (m, query))
                  end
            end
          else ret (Continue (matches, query))
      end
  end.

(** The workers, each run to its end in the order of their start: one
    schedule of the threads that [identify] starts and joins. *)
Fixpoint start_all (i : nat) (urls : list string) : M unit :=
  match urls with
  | [] => ret tt
  | u :: rest => Worker.run (Worker.init u i) ;;; start_all (S i) rest
  end.

(** [abort] is the state of the abort event when [identify] tests it. *)
Definition identify (abort : bool) (title : option string)
           (authors : option (list string)) (identifiers : gmap string string)
  : M returned :=
  let shelfari_id := identifiers !! "shelfari" in
  let isbn := check_isbn (identifiers !! "isbn") in
  f <-
    (if Py.truthy shelfari_id
     then ret (Continue ([BASE_URL +:+ "/books/" +:+ default "" shelfari_id], ""))
     else search title authors identifiers isbn) ;;
  match f with
  | Return v => ret v
  | Continue (matches, query) =>
      if abort then ret NoValue
      else
        match matches with
        | [] =>
            log_call Error "No matches found with query: %r" [query] ;;;
            ret NoValue
        | _ => start_all 0 matches ;;; ret NoValue
        end
  end.

Definition get_book_url (identifiers : gmap string string)
  : option (string * string * string) :=
  let shelfari_id := identifiers !! "shelfari" in
  if Py.truthy shelfari_id
  then Some ("shelfari", default "" shelfari_id,
             BASE_URL +:+ "/books/" +:+ default "" shelfari_id)
  else None.

Definition get_cached_cover_url (identifiers : gmap string string) : M (option string) :=
  let url : option string := None in
  let shelfari_id := identifiers !! "shelfari" in
  shelfari_id <-
    (match shelfari_id with
     | None =>
         match identifiers !! "isbn" with
         | Some isbn => cached_isbn_to_identifier isbn
         | None => ret shelfari_id
         end
     | Some _ => ret shelfari_id
     end) ;;
  match shelfari_id with
  | Some sid => cached_identifier_to_cover_url sid
  | None => ret url
  end.

(** [mi.identifiers]: calibre keeps [mi.isbn] among the identifiers. *)
Definition identifiers_of (mi : Metadata.t) : gmap string string :=
  if Py.truthy (Metadata.isbn mi)
  then <["isbn" := default "" (Metadata.isbn mi)]> (Metadata.identifiers mi)
  else Metadata.identifiers mi.

(** The loop of [download_cover] over the sorted results. *)
Fixpoint first_cached (results : list Metadata.t) : M (option string) :=
  match results with
  | [] => ret None
  | mi :: rest =>
      cached_url <- get_cached_cover_url (identifiers_of mi) ;;
      match cached_url with
      | Some _ => ret cached_url
      | None => first_cached rest
      end
  end.

Section Cover.
(** [identify_results_keygen(title, authors, identifiers)] of calibre, as
    the order of its keys: [key_le a b] when the key of [a] is not above
    the key of [b]. *)
Variable key_le : Metadata.t -> Metadata.t -> bool.

Fixpoint insert_by_key (mi : Metadata.t) (sorted : list Metadata.t) : list Metadata.t :=
  match sorted with
  | [] => [mi]
  | other :: rest =>
      if key_le mi other then mi :: sorted else other :: insert_by_key mi rest
  end.

(** [results.sort(key=...)]: a stable sort. *)
Definition sort_by_key (results : list Metadata.t) : list Metadata.t :=
  foldr insert_by_key [] results.

(** The value is what the call puts on [result_queue]; [abort],
    [abort_after] and [abort_download] are the states of the abort event
    at its three tests (in [identify], after it, before the download). *)
Definition download_cover (abort abort_after abort_download : bool)
           (title : option string) (authors : option (list string))
           (identifiers : gmap string string) : M (list string) :=
  cached_url <- get_cached_cover_url identifiers ;;
  found <-
    (match cached_url with
     | None =>
         log_call Info "No cached cover found, running identify" [] ;;;
         rq <- private_queue (identify abort title authors identifiers) ;;
         if abort_after then ret (Return NoValue)
         else
           let results := sort_by_key (snd rq) in
           cached_url <- first_cached results ;;
           ret (Continue cached_url)
     | Some _ => ret (Continue cached_url)
     end) ;;
  match found with
  | Return _ => ret []
  | Continue None => log_call Info "No cover found" [] ;;; ret []
  | Continue (Some cached_url) =>
      if abort_download then ret []
      else
        log_call Info "Downloading cover from:" [cached_url] ;;;
        r <- browse cached_url ;;
        match (match r with Got resp => read resp | Failed f => Failed f end) with
        | Got cdata => ret [cdata]
        | Failed _ =>
            log_call Exception "Failed to download cover from:" [cached_url] ;;;
            ret []
        end
  end.

End Cover.

End WithHost.

End Shelfari.

(** ** A host to run the code on fixtures

    The helpers of calibre are replaced by small stand-ins: an ISBN check
    by length and check digit, tokens cut at blanks, lower case on ASCII
    letters, a two-entry language table.  The web and the HTML parser are
    given by the fixture. *)

Module Fixture.

Definition lower_char (c : ascii) : ascii :=
  let n := nat_of_ascii c in
  if Nat.leb 65 n && Nat.leb n 90 then ascii_of_nat (n + 32) else c.

Fixpoint lower (s : string) : string :=
  match s with
  | String c s' => String (lower_char c) (lower s')
  | EmptyString => EmptyString
  end.

Definition digits_of (s : string) : list nat :=
  map (fun c => nat_of_ascii c - 48) (list_ascii_of_string s).

Fixpoint weighted (ws : list nat) (ds : list nat) : nat :=
  match ws, ds with
  | w :: ws', d :: ds' => w * d + weighted ws' ds'
  | _, _ => 0
  end.

Definition check_isbn13 (s : string) : bool :=
  let ds := digits_of s in
  let sum := weighted [1; 3; 1; 3; 1; 3; 1; 3; 1; 3; 1; 3] ds in
  let check := (10 - sum mod 10) mod 10 in
  match nth_error ds 12 with
  | Some d => Nat.eqb d check
  | None => false
  end.

Definition check_isbn10 (s : string) : bool :=
  let ds := digits_of s in
  let check := (weighted [1; 2; 3; 4; 5; 6; 7; 8; 9] ds) mod 11 in
  match String.get 9 s with
  | Some c => if Ascii.eqb c "X" then Nat.eqb check 10
              else Nat.eqb (nat_of_ascii c - 48) check
  | None => false
  end.

Definition check_isbn (o : option string) : option string :=
  match o with
  | None => None
  | Some raw =>
      let s := Py.filter (fun c => Py.is_digit c || Ascii.eqb c "X") raw in
      if Nat.eqb (String.length s) 13 && forallb Py.is_digit (list_ascii_of_string s)
      then if check_isbn13 s then Some s else None
      else if Nat.eqb (String.length s) 10
              && forallb Py.is_digit (list_ascii_of_string (substring 0 9 s))
      then if check_isbn10 s then Some s else None
      else None
  end.

Definition words (s : string) : list string :=
  List.filter Py.nonempty (Py.split " " s).

Definition get_title_tokens (title : option string) (strip_joiners strip_subtitle : bool)
  : list string :=
  match title with
  | Some t => words t
  | None => []
  end.

Definition get_author_tokens (authors : option (list string)) (only_first_author : bool)
  : list string :=
  match authors with
  | Some (a :: rest) =>
      if only_first_author then words a else flat_map words (a :: rest)
  | _ => []
  end.

Definition canonicalize_lang (raw : option string) : option string :=
  match raw with
  | Some r =>
      if String.eqb (lower r) "swedish" then Some "swe"
      else if String.eqb (lower r) "english" then Some "eng"
      else None
  | None => None
  end.

Definition as_unicode (f : failure) : string :=
  match f with
  | HTTP404 => "HTTP Error 404: Not Found"
  | SocketTimeout => "timed out"
  | OtherFailure => "error"
  end.

(** A site: the answer to each request and the tree of each page text. *)
Definition host (web : string -> net response) (parse : string -> result element)
           (editions : bool) : Host :=
  Build_Host check_isbn get_title_tokens get_author_tokens lower canonicalize_lang
             (fun mi => mi) (fun c => c) as_unicode web parse text_content editions.

(** Two result pages with one entry each, "61 Hours" by Lee Child; the
    entry of the second carries an id. *)
Definition entry (attrs : list (string * string)) : element :=
  Element "li" attrs "" [
    Element "div" [("class", "text")] "" [
      Element "h3" [] "" [
        Element "a" [("href", "/books/6977769/61-Hours")] "61 Hours" [] ""] "";
      Element "a" [("href", "/authors/a1196/Lee-Child")] "Lee Child" [] ""] ""] "".

Definition results_page (attrs : list (string * string)) : element :=
  Element "html" [] "" [
    Element "head" [] "" [Element "title" [] "Search" [] ""] "";
    Element "body" [] "" [
      Element "ol" [("class", "book_results")] "" [entry attrs] ""] ""] "".

Definition plain_page : element := results_page [].
Definition page_with_id : element := results_page [("id", "SR6977769")].

(** A detail page: title, series, contributors, ISBN, cover, language. *)
Definition language_box (name : string) : element :=
  Element "div" [("id", "metacol")] "" [
    Element "div" [("id", "details")] "" [
      Element "div" [("class", "buttons")] "" [
        Element "div" [("id", "bookDataBox")] "" [
          Element "div" [] "" [
            Element "div" [("itemprop", "inLanguage")] name [] ""] ""] ""] ""] ""] "".

Definition detail_page (contributors : list element) (lang : string) : element :=
  Element "html" [] "" [
    Element "body" [] "" [
      Element "h1" [("class", "hover_title")] " 61 Hours (2010) " [] "";
      Element "span" [("class", "series")] "Jack Reacher: Book 14" [] "";
      Element "div" [("id", "WikiModule_Contributors")] "" [
        Element "ol" [] "" contributors ""] "";
      Element "acronym" [("title", "International Standard Book Number")]
              "978-0385340588" [] "";
      Element "div" [("id", "BookMasterImage")] "" [
        Element "img" [("src", "http://www.shelfari.com/cover.jpg")] "" [] ""] "";
      language_box lang] ""] "".

Definition book : element :=
  detail_page [Element "li" [] "Lee Child (Author)" [] ""] "English".
Definition book_without_authors : element := detail_page [] "English".
Definition swedish_book : element :=
  detail_page [Element "li" [] "Lee Child (Author)" [] ""] "Swedish".

Definition search_url : string :=
  "http://www.shelfari.com/search/books?Title=61+Hours&Author=Lee+Child".

Definition web (url : string) : net response :=
  if String.eqb url search_url then Got (Response url (Got "results"))
  else if String.prefix "http://www.shelfari.com/books/" url
       then Got (Response url (Got "book"))
       else Failed HTTP404.

Definition parse_with (results : element) (page : string) : result element :=
  if String.eqb page "results" then Ok results
  else if String.eqb page "book" then Ok book
  else Raise ValueError.

Definition site : Host := host web (parse_with plain_page) false.
Definition site_with_ids : Host := host web (parse_with page_with_id) false.

End Fixture.

(** ** The vocabulary of the properties *)

(** Induction on an element tree, with the property at hand for every
    child. *)
Section ElementInduction.
Variable P : element -> Prop.
Hypothesis node :
  forall t a tx kids tl, Forall P kids -> P (Element t a tx kids tl).

Fixpoint element_induction (e : element) : P e :=
  match e with
  | Element t a tx kids tl =>
      node t a tx kids tl
        ((fix all (ks : list element) : Forall P ks :=
            match ks with
            | [] => @List.Forall_nil _ P
            | k :: ks1 => @List.Forall_cons _ P k ks1 (element_induction k) (all ks1)
            end) kids)
  end.
End ElementInduction.


Definition substring_of (needle hay : string) : Prop :=
  exists pre post, hay = pre +:+ needle +:+ post.

(** A parameter of the query: absent when there is no token. *)
Definition param (name : string) (tokens : list string) : list string :=
  match tokens with
  | [] => []
  | _ => [name +:+ "=" +:+ Py.join "+" (map Py.quote tokens)]
  end.

Definition search_prefix : string := Shelfari.BASE_URL +:+ "/search/books?".

(** The reading of the ISBN-only lookup: a URL is built and it carries
    neither a title nor an author parameter. *)
Definition isbn_only (r : result (option string)) : Prop :=
  exists url, r = Ok (Some url) /\
              Py.contains "Title=" url = false /\
              Py.contains "Author=" url = false.

(** What a guarded extractor leaves behind: its value, or nothing when it
    raised. *)
Definition or_none {A} (r : result (option A)) : option A :=
  match r with Ok v => v | Raise _ => None end.

(** [if v: field = v] *)
Definition keep_truthy (o : option string) : option string :=
  if Py.truthy o then o else None.

(** Two worlds that differ by log entries only. *)
Definition same_but_log (w w' : world) : Prop :=
  requests w' = requests w /\
  result_queue w' = result_queue w /\
  isbn_to_identifier w' = isbn_to_identifier w /\
  identifier_to_cover_url w' = identifier_to_cover_url w /\
  exists more, log w' = log w ++ more.

(** The entries of [lm] as pairs of a name and its code, and the
    assignment [self.lang_map[name] = code]. *)
Definition pairs (table : list (string * list string)) : list (string * string) :=
  flat_map (fun '(code, names) => map (fun name => (name, code)) names) table.

Definition insert_pair (m : gmap string string) (kv : string * string)
  : gmap string string := <[kv.1 := kv.2]> m.

Section Vocabulary.
Context `{Host}.

(** One side of the filter: no token was supplied, or one of them occurs. *)
Definition side (tokens : list string) (hay : string) : Prop :=
  tokens = [] \/ exists t, In t tokens /\ substring_of (lower t) hay.

(** The text [q] that the branch for a title or authors joins. *)
Definition joined (isbn : option string) (title : option string)
           (authors : option (list string)) : string :=
  Py.join "&"
    (match isbn with Some i => ["Isbn=" +:+ i] | None => [] end
     ++ param "Title" (get_title_tokens title false true)
     ++ param "Author" (get_author_tokens authors true)).

(** The three mandatory values as [parse_details] holds them after its
    first three guarded steps. *)
Definition the_id (u : string) : option string :=
  match Worker.parse_shelfari_id u with Ok s => Some s | Raise _ => None end.

Definition the_title_series (root : element)
  : option string * option string * option (list string) :=
  match Worker.parse_title_series root with
  | Ok tss => tss
  | Raise _ => (None, None, None)
  end.

Definition the_title (root : element) : option string :=
  fst (fst (the_title_series root)).

Definition the_authors (root : element) : option (list string) :=
  match Worker.parse_authors root with Ok a => a | Raise _ => Some [] end.

Definition complete (u : string) (root : element) : bool :=
  Py.truthy (the_title root) && Py.truthy_list (the_authors root)
  && Py.truthy (the_id u).

(** The two entries logged for a page that lacks a mandatory value. *)
Definition incomplete_entries (u : string) (root : element) : list entry :=
  [Log Error "Could not find title/authors/shelfari id for %r" [u];
   Log Error "Shelfari: %r Title: %r Authors: %r"
       [default "None" (the_id u); default "None" (the_title root);
        Py.join ", " (default [] (the_authors root))]].

(** The ISBN and the cover address a worker resolved on a page. *)
Definition resolved_isbn (root : element) : option string :=
  keep_truthy (or_none (Worker.parse_isbn root)).

Definition resolved_cover (root : element) : option string :=
  keep_truthy (or_none (Worker.parse_cover root)).

(** The record that [parse_details] hands to [clean_downloaded_metadata]. *)
Definition built (rank : nat) (root : element) (title : string)
           (series : option string) (series_index : option (list string))
           (authors : list string) (sid : string) : Metadata.t :=
  Metadata.Make title authors
    (if Py.truthy series then series else None)
    (if Py.truthy series then series_index else None)
    (<["shelfari" := sid]> ∅)
    (resolved_isbn root)
    (or_none (Worker.parse_rating root))
    (or_none (Worker.parse_comments root))
    (Py.truthy (or_none (Worker.parse_cover root)))
    None None None
    (keep_truthy (or_none (Worker._parse_language root)))
    (Some rank).

Definition record_of (u : string) (rank : nat) (root : element) : Metadata.t :=
  built rank root (default "" (the_title root))
        (snd (fst (the_title_series root))) (snd (the_title_series root))
        (default [] (the_authors root)) (default "" (the_id u)).

End Vocabulary.

Definition isbn_request : gmap string string := {[ "isbn" := "9780385340588" ]}.


(** ** The vocabulary of the properties of the remaining code *)

Section Pipeline.
Context `{Host}.

(** The page that [get_details] hands to [parse_details]: the address was
    fetched, the text has no 404 title, it parses, and the tree has no
    element with the id [errorMessage]. *)
Definition fetched_page (u : string) : option element :=
  match open_novisit u with
  | Got resp =>
      match read resp with
      | Got raw =>
          if Py.contains "<title>404 - " (Py.strip raw) then None
          else
            match fromstring (Py.strip raw) with
            | Ok root =>
                match XPath.absolute
                        [XPath.Step XPath.Descendant None
                                    [XPath.AttrEq "id" "errorMessage"]] root with
                | [] => Some root
                | _ => None
                end
            | Raise _ => None
            end
      | Failed _ => None
      end
  | Failed _ => None
  end.

(** The complete page of an address, if it has one. *)
Definition complete_page (u : string) : option element :=
  match fetched_page u with
  | Some root => if complete u root then Some root else None
  | None => None
  end.

(** What the worker of rank [rank] for the address [u] puts. *)
Definition emitted_by (u : string) (rank : nat) : list Metadata.t :=
  match complete_page u with
  | Some root => [clean_downloaded_metadata (record_of u rank root)]
  | None => []
  end.

(** What the workers for [urls], ranked from [i] on, put. *)
Fixpoint emitted (i : nat) (urls : list string) : list Metadata.t :=
  match urls with
  | [] => []
  | u :: rest => emitted_by u i ++ emitted (S i) rest
  end.

(** The caches after the worker for [u]. *)
Definition isbn_cache_after (u : string) (m : gmap string string) : gmap string string :=
  match complete_page u with
  | Some root =>
      match resolved_isbn root with
      | Some i => <[i := default "" (the_id u)]> m
      | None => m
      end
  | None => m
  end.

Definition cover_cache_after (u : string) (m : gmap string string) : gmap string string :=
  match complete_page u with
  | Some root =>
      match resolved_cover root with
      | Some c => <[default "" (the_id u) := c]> m
      | None => m
      end
  | None => m
  end.

End Pipeline.

(** [has_tag t e]: [e] or an element below it has the tag [t]. *)
Fixpoint has_tag (t : string) (e : element) : bool :=
  match e with
  | Element t' _ _ kids _ =>
      String.eqb t' t ||
      (fix below (ks : list element) : bool :=
         match ks with
         | [] => false
         | k :: ks' => has_tag t k || below ks'
         end) kids
  end.

(** Every character of a text passes [p]. *)
Fixpoint all_chars (p : ascii -> bool) (s : string) : bool :=
  match s with
  | String c s' => p c && all_chars p s'
  | EmptyString => true
  end.

(** ** The vocabulary of the further properties *)

(** Two worlds with the same queue and the same caches. *)
Definition same_store (w w' : world) : Prop :=
  result_queue w' = result_queue w /\
  isbn_to_identifier w' = isbn_to_identifier w /\
  identifier_to_cover_url w' = identifier_to_cover_url w.

(** The address of the page of a book. *)
Definition book_url (sid : string) : string :=
  Shelfari.BASE_URL +:+ "/books/" +:+ sid.

(** The pages that the parser gives: no [div] right below the root. *)
Definition rooted (parse : string -> result element) : Prop :=
  forall raw root, parse raw = Ok root ->
                   Forall (fun k => tag k <> "div") (children root).

(** What a request for the text behind an address gives. *)
Definition fetch `{Host} (u : string) : net string :=
  match open_novisit u with
  | Got resp => read resp
  | Failed f => Failed f
  end.

(** What [download_cover] puts after its request. *)
Definition cover_data `{Host} (u : string) : list string :=
  match fetch u with
  | Got cdata => [cdata]
  | Failed _ => []
  end.

(** [unmatched m pre t]: the expression [m] matches at no position of
    [pre] in the text [pre +:+ t]. *)
Fixpoint unmatched (m : Re.matcher) (pre t : string) : Prop :=
  match pre with
  | EmptyString => True
  | String c p => m (String c p +:+ t) = None /\ unmatched m p t
  end.

(** A year of four characters. *)
Definition year_text (a b c d : ascii) : string :=
  String a (String b (String c (String d ""))).

(** The characters of a role, of a name before its role, and of a series
    before its number. *)
Definition inside_role (c : ascii) : bool := Py.is_word c || Py.is_space c.
Definition not_paren (c : ascii) : bool := negb (Ascii.eqb c "(").
Definition no_colon (c : ascii) : bool := negb (Ascii.eqb c ":").

(** [credited text author]: the text of a contributor entry, a name alone
    or a name with a role in brackets behind it, and the author it stands
    for. *)
Inductive credited : string -> string -> Prop :=
| credited_alone (name : string) :
    all_chars not_paren name = true ->
    credited name (Py.text_strip name)
| credited_with_role (name role : string) :
    all_chars not_paren name = true ->
    all_chars inside_role role = true ->
    credited (name +:+ " (" +:+ role +:+ ")") (Py.ustrip name).

Definition not_blank (c : ascii) : bool := negb (Ascii.eqb c " ").

(** The separators U+001C to U+001F, white space for [unicode.strip()]
    and not for [str.strip()], and the ASCII characters that are none of
    them. *)
Definition is_separator (c : ascii) : bool :=
  let n := nat_of_ascii c in Nat.leb 28 n && Nat.leb n 31.

Definition plain (c : ascii) : bool :=
  Nat.ltb (nat_of_ascii c) 128 && negb (is_separator c).

(** The characters of a query: the ones [quote] leaves as they are, and
    the marks of the escapes and of the parameters. *)
Definition query_char (c : ascii) : bool :=
  Py.always_safe c || existsb (Ascii.eqb c) ["%"; "="; "+"; "&"]%char.

(** ** A second site

    The site of [Fixture] with two more answers: a search by ISBN is
    redirected to the page of the book, and the cover can be fetched.
    More pages: with a rating list, with a description, with no-break
    spaces around the texts. *)

Module Catalogue.

Definition cover_url : string := "http://www.shelfari.com/cover.jpg".

Definition isbn_query : string :=
  "http://www.shelfari.com/search/books?Isbn=9780385340588&Title=61+Hours&Author=Lee+Child".

Definition book_page_url : string := "http://www.shelfari.com/books/6977769/61-Hours".

Definition web (url : string) : net response :=
  if String.prefix "http://www.shelfari.com/search/books?Isbn=" url
  then Got (Response book_page_url (Got "book"))
  else if String.eqb url cover_url then Got (Response url (Got "JPEG"))
       else Fixture.web url.

Definition site : Host :=
  Fixture.host web (Fixture.parse_with Fixture.plain_page) false.

(** A page whose rating list is written as the site writes it. *)
Definition rated_page : element :=
  Element "html" [] "" [
    Element "body" [] "" [
      Element "ul" [("class", "rating")] "" [
        Element "li" [("class", "current")] "4.50 stars" [] ""] ""] ""] "".


(** The no-break space U+00A0, and the page of a book with no-break
    spaces around its texts. *)
Definition nbsp : string := Py.utf8 160.

Definition padded_book : element :=
  Element "html" [] "" [
    Element "body" [] "" [
      Element "h1" [("class", "hover_title")] ("61 Hours" +:+ nbsp +:+ "(2010)") [] "";
      Element "span" [("class", "series")]
              ("Jack Reacher" +:+ nbsp +:+ ": Book 14") [] "";
      Element "div" [("id", "WikiModule_Contributors")] "" [
        Element "ol" [] "" [
          Element "li" [] ("Lee Child" +:+ nbsp) [] "";
          Element "li" [] (nbsp +:+ "Andy Martin" +:+ nbsp +:+ " (Foreword)") [] ""] ""] "";
      Element "div" [("class", "ugc nonTruncatedSum")] "" [
        Element "p" [] (" Reacher   is  back." +:+ nbsp) [] ""] "";
      Fixture.language_box ("English" +:+ nbsp)] ""] "".

(** A site that answers every request with an error page. *)
Definition error_page : element :=
  Element "html" [] "" [
    Element "body" [] "" [
      Element "div" [("id", "errorMessage")] "No such book" [] ""] ""] "".

Definition error_site : Host :=
  Fixture.host (fun url => Got (Response url (Got "error")))
               (fun _ => Ok error_page) false.

(** The page of a book whose title is a no-break space. *)
Definition untitled_book : element :=
  Element "html" [] "" [
    Element "body" [] "" [
      Element "h1" [("class", "hover_title")] nbsp [] "";
      Element "div" [("id", "WikiModule_Contributors")] "" [
        Element "ol" [] "" [Element "li" [] "Lee Child (Author)" [] ""] ""] "";
      Element "acronym" [("title", "International Standard Book Number")]
              "978-0385340588" [] "";
      Element "div" [("id", "BookMasterImage")] "" [
        Element "img" [("src", cover_url)] "" [] ""] ""] ""] "".

(** The cover cache after the page of the book was read. *)
Definition cached : world :=
  {| log := []; requests := []; result_queue := [];
     isbn_to_identifier := {[ "9780385340588" := "6977769" ]};
     identifier_to_cover_url := {[ "6977769" := cover_url ]} |}.

End Catalogue.

(** * Properties *)

(** ** Text *)

Lemma prefix_app (n h : string) :
  String.prefix n h = true <-> exists post, h = n +:+ post.
Proof.
  revert h. induction n as [|c n IH]; intros h.
  - split; [intros _; exists h; reflexivity | intros _; now destruct h].
  - destruct h as [|d h]; simpl.
    + split; [discriminate | intros [post Hp]; discriminate].
    + destruct (Ascii.ascii_dec c d) as [->|Hne].
      * rewrite IH. split; intros [post Hp]; exists post.
        -- now rewrite Hp.
        -- now inversion Hp.
      * split; [discriminate|].
        intros [post Hp]. inversion Hp. congruence.
Qed.

Lemma contains_nil (n : string) :
  Py.contains n "" = String.prefix n "" || false.
Proof. reflexivity. Qed.

Lemma contains_cons (n : string) (d : ascii) (h : string) :
  Py.contains n (String d h) = String.prefix n (String d h) || Py.contains n h.
Proof. reflexivity. Qed.

Lemma contains_substring (n h : string) :
  Py.contains n h = true <-> substring_of n h.
Proof.
  unfold substring_of. induction h as [|d h IH].
  - rewrite contains_nil, orb_false_r, prefix_app. split.
    + intros [post Hp]. exists "", post. exact Hp.
    + intros [pre [post Hp]]. destruct pre; simpl in Hp.
      * now exists post.
      * discriminate.
  - rewrite contains_cons, orb_true_iff, prefix_app, IH. split.
    + intros [[post Hp]|[pre [post Hp]]].
      * exists "", post. exact Hp.
      * exists (String d pre), post. simpl. now rewrite Hp.
    + intros [pre [post Hp]]. destruct pre as [|c pre]; simpl in Hp.
      * left. now exists post.
      * right. inversion Hp. now exists pre, post.
Qed.

(** ** The match filter of the result parser *)

Section Filter.
Context `{Host}.

Lemma first_found_existsb (tokens : list string) (hay : string) (found : bool) :
  Shelfari.first_found tokens hay found =
  existsb (fun t => Py.contains (lower t) hay) tokens || found.
Proof.
  induction tokens as [|t rest IH]; simpl.
  - reflexivity.
  - destruct (Py.contains (lower t) hay); simpl; [reflexivity | exact IH].
Qed.

Lemma side_existsb (tokens : list string) (hay : string) :
  existsb (fun t => Py.contains (lower t) hay) tokens
  || match tokens with [] => true | _ => false end = true
  <-> side tokens hay.
Proof.
  unfold side. rewrite orb_true_iff, existsb_exists. split.
  - intros [[t [Hin Hc]]|Hnil].
    + right. exists t. split; [exact Hin | now apply contains_substring].
    + left. now destruct tokens.
  - intros [->|[t [Hin Hs]]].
    + now right.
    + left. exists t. split; [exact Hin | now apply contains_substring].
Qed.

Lemma ismatch_iff (title_tokens author_tokens : list string)
      (T : string) (A : list string) :
  Shelfari.ismatch title_tokens author_tokens T A = true <->
  side title_tokens (lower T) /\ side author_tokens (lower (Py.join " " A)).
Proof.
  unfold Shelfari.ismatch. rewrite andb_true_iff, !first_found_existsb.
  rewrite <- !side_existsb. split; intros [Ht Ha]; split; try exact Ht.
  - destruct author_tokens; [reflexivity | exact Ha].
  - destruct author_tokens; [reflexivity | exact Ha].
Qed.

End Filter.

(** C4. An entry with display title [T] and display authors [A] is kept
    exactly when (no title token was supplied or one of them, lowered, is a
    substring of the lowered [T]) and (no author token was supplied or one
    of them, lowered, is a substring of the lowered authors joined by a
    blank).  With title tokens 61, hours and author token child, "61 Hours"
    by Lee Child is kept and "Unrelated Book" by Lee Child is rejected. *)
Theorem C4_ismatch_filter :
  (forall (H : Host) (title_tokens author_tokens : list string)
          (T : string) (A : list string),
      Shelfari.ismatch title_tokens author_tokens T A = true <->
      (title_tokens = [] \/
       exists t, In t title_tokens /\ substring_of (lower t) (lower T)) /\
      (author_tokens = [] \/
       exists a, In a author_tokens /\
                 substring_of (lower a) (lower (Py.join " " A)))) /\
  @Shelfari.ismatch Fixture.site ["61"; "hours"] ["child"]
                    "61 Hours" ["Lee Child"] = true /\
  @Shelfari.ismatch Fixture.site ["61"; "hours"] ["child"]
                    "Unrelated Book" ["Lee Child"] = false.
Proof.
  split; [|split; reflexivity].
  intros H tt at_ T A. apply ismatch_iff.
Qed.

(** ** The query builder *)

Lemma join_cons_nonempty (sep : string) (c : ascii) (x : string) (l : list string) :
  Py.nonempty (Py.join sep (String c x :: l)) = true.
Proof. destruct l; reflexivity. Qed.

Section Query.
Context `{Host}.

Lemma create_query_unfold (title : option string) (authors : option (list string))
      (identifiers : gmap string string) :
  Shelfari._create_query title authors identifiers =
  let isbn := check_isbn (identifiers !! "isbn") in
  if Py.truthy title || Py.truthy_list authors then
    let q := joined isbn title authors in
    if Py.nonempty q then Ok (Some (search_prefix +:+ q)) else Ok None
  else
    match isbn with
    | Some _ => Raise TypeError
    | None => Ok None
    end.
Proof.
  unfold Shelfari._create_query, joined, param, search_prefix. cbv zeta.
  destruct (check_isbn (identifiers !! "isbn")) as [i|];
    destruct (Py.truthy title || Py.truthy_list authors);
    try reflexivity;
    destruct (get_title_tokens title false true) as [|t ts];
    destruct (get_author_tokens authors true) as [|a aa];
    reflexivity.
Qed.

Lemma joined_with_isbn (i : string) (title : option string)
      (authors : option (list string)) :
  Py.nonempty (joined (Some i) title authors) = true.
Proof. unfold joined. cbn [app]. apply join_cons_nonempty. Qed.

Lemma joined_without_isbn (title : option string) (authors : option (list string)) :
  Py.nonempty (joined None title authors) = false <->
  get_title_tokens title false true = [] /\ get_author_tokens authors true = [].
Proof.
  unfold joined, param.
  destruct (get_title_tokens title false true) as [|t ts];
    destruct (get_author_tokens authors true) as [|a aa]; cbn;
    split; try discriminate; try (intros [? ?]; discriminate); auto.
Qed.

(** The builder answers [None] exactly when there is no valid ISBN and
    no token to search for. *)
Lemma create_query_None (title : option string) (authors : option (list string))
      (identifiers : gmap string string) :
  Shelfari._create_query title authors identifiers = Ok None <->
  check_isbn (identifiers !! "isbn") = None /\
  (Py.truthy title || Py.truthy_list authors = false \/
   (get_title_tokens title false true = [] /\ get_author_tokens authors true = [])).
Proof.
  rewrite create_query_unfold. cbv zeta.
  destruct (check_isbn (identifiers !! "isbn")) as [i|].
  - destruct (Py.truthy title || Py.truthy_list authors).
    + rewrite joined_with_isbn. split; [discriminate | intros [? _]; discriminate].
    + split; [discriminate | intros [? _]; discriminate].
  - destruct (Py.truthy title || Py.truthy_list authors).
    + rewrite <- joined_without_isbn.
      destruct (Py.nonempty (joined None title authors)).
      * split; [discriminate | intros [_ [?|?]]; discriminate].
      * split; [intros _; split; [reflexivity | right; reflexivity] | reflexivity].
    + split; [intros _; split; [reflexivity | left; reflexivity] | reflexivity].
Qed.

(** Without a valid ISBN the builder never raises. *)
Lemma create_query_without_isbn (title : option string) (authors : option (list string))
      (identifiers : gmap string string) :
  check_isbn (identifiers !! "isbn") = None ->
  exists q, Shelfari._create_query title authors identifiers = Ok q.
Proof.
  intros Hi. rewrite create_query_unfold, Hi. cbv zeta.
  destruct (Py.truthy title || Py.truthy_list authors); [|eauto].
  destruct (Py.nonempty (joined None title authors)); eauto.
Qed.

End Query.

(** C1, as stated, fails: with the valid ISBN 9780385340588, the title
    "61 Hours" and the author Lee Child, the query carries the title and the
    author parameters after the ISBN parameter. *)
Lemma C1_isbn_only_counterexample :
  @check_isbn Fixture.site (isbn_request !! "isbn") = Some "9780385340588" /\
  @Shelfari._create_query Fixture.site (Some "61 Hours") (Some ["Lee Child"])
                          isbn_request =
  Ok (Some "http://www.shelfari.com/search/books?Isbn=9780385340588&Title=61+Hours&Author=Lee+Child") /\
  ~ isbn_only (@Shelfari._create_query Fixture.site (Some "61 Hours")
                                       (Some ["Lee Child"]) isbn_request).
Proof.
  split; [reflexivity|]. split; [reflexivity|].
  intros [url [Hurl [Ht _]]].
  assert (Hq : @Shelfari._create_query Fixture.site (Some "61 Hours")
                 (Some ["Lee Child"]) isbn_request =
               Ok (Some "http://www.shelfari.com/search/books?Isbn=9780385340588&Title=61+Hours&Author=Lee+Child"))
    by reflexivity.
  rewrite Hq in Hurl. inversion Hurl; subst url. discriminate Ht.
Qed.

(** C1, amended.  For a request with a valid ISBN and a title or authors,
    the query is the search address followed by the ISBN parameter, then
    the title parameter when the title gives tokens, then the author
    parameter when the first author gives tokens, joined by [&]. *)
Theorem C1_query_with_isbn `{Host} (title : option string)
        (authors : option (list string)) (identifiers : gmap string string)
        (i : string) :
  check_isbn (identifiers !! "isbn") = Some i ->
  Py.truthy title || Py.truthy_list authors = true ->
  Shelfari._create_query title authors identifiers =
  Ok (Some (search_prefix +:+
            Py.join "&" (("Isbn=" +:+ i)
                         :: param "Title" (get_title_tokens title false true)
                         ++ param "Author" (get_author_tokens authors true)))).
Proof.
  intros Hi Ht. rewrite create_query_unfold, Hi, Ht. cbv zeta.
  rewrite joined_with_isbn. reflexivity.
Qed.

Lemma C1_query_with_isbn_witness :
  @Shelfari._create_query Fixture.site (Some "61 Hours") (Some ["Lee Child"])
                          isbn_request =
  Ok (Some (search_prefix +:+
            Py.join "&" (("Isbn=" +:+ "9780385340588")
                         :: param "Title" ["61"; "Hours"]
                         ++ param "Author" ["Lee"; "Child"]))).
Proof.
  apply (@C1_query_with_isbn Fixture.site (Some "61 Hours") (Some ["Lee Child"])
                             isbn_request "9780385340588");
    reflexivity.
Defined.

(** C7 fails on the code: for a request with a valid ISBN and neither a
    title nor authors, [q] is still a list when it is added to the address,
    so [_create_query] raises, and so does [identify], before any request
    and any log entry. *)
Theorem C7_isbn_alone_raises `{Host} (title : option string)
        (authors : option (list string)) (identifiers : gmap string string)
        (i : string) :
  check_isbn (identifiers !! "isbn") = Some i ->
  Py.truthy title || Py.truthy_list authors = false ->
  Shelfari._create_query title authors identifiers = Raise TypeError /\
  (Py.truthy (identifiers !! "shelfari") = false ->
   forall (abort : bool) (w : world),
     Shelfari.identify abort title authors identifiers w = (Raise TypeError, w)).
Proof.
  intros Hi Ht.
  assert (Hq : Shelfari._create_query title authors identifiers = Raise TypeError).
  { rewrite create_query_unfold, Hi, Ht. reflexivity. }
  split; [exact Hq|].
  intros Hs abort w.
  unfold Shelfari.identify, Shelfari.search, bind, lift.
  rewrite Hs, Hq. reflexivity.
Qed.

Lemma C7_isbn_alone_raises_witness :
  @Shelfari._create_query Fixture.site None None isbn_request = Raise TypeError /\
  (Py.truthy (isbn_request !! "shelfari") = false ->
   forall (abort : bool) (w : world),
     @Shelfari.identify Fixture.site abort None None isbn_request w
     = (Raise TypeError, w)).
Proof.
  apply (@C7_isbn_alone_raises Fixture.site None None isbn_request "9780385340588");
    reflexivity.
Defined.

(** The part of C7 that the code keeps: when the builder answers [None],
    [identify] logs the lack of metadata and makes no request. *)
Lemma identify_insufficient `{Host} (abort : bool) (title : option string)
      (authors : option (list string)) (identifiers : gmap string string) (w : world) :
  Py.truthy (identifiers !! "shelfari") = false ->
  Shelfari._create_query title authors identifiers = Ok None ->
  exists w',
    Shelfari.identify abort title authors identifiers w = (Ok Shelfari.NoValue, w') /\
    log w' = log w ++ [Log Error "Insufficient metadata to construct query" []] /\
    requests w' = requests w /\
    result_queue w' = result_queue w.
Proof.
  intros Hs Hq. eexists.
  unfold Shelfari.identify, Shelfari.search, bind, lift, log_call, ret.
  rewrite Hs, Hq. cbn. repeat split; reflexivity.
Qed.

(** ** The result parser *)

Section Results.
Context `{Host}.

(** The address of a kept entry is looked up below [root]; when [root] has
    no such link among its own children, nothing is ever appended. *)
Lemma each_result_appends_nothing (title_tokens author_tokens : list string)
      (root : element) (results : list element) :
  XPath.attr_values "href" (XPath.relative Shelfari.entry_title_path root) = [] ->
  forall (matches : list string) (w : world) (m : list string) (w' : world),
    Shelfari.each_result title_tokens author_tokens root results matches w = (Ok m, w') ->
    m = matches.
Proof.
  intros Hroot. induction results as [|r rest IH]; intros matches w m w'.
  - cbn. unfold ret. intros E. now inversion E.
  - cbn [Shelfari.each_result]. unfold bind at 1.
    destruct (Py.truthy (get r "id")).
    + unfold raise. discriminate.
    + unfold ret at 1.
      destruct (XPath.relative Shelfari.entry_title_path r) as [|a ?].
      { unfold raise. discriminate. }
      destruct (XPath.relative Shelfari.entry_authors_path r) as [|b ?].
      { unfold raise. discriminate. }
      destruct (negb _).
      * unfold bind, log_call. apply IH.
      * rewrite Hroot. apply IH.
Qed.

(** An entry with an id stops the parser with a [NameError]. *)
Lemma each_result_id_raises (title_tokens author_tokens : list string)
      (root r : element) (rest : list element) (matches : list string) (w : world) :
  Py.truthy (get r "id") = true ->
  Shelfari.each_result title_tokens author_tokens root (r :: rest) matches w
  = (Raise NameError, w).
Proof.
  intros Hid. cbn [Shelfari.each_result]. unfold bind at 1.
  rewrite Hid. reflexivity.
Qed.

End Results.

Lemma last_cons_default (chain : list element) :
  forall e k, List.last (e :: chain) k = List.last chain e.
Proof.
  induction chain as [|c chain IH]; intros e k; [reflexivity|].
  change (List.last (e :: c :: chain) k) with (List.last (c :: chain) k).
  now rewrite !IH.
Qed.

(** A match of the entry title path ends, at the top of its chain, in a
    [div]. *)
Lemma title_path_top (n : element) (up : list element) :
  XPath.matches (rev Shelfari.entry_title_path) (n :: up) = true ->
  tag (List.last up n) = "div".
Proof.
  cbn. intros Hm.
  destruct up as [|p [|g [|x up]]]; cbn in Hm;
    rewrite ?andb_false_r in Hm; try discriminate.
  apply andb_true_iff in Hm. destruct Hm as [_ Hm].
  apply andb_true_iff in Hm. destruct Hm as [_ Hm].
  apply andb_true_iff in Hm. destruct Hm as [Hm _].
  apply andb_true_iff in Hm. destruct Hm as [Hm _].
  cbn. now apply String.eqb_eq.
Qed.

Lemma select_below_other (e : element) :
  forall chain,
    tag (List.last chain e) <> "div" ->
    XPath.select (rev Shelfari.entry_title_path) chain e = [].
Proof.
  induction e as [t a tx kids tl IH] using element_induction. intros chain Htop.
  cbn [XPath.select].
  destruct (XPath.matches _ (Element t a tx kids tl :: chain)) eqn:Hm.
  { apply title_path_top in Hm. contradiction. }
  cbn [app]. clear Hm.
  set (e0 := Element t a tx kids tl) in *. clearbody e0.
  induction IH as [|k ks Hk _ IHks]; [reflexivity|].
  rewrite Hk, IHks; [reflexivity|]. now rewrite last_cons_default.
Qed.

Lemma root_without_div (root : element) :
  Forall (fun k => tag k <> "div") (children root) ->
  XPath.attr_values "href" (XPath.relative Shelfari.entry_title_path root) = [].
Proof.
  intros Hk. unfold XPath.relative.
  induction Hk as [|k ks Hk _ IH]; [reflexivity|].
  cbn [flat_map]. rewrite select_below_other by exact Hk. exact IH.
Qed.

(** C2 fails on the code: the address of a kept entry is read with a path
    relative to the page root instead of the entry.  For a page whose root
    has no [div] among its children (every page rooted at [html], whose
    children are [head] and [body]) the parser appends nothing, whatever
    entries pass the filter. *)
Theorem C2_kept_entry_not_appended `{Host} (orig_title : option string)
        (orig_authors : option (list string)) (root : element)
        (matches : list string) (w : world) :
  Forall (fun k => tag k <> "div") (children root) ->
  forall (m : list string) (w' : world),
    Shelfari._parse_search_results orig_title orig_authors root matches w = (Ok m, w') ->
    m = matches.
Proof.
  intros Hroot m w'. unfold Shelfari._parse_search_results.
  destruct (XPath.absolute Shelfari.results_path root) as [|r rest] eqn:E.
  - unfold ret. intros E'. now inversion E'.
  - apply each_result_appends_nothing. now apply root_without_div.
Qed.

(** The page of the fixture has one entry, "61 Hours" by Lee Child, which
    passes the filter for the request "61 Hours" by Lee Child and has a
    link; the candidates stay empty. *)
Lemma C2_kept_entry_not_appended_witness :
  (exists entry,
      XPath.absolute Shelfari.results_path Fixture.plain_page = [entry] /\
      @Shelfari.ismatch Fixture.site ["61"; "Hours"] ["Lee"; "Child"]
                        "61 Hours" ["Lee Child"] = true /\
      XPath.attr_values "href" (XPath.relative Shelfari.entry_title_path entry)
      = ["/books/6977769/61-Hours"]) /\
  @Shelfari._parse_search_results Fixture.site (Some "61 Hours") (Some ["Lee Child"])
                                  Fixture.plain_page [] empty_world
  = (Ok [], empty_world) /\
  forall (m : list string) (w' : world),
    @Shelfari._parse_search_results Fixture.site (Some "61 Hours") (Some ["Lee Child"])
                                    Fixture.plain_page [] empty_world = (Ok m, w') ->
    m = [].
Proof.
  split; [eexists; repeat split; reflexivity|].
  split; [reflexivity|].
  apply (@C2_kept_entry_not_appended Fixture.site (Some "61 Hours") (Some ["Lee Child"])
                                     Fixture.plain_page [] empty_world).
  repeat constructor; discriminate.
Defined.

(** C9 fails on the code: a title search whose result page has a first
    entry with an id makes [identify] raise [NameError] to its caller. *)
Theorem C9_entry_id_raises `{Host} (abort : bool) (title : option string)
        (authors : option (list string)) (identifiers : gmap string string)
        (query raw : string) (resp : response) (root r : element)
        (rest : list element) (w : world) :
  Py.truthy (identifiers !! "shelfari") = false ->
  check_isbn (identifiers !! "isbn") = None ->
  Shelfari._create_query title authors identifiers = Ok (Some query) ->
  open_novisit query = Got resp ->
  read resp = Got raw ->
  Py.nonempty (Py.strip raw) = true ->
  fromstring (Py.strip raw) = Ok root ->
  XPath.absolute Shelfari.results_path root = r :: rest ->
  Py.truthy (get r "id") = true ->
  fst (Shelfari.identify abort title authors identifiers w) = Raise NameError.
Proof.
  intros Hs Hi Hq Ho Hr Hraw Hroot Hres Hid.
  unfold Shelfari.identify, Shelfari.search, bind, lift, log_call, browse, ret.
  rewrite Hs, Hq, Hi, Ho. cbn [Py.truthy negb]. rewrite Hr, Hraw. cbn [negb].
  rewrite Hroot. unfold Shelfari._parse_search_results. rewrite Hres.
  rewrite each_result_id_raises by exact Hid. reflexivity.
Qed.

Lemma C9_entry_id_raises_witness :
  fst (@Shelfari.identify Fixture.site_with_ids false (Some "61 Hours")
                          (Some ["Lee Child"]) ∅ empty_world)
  = Raise NameError.
Proof.
  apply (@C9_entry_id_raises Fixture.site_with_ids false (Some "61 Hours")
           (Some ["Lee Child"]) ∅ Fixture.search_url "results"
           (Response Fixture.search_url (Got "results")) Fixture.page_with_id
           (Fixture.entry [("id", "SR6977769")]) [] empty_world);
    reflexivity.
Defined.

(** ** The fetch worker *)

Lemma same_but_log_refl (w : world) : same_but_log w w.
Proof. repeat split. exists []. now rewrite app_nil_r. Qed.

Lemma same_but_log_trans (w1 w2 w3 : world) :
  same_but_log w1 w2 -> same_but_log w2 w3 -> same_but_log w1 w3.
Proof.
  intros (R1 & Q1 & I1 & C1 & m1 & L1) (R2 & Q2 & I2 & C2 & m2 & L2).
  repeat split; try congruence.
  exists (m1 ++ m2). rewrite L2, L1. now rewrite app_assoc.
Qed.

Lemma log_call_same (l : level) (t : string) (a : list string) (w : world) :
  same_but_log w (snd (log_call l t a w)).
Proof. repeat split. now exists [Log l t a]. Qed.

Section Details.
Context `{Host}.

(** A guarded step never raises and touches the log only. *)
Lemma guarded_lift {A B} (self : Worker.t) (tpl : string) (otherwise : A)
      (r : result B) (f : B -> A) (w : world) :
  exists w',
    Worker.guarded self tpl otherwise (x <- lift r ;; ret (f x)) w
    = (Ok (match r with Ok x => f x | Raise _ => otherwise end), w') /\
    same_but_log w w'.
Proof.
  unfold Worker.guarded, try_except, bind, lift, ret.
  destruct r as [x|e].
  - exists w. split; [reflexivity | apply same_but_log_refl].
  - eexists. split; [reflexivity|]. apply (log_call_same Exception).
Qed.

Lemma guarded_result {A} (self : Worker.t) (tpl : string) (otherwise : A)
      (r : result A) (w : world) :
  exists w',
    Worker.guarded self tpl otherwise (lift r) w
    = (Ok (match r with Ok x => x | Raise _ => otherwise end), w') /\
    same_but_log w w'.
Proof.
  unfold Worker.guarded, try_except, bind, lift, ret.
  destruct r as [x|e].
  - exists w. split; [reflexivity | apply same_but_log_refl].
  - eexists. split; [reflexivity|]. apply (log_call_same Exception).
Qed.

Lemma parse_isbn_total (root : element) : exists i, Worker.parse_isbn root = Ok i.
Proof. unfold Worker.parse_isbn. destruct (XPath.absolute _ root); eauto. Qed.

Lemma parse_cover_total (root : element) : exists c, Worker.parse_cover root = Ok c.
Proof. unfold Worker.parse_cover. destruct (XPath.attr_values _ _); eauto. Qed.

Lemma parse_publisher_cases (root : element) :
  Worker.parse_publisher_and_date root = Raise TypeError \/
  Worker.parse_publisher_and_date root = Ok (None, None).
Proof. unfold Worker.parse_publisher_and_date. destruct (existsb _ _); auto. Qed.

Ltac step S :=
  match goal with
  | |- context [bind (Worker.guarded ?self ?tpl ?o
                        (bind (lift ?r) (fun x => ret (@?f x)))) ?k ?w] =>
      let w' := fresh "w" in
      let E := fresh "E" in
      destruct (guarded_lift self tpl o r f w) as [w' [E S]];
      unfold bind at 1; rewrite E; clear E
  end.

(** The emitting block: one record is put, the caches are written for the
    identifiers found, nothing is requested. *)
Lemma emit_runs (u : string) (rank : nat) (root : element) (title : string)
      (series : option string) (series_index : option (list string))
      (authors : list string) (sid : string) (w : world) :
  Py.nonempty sid = true ->
  exists self' w',
    Worker.emit (Worker.init u rank) root title series series_index authors sid w
    = (Ok self', w') /\
    result_queue w' = result_queue w ++
      [clean_downloaded_metadata (built rank root title series series_index authors sid)] /\
    requests w' = requests w /\
    isbn_to_identifier w' =
      match resolved_isbn root with
      | Some i => <[i := sid]> (isbn_to_identifier w)
      | None => isbn_to_identifier w
      end /\
    identifier_to_cover_url w' =
      match resolved_cover root with
      | Some c => <[sid := c]> (identifier_to_cover_url w)
      | None => identifier_to_cover_url w
      end.
Proof.
  intros Hsid. unfold Worker.emit. cbv zeta.
  step S1.
  destruct (parse_isbn_total root) as [i Ei]. rewrite Ei.
  destruct (parse_cover_total root) as [c Ec].
  pose proof (parse_publisher_cases root) as Hpub.
  destruct (Py.truthy i) eqn:Ti; cbv iota beta;
    step S2; step S3; step S4; rewrite Ec;
    step S5; step S6; step S7;
    cbn [Worker.url Worker.relevance Worker.cover_url Worker.shelfari_id
         Worker.isbn Worker.init];
    assert (S : same_but_log w w6)
      by (repeat (eapply same_but_log_trans; [eassumption|]); apply same_but_log_refl);
    destruct S as (SR & SQ & SI & SC & _);
    unfold Worker.write_caches, resolved_isbn, resolved_cover, keep_truthy, or_none;
    cbn [Worker.url Worker.relevance Worker.cover_url Worker.shelfari_id
         Worker.isbn Py.truthy default];
    rewrite Hsid, ?Ti, ?Ei, ?Ec;
    destruct (Py.truthy c) eqn:Tc;
    unfold bind, cache_isbn_to_identifier, cache_identifier_to_cover_url, put, ret;
    (eexists _, _; split; [reflexivity|]);
    cbn [result_queue requests isbn_to_identifier identifier_to_cover_url];
    rewrite SQ, SR, ?SI, ?SC.
  all: split; [|split; [reflexivity|]].
  all: try (f_equal; f_equal; f_equal;
            unfold built, resolved_isbn, keep_truthy, or_none;
            rewrite Ei, Ec, ?Ti, ?Tc;
            destruct Hpub as [-> | ->];
            destruct (Worker.parse_rating root), (Worker.parse_comments root),
              (Worker._parse_language root) as [l|], (Py.truthy series);
            try destruct (Py.truthy l);
            reflexivity).
  all: rewrite ?Ti, ?Tc; destruct i, c; try discriminate; split; reflexivity.
Qed.

Lemma incomplete_complete (u : string) (root : element) :
  Worker.incomplete (the_title root) (the_authors root) (the_id u)
  = negb (complete u root).
Proof.
  unfold Worker.incomplete, complete.
  destruct (Py.truthy (the_title root)), (Py.truthy_list (the_authors root)),
    (Py.truthy (the_id u)); reflexivity.
Qed.

(** [parse_details] never raises.  On a complete page it puts the record
    of the page and writes the caches; on an incomplete page it logs and
    leaves queue and caches as they were. *)
Lemma parse_details_runs (u : string) (rank : nat) (root : element) (w : world) :
  exists self' w',
    Worker.parse_details (Worker.init u rank) root w = (Ok self', w') /\
    requests w' = requests w /\
    if complete u root then
      result_queue w' = result_queue w ++
        [clean_downloaded_metadata (record_of u rank root)] /\
      isbn_to_identifier w' =
        match resolved_isbn root with
        | Some i => <[i := default "" (the_id u)]> (isbn_to_identifier w)
        | None => isbn_to_identifier w
        end /\
      identifier_to_cover_url w' =
        match resolved_cover root with
        | Some c => <[default "" (the_id u) := c]> (identifier_to_cover_url w)
        | None => identifier_to_cover_url w
        end
    else
      self' = Worker.init u rank /\
      result_queue w' = result_queue w /\
      isbn_to_identifier w' = isbn_to_identifier w /\
      identifier_to_cover_url w' = identifier_to_cover_url w /\
      exists before, log w' = log w ++ before ++ incomplete_entries u root.
Proof.
  unfold Worker.parse_details.
  step S1.
  destruct (guarded_result (Worker.init u rank)
              "Error parsing title and series for url: %r" (None, None, None)
              (Worker.parse_title_series root) w0) as [w1 [E2 S2]].
  unfold bind at 1. rewrite E2. clear E2.
  fold (the_title_series root).
  destruct (the_title_series root) as [[title series] series_index] eqn:Etss.
  destruct (guarded_result (Worker.init u rank)
              "Error parsing authors for url: %r" (Some [])
              (Worker.parse_authors root) w1) as [w2 [E3 S3]].
  unfold bind at 1. rewrite E3. clear E3.
  fold (the_authors root). cbn [Worker.url Worker.init]. fold (the_id u).
  assert (Et : title = the_title root) by (unfold the_title; now rewrite Etss).
  rewrite Et, incomplete_complete.
  assert (S : same_but_log w w2)
    by (repeat (eapply same_but_log_trans; [eassumption|]); apply same_but_log_refl).
  destruct S as (SR & SQ & SI & SC & more & SL).
  destruct (complete u root) eqn:Ec; cbn [negb].
  - assert (Hsid : Py.nonempty (default "" (the_id u)) = true).
    { unfold complete in Ec. apply andb_true_iff in Ec. destruct Ec as [_ Hs].
      destruct (the_id u); [exact Hs | discriminate]. }
    destruct (emit_runs u rank root (default "" (the_title root)) series
                        series_index (default [] (the_authors root))
                        (default "" (the_id u)) w2 Hsid)
      as (self' & w' & Ee & Eq & Er & Ei & Eu).
    exists self', w'. split; [exact Ee|]. split; [congruence|].
    unfold record_of. rewrite Etss. cbn [fst snd].
    rewrite Eq, Ei, Eu, SQ, SI, SC. repeat split; reflexivity.
  - unfold bind, log_call, ret. eexists _, _. split; [reflexivity|].
    cbn [requests result_queue isbn_to_identifier identifier_to_cover_url log].
    repeat split; try assumption.
    exists more. rewrite SL, <- !app_assoc. reflexivity.
Qed.

End Details.

(** ** Python floats: the comparison with 100 *)

Section Floats.
Local Open Scope Z_scope.













End Floats.

(** ** What a worker emits *)

(** C3. [parse_details] puts a record on the result queue only when the
    title, the authors and the site identifier are all present.  When one
    of them is missing it logs the two error entries and ends: the queue
    and both caches are as before, and nothing was requested. *)
Theorem C3_mandatory_fields `{Host} (u : string) (rank : nat) (root : element)
        (w : world) :
  exists self' w',
    Worker.parse_details (Worker.init u rank) root w = (Ok self', w') /\
    requests w' = requests w /\
    if Py.truthy (the_title root) && Py.truthy_list (the_authors root)
       && Py.truthy (the_id u)
    then exists mi, result_queue w' = result_queue w ++ [mi]
    else result_queue w' = result_queue w /\
         isbn_to_identifier w' = isbn_to_identifier w /\
         identifier_to_cover_url w' = identifier_to_cover_url w /\
         exists before, log w' = log w ++ before ++ incomplete_entries u root.
Proof.
  destruct (parse_details_runs u rank root w) as (self' & w' & E & R & Hc).
  exists self', w'. split; [exact E|]. split; [exact R|].
  fold (complete u root). destruct (complete u root).
  - destruct Hc as [Q _]. eauto.
  - destruct Hc as (_ & Q & I & C & L). auto.
Qed.

(** The page of the fixture without contributors: ISBN, cover and language
    are found, and no record is put. *)
Lemma missing_authors_no_record :
  resolved_isbn Fixture.book_without_authors = Some "9780385340588" /\
  resolved_cover Fixture.book_without_authors
  = Some "http://www.shelfari.com/cover.jpg" /\
  the_title Fixture.book_without_authors = Some "61 Hours" /\
  the_authors Fixture.book_without_authors = None /\
  result_queue
    (snd (@Worker.parse_details Fixture.site
            (Worker.init "http://www.shelfari.com/books/6977769" 0)
            Fixture.book_without_authors empty_world)) = [].
Proof. repeat split; reflexivity. Qed.

(** A page whose title is a no-break space: [.strip()] leaves the empty
    text, and no record is put although authors, ISBN and cover are
    found. *)
Lemma blank_title_no_record :
  the_title Catalogue.untitled_book = Some "" /\
  the_authors Catalogue.untitled_book = Some ["Lee Child"] /\
  complete "http://www.shelfari.com/books/6977769" Catalogue.untitled_book = false /\
  result_queue
    (snd (@Worker.parse_details Fixture.site
            (Worker.init "http://www.shelfari.com/books/6977769" 0)
            Catalogue.untitled_book empty_world)) = [].
Proof. repeat split; reflexivity. Qed.

(** C6. A worker that reaches the emitting step puts one record whose
    relevance is the rank of the worker; the ISBN cache gets the entry
    ISBN to site identifier exactly when an ISBN was resolved, the cover
    cache gets the entry site identifier to cover address exactly when a
    cover address was resolved (the site identifier is resolved at this
    step).  The relevance of the record survives
    [clean_downloaded_metadata], which the host provides. *)
Theorem C6_emitting_step `{Host} (u : string) (rank : nat) (root : element)
        (w : world) :
  (forall mi, Metadata.source_relevance (clean_downloaded_metadata mi)
              = Metadata.source_relevance mi) ->
  complete u root = true ->
  exists self' w' mi sid,
    Worker.parse_details (Worker.init u rank) root w = (Ok self', w') /\
    the_id u = Some sid /\
    result_queue w' = result_queue w ++ [mi] /\
    Metadata.source_relevance mi = Some rank /\
    isbn_to_identifier w' =
      match resolved_isbn root with
      | Some i => <[i := sid]> (isbn_to_identifier w)
      | None => isbn_to_identifier w
      end /\
    identifier_to_cover_url w' =
      match resolved_cover root with
      | Some c => <[sid := c]> (identifier_to_cover_url w)
      | None => identifier_to_cover_url w
      end.
Proof.
  intros Hclean Hc.
  destruct (parse_details_runs u rank root w) as (self' & w' & E & R & Hr).
  rewrite Hc in Hr. destruct Hr as (Q & I & C).
  assert (Hs : exists sid, the_id u = Some sid).
  { unfold complete in Hc. apply andb_true_iff in Hc. destruct Hc as [_ Hs].
    destruct (the_id u) as [sid|]; [eauto | discriminate]. }
  destruct Hs as [sid Hs]. rewrite Hs in I, C. cbn [default] in I, C.
  exists self', w', (clean_downloaded_metadata (record_of u rank root)), sid.
  repeat split; try assumption. rewrite Hclean. reflexivity.
Qed.

Lemma C6_emitting_step_witness :
  exists self' w' mi,
    @Worker.parse_details Fixture.site
       (Worker.init "http://www.shelfari.com/books/6977769" 3)
       Fixture.book empty_world = (Ok self', w') /\
    result_queue w' = [mi] /\
    Metadata.source_relevance mi = Some 3 /\
    isbn_to_identifier w' = {[ "9780385340588" := "6977769" ]} /\
    identifier_to_cover_url w' = {[ "6977769" := "http://www.shelfari.com/cover.jpg" ]}.
Proof.
  destruct (@C6_emitting_step Fixture.site "http://www.shelfari.com/books/6977769"
              3 Fixture.book empty_world)
    as (self' & w' & mi & sid & E & S & Q & R & I & C);
    [reflexivity | reflexivity |].
  exists self', w', mi. inversion S; subst sid.
  repeat split; assumption.
Defined.

(** C10. [parse_tags] answers [None] for every page, so every record that
    [parse_details] puts has no tags ([clean_downloaded_metadata], which
    the host provides, adds none). *)
Theorem C10_no_tags `{Host} (u : string) (rank : nat) (root : element) (w : world) :
  (forall mi, Metadata.tags mi = None ->
              Metadata.tags (clean_downloaded_metadata mi) = None) ->
  Worker.parse_tags root = Ok None /\
  forall mi,
    In mi (result_queue (snd (Worker.parse_details (Worker.init u rank) root w))) ->
    In mi (result_queue w) \/ Metadata.tags mi = None.
Proof.
  intros Hclean. split; [reflexivity|]. intros mi.
  destruct (parse_details_runs u rank root w) as (self' & w' & E & R & Hr).
  rewrite E. cbn [snd]. destruct (complete u root).
  - destruct Hr as (Q & _). rewrite Q, in_app_iff. intros [Hin|[<-|[]]].
    + now left.
    + right. apply Hclean. reflexivity.
  - destruct Hr as (_ & Q & _). rewrite Q. now left.
Qed.

Lemma C10_no_tags_witness :
  Worker.parse_tags Fixture.book = Ok None /\
  forall mi,
    In mi (result_queue
             (snd (@Worker.parse_details Fixture.site
                     (Worker.init "http://www.shelfari.com/books/6977769" 0)
                     Fixture.book empty_world))) ->
    In mi (result_queue empty_world) \/ Metadata.tags mi = None.
Proof.
  apply (@C10_no_tags Fixture.site "http://www.shelfari.com/books/6977769" 0
                      Fixture.book empty_world).
  intros mi Hmi. exact Hmi.
Defined.


Lemma filter_digits_only (s : string) :
  Py.filter Py.is_digit (Py.filter Py.is_digit s) = Py.filter Py.is_digit s.
Proof.
  induction s as [|c s IH]; simpl; [reflexivity|].
  destruct (Py.is_digit c) eqn:E; simpl; [|exact IH].
  rewrite E, IH. reflexivity.
Qed.



(** A text without a digit makes [float] raise; [parse_details] logs it
    and leaves the rating unset. *)
Lemma rating_without_digits (root node : element) (rest : list element) :
  XPath.absolute Worker.rating_path root = node :: rest ->
  Py.filter Py.is_digit (text_content node) = "" ->
  Worker.parse_rating root = Raise ValueError.
Proof.
  intros Hnode E. unfold Worker.parse_rating. rewrite Hnode.
  unfold Worker.rating_of_text, Worker.float_of_digits. now rewrite E.
Qed.

(** ** The language of a page *)

Lemma lang_map_codes (name code : string) :
  Worker.lang_map !! name = Some code -> Py.nonempty code = true.
Proof.
  revert name code. change (map_Forall (fun _ c => Py.nonempty c = true) Worker.lang_map).
  apply map_Forall_to_list. vm_compute. repeat constructor.
Qed.

(** A name has the code of the entry of [lm] that lists it. *)
Lemma lang_map_lookup (name code : string) :
  Worker.lang_map !! name = Some code <->
  exists names, In (code, names) Worker.lm /\ In name names.
Proof.
  split.
  - intros Hl. apply elem_of_map_to_list in Hl. vm_compute in Hl.
    repeat (apply elem_of_cons in Hl; destruct Hl as [Hl|Hl];
            [inversion Hl; subst; eexists; split; [simpl; eauto 10 | simpl; eauto 10] |]).
    now apply elem_of_nil in Hl.
  - intros [names [Hin Hn]]. simpl in Hin.
    repeat (destruct Hin as [Hin|Hin];
            [inversion Hin; subst; simpl in Hn;
             repeat (destruct Hn as [<-|Hn]; [reflexivity|]); contradiction |]).
    contradiction.
Qed.


(** The table does not depend on the order in which the dictionary [lm]
    is walked. *)
Lemma lang_map_of_pairs (table : list (string * list string)) :
  Worker.lang_map_of table = fold_left insert_pair (pairs table) ∅.
Proof.
  unfold Worker.lang_map_of. generalize (∅ : gmap string string).
  induction table as [|[code names] table IH]; intros m; [reflexivity|].
  cbn [fold_left pairs flat_map]. rewrite fold_left_app, IH. f_equal.
  clear IH. revert m. induction names as [|n names IHn]; intros m; [reflexivity|].
  cbn [fold_left map]. apply IHn.
Qed.

Lemma fold_insert_lookup (l : list (string * string)) :
  forall (m : gmap string string) (k : string),
    NoDup l.*1 ->
    fold_left insert_pair l m !! k =
    match (list_to_map l : gmap string string) !! k with
    | Some v => Some v
    | None => m !! k
    end.
Proof.
  induction l as [|[k0 v0] l IH]; intros m k Hnd.
  - cbn. now rewrite lookup_empty.
  - cbn [fold_left]. apply NoDup_cons in Hnd. destruct Hnd as [Hk0 Hnd].
    rewrite IH by exact Hnd. cbn [list_to_map foldr]. unfold insert_pair. cbn [fst snd].
    destruct (decide (k0 = k)) as [->|Hne].
    + rewrite !lookup_insert_eq.
      assert (Hn : (list_to_map l : gmap string string) !! k = None)
        by now apply not_elem_of_list_to_map_1.
      now rewrite Hn.
    + rewrite !lookup_insert_ne by exact Hne. reflexivity.
Qed.

Lemma pairs_perm (table table' : list (string * list string)) :
  table ≡ₚ table' -> pairs table ≡ₚ pairs table'.
Proof.
  unfold pairs. induction 1 as [|x l l' _ IH|x y l|l l' l'' _ IH1 _ IH2].
  - reflexivity.
  - cbn [flat_map]. f_equiv. exact IH.
  - cbn [flat_map]. rewrite !app_assoc. f_equiv. apply Permutation_app_comm.
  - etransitivity; eassumption.
Qed.

Lemma lang_map_of_order (table table' : list (string * list string)) :
  NoDup (pairs table).*1 -> table ≡ₚ table' ->
  Worker.lang_map_of table' = Worker.lang_map_of table.
Proof.
  intros Hnd Hp. apply pairs_perm in Hp.
  assert (Hnd' : NoDup (pairs table').*1) by now rewrite <- Hp.
  rewrite !lang_map_of_pairs. apply map_eq. intros k.
  rewrite !fold_insert_lookup by assumption.
  rewrite (list_to_map_proper (pairs table) (pairs table')) by assumption.
  reflexivity.
Qed.

Lemma lm_names_distinct : NoDup (pairs Worker.lm).*1.
Proof. refine (bool_decide_unpack _ _). vm_compute. exact I. Qed.

Lemma lang_map_any_order (table : list (string * list string)) :
  Worker.lm ≡ₚ table -> Worker.lang_map_of table = Worker.lang_map.
Proof. apply lang_map_of_order, lm_names_distinct. Qed.

Section Language.
Context `{Host}.

(** A name of the table gives its code. *)
Lemma parse_language_known (root n : element) (rest : list element) (code : string) :
  XPath.absolute Worker.language_path root = n :: rest ->
  Worker.lang_map !! Py.ustrip (tostring_text n) = Some code ->
  Worker._parse_language root = Ok (Some code).
Proof.
  intros En El. unfold Worker._parse_language. rewrite En, El.
  cbn [Py.truthy]. now rewrite (lang_map_codes _ _ El).
Qed.

End Language.

(** C8 fails on the code for the names outside the table: the fallback is
    called on [ans], which is [None] there, and not on the name that was
    read; the answer does not depend on the name. *)
Theorem C8_fallback_without_name `{Host} (root n : element) (rest : list element) :
  XPath.absolute Worker.language_path root = n :: rest ->
  Worker.lang_map !! Py.ustrip (tostring_text n) = None ->
  Worker._parse_language root = Ok (keep_truthy (canonicalize_lang None)).
Proof.
  intros En El. unfold Worker._parse_language, keep_truthy. rewrite En, El.
  cbn [Py.truthy]. destruct (Py.truthy (canonicalize_lang None)); reflexivity.
Qed.

(** The page of the fixture in Swedish: the fallback knows the name, and
    the language of the page is not found. *)
Lemma C8_fallback_without_name_witness :
  @canonicalize_lang Fixture.site (Some "Swedish") = Some "swe" /\
  @Worker._parse_language Fixture.site Fixture.swedish_book = Ok None /\
  @Worker._parse_language Fixture.site Fixture.swedish_book
  = Ok (keep_truthy (@canonicalize_lang Fixture.site None)).
Proof.
  split; [reflexivity|]. split; [reflexivity|].
  apply (@C8_fallback_without_name Fixture.site Fixture.swedish_book
           (Element "div" [("itemprop", "inLanguage")] "Swedish" [] "") []);
    reflexivity.
Defined.

(** * Properties of the remaining code *)

(** ** Texts *)

Lemma take_drop_while (p : ascii -> bool) (s : string) :
  s = Py.take_while p s +:+ Py.drop_while p s.
Proof.
  induction s as [|c s IH]; [reflexivity|]. cbn [Py.take_while Py.drop_while].
  destruct (p c); [|reflexivity].
  change (String c s = String c (Py.take_while p s +:+ Py.drop_while p s)).
  now rewrite <- IH.
Qed.

Lemma all_chars_take_while (p : ascii -> bool) (s : string) :
  all_chars p (Py.take_while p s) = true.
Proof.
  induction s as [|c s IH]; [reflexivity|]. cbn.
  destruct (p c) eqn:E; [|reflexivity]. cbn. now rewrite E.
Qed.

Lemma take_while_all (p : ascii -> bool) (s : string) :
  all_chars p s = true -> Py.take_while p s = s.
Proof.
  induction s as [|c s IH]; [reflexivity|]. cbn.
  intros Ha. apply andb_true_iff in Ha. destruct Ha as [Hc Hs].
  rewrite Hc, IH by exact Hs. reflexivity.
Qed.

Lemma all_chars_app (p : ascii -> bool) (s t : string) :
  all_chars p (s +:+ t) = all_chars p s && all_chars p t.
Proof.
  induction s as [|c s IH]; [reflexivity|].
  change (all_chars p (String c (s +:+ t)) = all_chars p (String c s) && all_chars p t).
  cbn [all_chars]. rewrite IH. now rewrite andb_assoc.
Qed.

Lemma all_chars_filter (p : ascii -> bool) (s : string) :
  all_chars p (Py.filter p s) = true.
Proof.
  induction s as [|c s IH]; [reflexivity|]. cbn.
  destruct (p c) eqn:E; [|exact IH]. cbn. now rewrite E.
Qed.

Lemma all_chars_lstrip (p : ascii -> bool) (s : string) :
  all_chars p s = true -> all_chars p (Py.lstrip s) = true.
Proof.
  induction s as [|c s IH]; [reflexivity|]. cbn [Py.lstrip].
  intros Ha. destruct (Py.is_space c); [|exact Ha].
  cbn in Ha. apply andb_true_iff in Ha. now apply IH.
Qed.

Lemma all_chars_rstrip (p : ascii -> bool) (s : string) :
  all_chars p s = true -> all_chars p (Py.rstrip s) = true.
Proof.
  induction s as [|c s IH]; [reflexivity|]. cbn [Py.rstrip].
  intros Ha. cbn in Ha. apply andb_true_iff in Ha. destruct Ha as [Hc Hs].
  specialize (IH Hs). destruct (Py.rstrip s) as [|d r].
  - destruct (Py.is_space c); [reflexivity|]. cbn. now rewrite Hc.
  - change (p c && all_chars p (String d r) = true). now rewrite Hc, IH.
Qed.

Lemma all_chars_strip (p : ascii -> bool) (s : string) :
  all_chars p s = true -> all_chars p (Py.strip s) = true.
Proof. intros Ha. now apply all_chars_rstrip, all_chars_lstrip. Qed.

Lemma all_chars_weaken (p q : ascii -> bool) (s : string) :
  (forall c, p c = true -> q c = true) ->
  all_chars p s = true -> all_chars q s = true.
Proof.
  intros Hpq. induction s as [|c s IH]; [reflexivity|]. cbn.
  intros Ha. apply andb_true_iff in Ha. destruct Ha as [Hc Hs].
  now rewrite (Hpq c Hc), IH.
Qed.

(** ** Unicode white space *)

(** What [rstrip] removes is a run of ASCII white space. *)
Lemma rstrip_split (s : string) :
  exists w, s = Py.rstrip s +:+ w /\ all_chars Py.is_space w = true.
Proof.
  induction s as [|c s (w & E & Hw)]; [exists ""; split; reflexivity|].
  cbn [Py.rstrip]. destruct (Py.rstrip s) as [|d r] eqn:Er.
  - destruct (Py.is_space c) eqn:Ec.
    + exists (String c s). split; [reflexivity|].
      cbn [all_chars]. rewrite Ec. rewrite E. exact Hw.
    + exists s. split; [reflexivity|]. rewrite E. exact Hw.
  - exists w. split; [|exact Hw]. rewrite E at 1. reflexivity.
Qed.

Lemma space_is_unicode_space (c : ascii) :
  Py.is_space c = true ->
  Py.is_continuation c = false /\ Py.is_unicode_space (String c "") = true.
Proof.
  intros Hc.
  destruct c as [[] [] [] [] [] [] [] []];
    first [discriminate Hc | split; vm_compute; reflexivity].
Qed.

Lemma chars_spaces (w : string) :
  all_chars Py.is_space w = true ->
  Forall (fun t => Py.is_unicode_space t = true) (Py.chars w) /\
  match Py.chars w with
  | t :: _ => Py.starts_with_continuation t = false
  | [] => True
  end.
Proof.
  induction w as [|c w IH]; [split; [constructor | exact I]|].
  cbn [all_chars]. intros Ha. apply andb_true_iff in Ha. destruct Ha as [Hc Hw].
  destruct (IH Hw) as [Hf Hh]. destruct (space_is_unicode_space c Hc) as [Hn Hu].
  cbn [Py.chars]. destruct (Py.chars w) as [|t ts].
  - split; [repeat constructor; exact Hu | exact Hn].
  - rewrite Hh. split; [constructor; [exact Hu | exact Hf] | exact Hn].
Qed.

Lemma chars_app_spaces (s w : string) :
  all_chars Py.is_space w = true -> Py.chars (s +:+ w) = Py.chars s ++ Py.chars w.
Proof.
  intros Hw. destruct (chars_spaces w Hw) as [_ Hh].
  induction s as [|c s IH]; [reflexivity|].
  change (String c s +:+ w) with (String c (s +:+ w)).
  cbn [Py.chars]. rewrite IH. destruct (Py.chars s) as [|t ts].
  - cbn [app]. destruct (Py.chars w) as [|t ts]; [reflexivity|]. now rewrite Hh.
  - cbn [app]. destruct (Py.starts_with_continuation t); reflexivity.
Qed.

Lemma drop_spaces_all (ws l : list string) :
  Forall (fun t => Py.is_unicode_space t = true) ws ->
  Py.drop_spaces (ws ++ l) = Py.drop_spaces l.
Proof.
  induction 1 as [|t ws Ht _ IH]; [reflexivity|].
  cbn [app Py.drop_spaces]. now rewrite Ht.
Qed.

(** White space behind a text is removed with the white space at its
    end. *)
Lemma strip_chars_app (l ws : list string) :
  Forall (fun t => Py.is_unicode_space t = true) ws ->
  rev (Py.drop_spaces (rev (Py.drop_spaces (l ++ ws))))
  = rev (Py.drop_spaces (rev (Py.drop_spaces l))).
Proof.
  intros Hws. induction l as [|t l IH].
  - cbn [app]. rewrite <- (app_nil_r ws), (drop_spaces_all _ _ Hws). reflexivity.
  - cbn [app Py.drop_spaces]. destruct (Py.is_unicode_space t); [exact IH|].
    change (t :: l ++ ws) with ((t :: l) ++ ws).
    rewrite rev_app_distr, drop_spaces_all; [reflexivity|].
    now apply List.Forall_rev.
Qed.

(** [unicode.strip()] removes what [rstrip] removes. *)
Lemma ustrip_rstrip (s : string) : Py.ustrip (Py.rstrip s) = Py.ustrip s.
Proof.
  destruct (rstrip_split s) as (w & E & Hw).
  unfold Py.ustrip. rewrite E at 2.
  rewrite (chars_app_spaces _ _ Hw), strip_chars_app; [reflexivity|].
  now apply chars_spaces.
Qed.

Lemma plain_space (c : ascii) :
  plain c = true ->
  Py.is_continuation c = false /\
  Py.is_unicode_space (String c "") = Py.is_space c.
Proof.
  intros Hc.
  destruct c as [[] [] [] [] [] [] [] []];
    first [discriminate Hc | split; vm_compute; reflexivity].
Qed.

Lemma chars_plain (c : ascii) (s : string) :
  all_chars plain s = true ->
  Py.chars (String c s) = String c "" :: Py.chars s.
Proof.
  intros Hs. cbn [Py.chars]. destruct s as [|d s]; [reflexivity|].
  cbn [all_chars] in Hs. apply andb_true_iff in Hs. destruct Hs as [Hd Hs].
  destruct (Py.chars (String d s)) as [|t ts] eqn:Et; [reflexivity|].
  assert (Ht : Py.starts_with_continuation t = false).
  { cbn [Py.chars] in Et. destruct (Py.chars s) as [|t' ts'].
    - inversion Et; subst. cbn. now apply plain_space.
    - destruct (Py.starts_with_continuation t'); inversion Et; subst; cbn;
        now apply plain_space. }
  now rewrite Ht.
Qed.

Lemma drop_spaces_lstrip (s : string) :
  all_chars plain s = true -> Py.drop_spaces (Py.chars s) = Py.chars (Py.lstrip s).
Proof.
  induction s as [|c s IH]; [reflexivity|]. intros Ha.
  cbn [all_chars] in Ha. apply andb_true_iff in Ha. destruct Ha as [Hc Hs].
  rewrite (chars_plain _ _ Hs). cbn [Py.drop_spaces Py.lstrip].
  destruct (plain_space c Hc) as [_ ->].
  destruct (Py.is_space c); [now apply IH | now rewrite (chars_plain _ _ Hs)].
Qed.

Lemma drop_spaces_snoc (l : list string) (t : string) :
  Py.drop_spaces (l ++ [t]) =
  match Py.drop_spaces l with
  | [] => if Py.is_unicode_space t then [] else [t]
  | kept => kept ++ [t]
  end.
Proof.
  induction l as [|x l IH]; [reflexivity|]. cbn [app Py.drop_spaces].
  destruct (Py.is_unicode_space x); [exact IH | reflexivity].
Qed.

Lemma rstrip_chars (s : string) :
  all_chars plain s = true ->
  Py.concat (rev (Py.drop_spaces (rev (Py.chars s)))) = Py.rstrip s /\
  (Py.drop_spaces (rev (Py.chars s)) = [] -> Py.rstrip s = "") /\
  (Py.rstrip s = "" -> Py.drop_spaces (rev (Py.chars s)) = []).
Proof.
  induction s as [|c s IH]; [repeat split; reflexivity|]. intros Ha.
  cbn [all_chars] in Ha. apply andb_true_iff in Ha. destruct Ha as [Hc Hs].
  destruct (IH Hs) as (Hr & Hnil & Hnil').
  rewrite (chars_plain _ _ Hs). cbn [rev]. rewrite drop_spaces_snoc.
  destruct (plain_space c Hc) as [_ ->]. cbn [Py.rstrip].
  destruct (Py.drop_spaces (rev (Py.chars s))) as [|x kept] eqn:Ed.
  - rewrite (Hnil eq_refl). destruct (Py.is_space c); repeat split; try reflexivity;
      discriminate.
  - destruct (Py.rstrip s) as [|d r] eqn:Er; [now specialize (Hnil' eq_refl)|].
    rewrite rev_app_distr.
    change (Py.concat (rev [String c ""] ++ rev (x :: kept)))
      with (String c (Py.concat (rev (x :: kept)))).
    rewrite Hr.
    repeat split; try reflexivity; discriminate.
Qed.

(** On an ASCII text without a separator, [str.strip()] and
    [unicode.strip()] agree. *)
Lemma strip_ustrip (s : string) :
  all_chars plain s = true -> Py.ustrip s = Py.strip s.
Proof.
  intros Hs. unfold Py.ustrip, Py.strip.
  rewrite (drop_spaces_lstrip _ Hs).
  apply rstrip_chars. now apply all_chars_lstrip.
Qed.

Lemma all_chars_ascii (s : string) :
  all_chars (fun c => negb (is_separator c)) s = true ->
  Py.is_ascii s = true -> all_chars plain s = true.
Proof.
  induction s as [|c s IH]; [reflexivity|]. cbn [all_chars Py.is_ascii].
  intros Ha Hb. apply andb_true_iff in Ha. apply andb_true_iff in Hb.
  destruct Ha as [Hc Hs], Hb as [Hd Ht]. unfold plain at 1.
  now rewrite Hc, Hd, IH.
Qed.

(** The text that lxml hands back is stripped as a [unicode] is, whether
    it came as a [str] or not, unless it has one of the separators U+001C
    to U+001F. *)
Lemma text_strip_ustrip (s : string) :
  all_chars (fun c => negb (is_separator c)) s = true ->
  Py.text_strip s = Py.ustrip s.
Proof.
  intros Hs. unfold Py.text_strip. destruct (Py.is_ascii s) eqn:Ea; [|reflexivity].
  symmetry. apply strip_ustrip. now apply all_chars_ascii.
Qed.

(** ** Regular expressions *)

Lemma length_app (s t : string) :
  String.length (s +:+ t) = String.length s + String.length t.
Proof.
  induction s as [|c s IH]; [reflexivity|].
  change (S (String.length (s +:+ t)) = S (String.length s) + String.length t).
  now rewrite IH.
Qed.

Lemma search_here (m : Re.matcher) (t : string) (l : nat) (g : string) :
  m t = Some (l, g) -> Re.search m t = Some g.
Proof. intros E. destruct t; cbn; now rewrite E. Qed.

Lemma search_skip (m : Re.matcher) (pre t : string) :
  unmatched m pre t -> Re.search m (pre +:+ t) = Re.search m t.
Proof.
  induction pre as [|c p IH]; [reflexivity|]. intros [Hm Hp].
  change (String c p +:+ t) with (String c (p +:+ t)) in *.
  cbn [Re.search]. rewrite Hm. now apply IH.
Qed.

Lemma sub_skip (m : Re.matcher) (pre t : string) :
  unmatched m pre t -> Re.sub m (pre +:+ t) = pre +:+ Re.sub m t.
Proof.
  unfold Re.sub. induction pre as [|c p IH]; [reflexivity|]. intros [Hm Hp].
  change (String c p +:+ t) with (String c (p +:+ t)) in *.
  cbn [Re.sub_from]. rewrite Hm. cbn. now rewrite IH.
Qed.

Lemma sub_from_all (m : Re.matcher) (s : string) (k : nat) :
  String.length s <= k -> Re.sub_from m k s = "".
Proof.
  revert k. induction s as [|c s IH]; intros k Hk; [reflexivity|].
  cbn in Hk. destruct k as [|k]; [lia|]. cbn. apply IH. lia.
Qed.

Lemma sub_whole (m : Re.matcher) (t g : string) :
  m t = Some (String.length t, g) -> Re.sub m t = "".
Proof.
  unfold Re.sub. destruct t as [|c t]; [reflexivity|]. intros E.
  cbn [Re.sub_from]. rewrite E. cbn [String.length]. now apply sub_from_all.
Qed.

(** *** The year of a title *)

Lemma year_at_end_spec (s : string) :
  Re.year_at_end s =
  match s with
  | String c0 (String a (String b (String c (String d (String e rest))))) =>
      if Ascii.eqb c0 "(" && forallb Py.is_digit [a; b; c; d] && Ascii.eqb e ")"
         && (String.eqb rest "" || String.eqb rest (String "010" ""))
      then Some (6, year_text a b c d)
      else None
  | _ => None
  end.
Proof.
  destruct s as [|c0 [|a [|b [|c [|d [|e rest]]]]]];
    first [reflexivity
          | destruct c0 as [[] [] [] [] [] [] [] []]; reflexivity
          | idtac].
  destruct c0 as [[] [] [] [] [] [] [] []];
    try (cbn; rewrite ?andb_false_r; reflexivity).
  destruct e as [[] [] [] [] [] [] [] []];
    cbn; rewrite ?andb_false_r, ?andb_true_r; reflexivity.
Qed.

Lemma year_at_end_some (s : string) (l : nat) (g : string) :
  Re.year_at_end s = Some (l, g) ->
  String.length s <= 7 /\
  exists a rest, s = String "(" (String a rest) /\ Py.is_digit a = true.
Proof.
  rewrite year_at_end_spec.
  destruct s as [|c0 [|a [|b [|c [|d [|e rest]]]]]]; try discriminate.
  match goal with
  | |- (if ?cond then _ else _) = _ -> _ => destruct cond eqn:E; [|discriminate]
  end.
  intros _.
  apply andb_true_iff in E. destruct E as [E Hr].
  apply andb_true_iff in E. destruct E as [E _].
  apply andb_true_iff in E. destruct E as [Hc Hd].
  apply Ascii.eqb_eq in Hc. subst c0.
  cbn [forallb] in Hd. apply andb_true_iff in Hd. destruct Hd as [Ha _].
  split; [|eauto].
  destruct rest as [|x [|y rest]]; cbn [String.length]; try lia.
  apply orb_true_iff in Hr. destruct Hr as [Hr|Hr];
    apply String.eqb_eq in Hr; discriminate.
Qed.

Lemma year_unmatched (body : string) (a b c d : ascii) :
  unmatched Re.year_at_end body ("(" +:+ year_text a b c d +:+ ")").
Proof.
  induction body as [|x p IH]; [exact I|]. split; [|exact IH].
  destruct (Re.year_at_end _) as [[l g]|] eqn:E; [|reflexivity].
  apply year_at_end_some in E. destruct E as [Hl (a' & rest & Hs & Ha)].
  change (String x p +:+ "(" +:+ year_text a b c d +:+ ")")
    with (String x (p +:+ "(" +:+ year_text a b c d +:+ ")")) in *.
  cbn [String.length] in Hl. rewrite length_app in Hl.
  change (String.length ("(" +:+ year_text a b c d +:+ ")")) with 6 in Hl.
  destruct p as [|y p]; [|cbn [String.length] in Hl; lia].
  change (String x (String "(" (String a (String b (String c (String d ")")))))
          = String "(" (String a' rest)) in Hs. inversion Hs; subst. discriminate Ha.
Qed.

Lemma year_matched (a b c d : ascii) :
  forallb Py.is_digit [a; b; c; d] = true ->
  Re.year_at_end ("(" +:+ year_text a b c d +:+ ")") = Some (6, year_text a b c d).
Proof.
  intros Hd.
  change ("(" +:+ year_text a b c d +:+ ")")
    with (String "(" (String a (String b (String c (String d (String ")" "")))))).
  rewrite year_at_end_spec, Hd. reflexivity.
Qed.

(** [re.sub] removes the year at the end of a title and nothing else. *)
Lemma sub_year (body : string) (a b c d : ascii) :
  forallb Py.is_digit [a; b; c; d] = true ->
  Re.search Re.year_at_end (body +:+ "(" +:+ year_text a b c d +:+ ")")
  = Some (year_text a b c d) /\
  Re.sub Re.year_at_end (body +:+ "(" +:+ year_text a b c d +:+ ")") = body.
Proof.
  intros Hd. pose proof (year_matched a b c d Hd) as Hm. split.
  - rewrite search_skip by apply year_unmatched. now apply search_here in Hm.
  - rewrite sub_skip by apply year_unmatched.
    rewrite (sub_whole _ _ (year_text a b c d)) by exact Hm.
    clear. induction body as [|x p IH]; [reflexivity|].
    change (String x (p +:+ "") = String x p). now rewrite IH.
Qed.

(** *** The number of a book in its series *)

Lemma book_number_unmatched (s t : string) :
  all_chars (fun c => negb (Ascii.eqb c ":")) s = true ->
  unmatched Re.book_number s t.
Proof.
  induction s as [|x p IH]; [intros _; exact I|]. cbn [all_chars].
  intros Ha. apply andb_true_iff in Ha. destruct Ha as [Hx Hp].
  split; [|now apply IH].
  unfold Re.book_number.
  change (String x p +:+ t) with (String x (p +:+ t)).
  cbn [String.prefix]. destruct (Ascii.ascii_dec ":" x) as [<-|]; [discriminate|].
  reflexivity.
Qed.

Lemma book_number_matched (n : string) :
  Py.nonempty n = true -> all_chars Py.is_digit n = true ->
  Re.book_number (": Book " +:+ n)
  = Some (String.length (": Book " +:+ n), n).
Proof.
  intros Hn Hd. unfold Re.book_number.
  destruct n as [|x n]; [discriminate|].
  cbn [String.append String.prefix Re.drop].
  repeat (match goal with
          | |- context [Ascii.ascii_dec ?a ?a] =>
              destruct (Ascii.ascii_dec a a); [|congruence]
          end).
  rewrite take_while_all by exact Hd. reflexivity.
Qed.

Lemma sub_book_number (s n : string) :
  all_chars (fun c => negb (Ascii.eqb c ":")) s = true ->
  Py.nonempty n = true -> all_chars Py.is_digit n = true ->
  Re.search Re.book_number (s +:+ ": Book " +:+ n) = Some n /\
  Re.sub Re.book_number (s +:+ ": Book " +:+ n) = s.
Proof.
  intros Hs Hn Hd. pose proof (book_number_matched n Hn Hd) as Hm. split.
  - rewrite search_skip by now apply book_number_unmatched.
    now apply search_here in Hm.
  - rewrite sub_skip by now apply book_number_unmatched.
    rewrite (sub_whole _ _ n) by exact Hm.
    clear. induction s as [|x p IH]; [reflexivity|].
    change (String x (p +:+ "") = String x p). now rewrite IH.
Qed.

(** *** The role of a contributor *)

Lemma role_spec (s : string) :
  Re.role s =
  match Py.drop_while Py.is_space s with
  | String d inside =>
      if Ascii.eqb d "(" then
        match Py.drop_while inside_role inside with
        | String e rest =>
            if Ascii.eqb e ")"
            then Some (String.length s - String.length rest, "")
            else None
        | EmptyString => None
        end
      else None
  | EmptyString => None
  end.
Proof.
  unfold Re.role. fold inside_role.
  destruct (Py.drop_while Py.is_space s) as [|d inside]; [reflexivity|].
  destruct d as [[] [] [] [] [] [] [] []]; try reflexivity.
  cbn [Ascii.eqb Bool.eqb].
  destruct (Py.drop_while inside_role inside) as [|e rest]; [reflexivity|].
  destruct e as [[] [] [] [] [] [] [] []]; reflexivity.
Qed.

Lemma drop_while_app_all (p : ascii -> bool) (s t : string) :
  all_chars p s = true -> Py.drop_while p (s +:+ t) = Py.drop_while p t.
Proof.
  induction s as [|c s IH]; [reflexivity|]. cbn [all_chars].
  intros Ha. apply andb_true_iff in Ha. destruct Ha as [Hc Hs].
  change (String c s +:+ t) with (String c (s +:+ t)).
  cbn [Py.drop_while]. rewrite Hc. now apply IH.
Qed.

Lemma role_matched (blanks role : string) :
  all_chars Py.is_space blanks = true ->
  all_chars inside_role role = true ->
  Re.role (blanks +:+ "(" +:+ role +:+ ")")
  = Some (String.length (blanks +:+ "(" +:+ role +:+ ")"), "").
Proof.
  intros Hb Hr. rewrite role_spec, drop_while_app_all by exact Hb.
  change ("(" +:+ role +:+ ")") with (String "(" (role +:+ ")")).
  cbn [Py.drop_while]. change (Py.is_space "(") with false. cbn iota.
  change (Ascii.eqb "(" "(") with true. cbn iota.
  rewrite drop_while_app_all by exact Hr.
  change (Py.drop_while inside_role ")") with ")".
  change (Ascii.eqb ")" ")") with true. cbn iota.
  now rewrite Nat.sub_0_r.
Qed.

Lemma role_unmatched_here (s t : string) :
  all_chars not_paren s = true ->
  all_chars Py.is_space s = false ->
  Re.role (s +:+ t) = None.
Proof.
  intros Hp Hs. rewrite role_spec.
  assert (Hd : exists d rest, Py.drop_while Py.is_space (s +:+ t) = String d rest
                              /\ Ascii.eqb d "(" = false).
  { induction s as [|c s IH]; [discriminate|].
    cbn [all_chars] in Hp, Hs. apply andb_true_iff in Hp. destruct Hp as [Hc Hp].
    change (String c s +:+ t) with (String c (s +:+ t)).
    cbn [Py.drop_while]. destruct (Py.is_space c).
    - cbn [andb] in Hs. now apply IH.
    - exists c, (s +:+ t). split; [reflexivity|].
      unfold not_paren in Hc. now apply negb_true_iff in Hc. }
  destruct Hd as (d & rest & -> & ->). reflexivity.
Qed.

Lemma rstrip_blank (s : string) :
  all_chars Py.is_space s = true -> Py.rstrip s = "".
Proof.
  induction s as [|c s IH]; [reflexivity|]. cbn [all_chars].
  intros Ha. apply andb_true_iff in Ha. destruct Ha as [Hc Hs].
  cbn [Py.rstrip]. now rewrite IH, Hc.
Qed.

Lemma rstrip_cons (c : ascii) (s : string) :
  all_chars Py.is_space (String c s) = false ->
  Py.rstrip (String c s) = String c (Py.rstrip s).
Proof.
  cbn [all_chars Py.rstrip]. intros Ha.
  destruct (Py.rstrip s) as [|d r] eqn:E; [|reflexivity].
  destruct (Py.is_space c); [|reflexivity].
  cbn [andb] in Ha.
  assert (Hs : all_chars Py.is_space s = true).
  { clear Ha. revert E. induction s as [|x s IH]; [reflexivity|].
    cbn [Py.rstrip all_chars]. destruct (Py.rstrip s); [|discriminate].
    destruct (Py.is_space x); [|discriminate]. intros _. now rewrite IH. }
  congruence.
Qed.

(** [re.sub] removes a role in parentheses with the blanks before it. *)
Lemma sub_role (name role : string) :
  all_chars not_paren name = true ->
  all_chars inside_role role = true ->
  Re.sub Re.role (name +:+ " (" +:+ role +:+ ")") = Py.rstrip name.
Proof.
  intros Hp Hr. induction name as [|c n IH].
  - rewrite (sub_whole _ _ ""); [reflexivity|].
    apply (role_matched " " role); [reflexivity | exact Hr].
  - destruct (all_chars Py.is_space (String c n)) eqn:Hs.
    + rewrite rstrip_blank by exact Hs.
      apply (sub_whole _ _ "").
      replace (String c n +:+ " (" +:+ role +:+ ")")
        with ((String c n +:+ " ") +:+ "(" +:+ role +:+ ")").
      * apply role_matched; [|exact Hr]. rewrite all_chars_app, Hs. reflexivity.
      * clear. induction (String c n) as [|x s IH]; [reflexivity|].
        change (String x ((s +:+ " ") +:+ "(" +:+ role +:+ ")")
                = String x (s +:+ " (" +:+ role +:+ ")")).
        now rewrite IH.
    + rewrite rstrip_cons by exact Hs.
      cbn [all_chars] in Hp. apply andb_true_iff in Hp. destruct Hp as [Hc Hn].
      unfold Re.sub in *.
      change (String c n +:+ " (" +:+ role +:+ ")")
        with (String c (n +:+ " (" +:+ role +:+ ")")).
      cbn [Re.sub_from].
      change (String c (n +:+ " (" +:+ role +:+ ")"))
        with (String c n +:+ " (" +:+ role +:+ ")").
      rewrite role_unmatched_here; [|cbn [all_chars]; now rewrite Hc, Hn | exact Hs].
      now rewrite IH.
Qed.

(** A text without a parenthesis is left as it is. *)
Lemma sub_role_plain (name : string) :
  all_chars not_paren name = true -> Re.sub Re.role name = name.
Proof.
  intros Hp. unfold Re.sub. induction name as [|c n IH]; [reflexivity|].
  cbn [Re.sub_from].
  assert (Hn : Re.role (String c n) = None).
  { rewrite role_spec.
    assert (Hd : all_chars not_paren (Py.drop_while Py.is_space (String c n)) = true).
    { revert Hp. generalize (String c n). clear. intros s.
      induction s as [|x s IH]; [reflexivity|]. cbn [all_chars Py.drop_while].
      intros Ha. apply andb_true_iff in Ha. destruct Ha as [Hx Hs].
      destruct (Py.is_space x); [now apply IH|]. cbn [all_chars]. now rewrite Hx, Hs. }
    destruct (Py.drop_while Py.is_space (String c n)) as [|d rest]; [reflexivity|].
    cbn [all_chars] in Hd. apply andb_true_iff in Hd. destruct Hd as [Hd _].
    unfold not_paren in Hd. apply negb_true_iff in Hd. now rewrite Hd. }
  rewrite Hn. cbn [all_chars] in Hp. apply andb_true_iff in Hp.
  destruct Hp as [_ Hp]. now rewrite IH.
Qed.

(** ** The site identifier of an address *)

Lemma books_id_some (s : string) (l : nat) (d : string) :
  Re.books_id s = Some (l, d) ->
  Py.nonempty d = true /\ all_chars Py.is_digit d = true /\
  exists rest, s = "/books/" +:+ d +:+ rest.
Proof.
  unfold Re.books_id.
  destruct (String.prefix "/books/" s) eqn:Ep; [|discriminate].
  apply prefix_app in Ep. destruct Ep as [post ->].
  change (Re.drop 7 ("/books/" +:+ post)) with post.
  pose proof (all_chars_take_while Py.is_digit post) as Hd.
  pose proof (take_drop_while Py.is_digit post) as Hpost.
  destruct (Py.take_while Py.is_digit post) as [|x t] eqn:Et; [discriminate|].
  intros E. inversion E; subst. split; [reflexivity|]. split; [exact Hd|].
  exists (Py.drop_while Py.is_digit post). now rewrite <- Hpost.
Qed.

Lemma search_books_id (u d : string) :
  Re.search Re.books_id u = Some d ->
  Py.nonempty d = true /\ all_chars Py.is_digit d = true /\
  substring_of ("/books/" +:+ d) u.
Proof.
  induction u as [|c u IH].
  - cbn. discriminate.
  - cbn [Re.search].
    destruct (Re.books_id (String c u)) as [[l g]|] eqn:E.
    + intros Hg. inversion Hg; subst g.
      apply books_id_some in E. destruct E as (Hn & Hd & rest & Hu).
      split; [exact Hn|]. split; [exact Hd|].
      exists "", rest. rewrite Hu. cbn. clear.
      induction d as [|x d IH]; [reflexivity|].
      change (String "/" (String "b" (String "o" (String "o" (String "k"
               (String "s" (String "/" (String x (d +:+ rest))))))))
              = String "/" (String "b" (String "o" (String "o" (String "k"
               (String "s" (String "/" (String x d +:+ rest)))))))).
      reflexivity.
    + intros Hs. destruct (IH Hs) as (Hn & Hd & pre & post & Hu).
      split; [exact Hn|]. split; [exact Hd|].
      exists (String c pre), post. now rewrite Hu.
Qed.

Lemma search_book_url (sid : string) :
  Py.nonempty sid = true -> all_chars Py.is_digit sid = true ->
  Re.search Re.books_id (Shelfari.BASE_URL +:+ "/books/" +:+ sid) = Some sid.
Proof.
  intros Hn Hd.
  replace (Shelfari.BASE_URL +:+ "/books/" +:+ sid)
    with ("http://www.shelfari.com" +:+ "/books/" +:+ sid) by reflexivity.
  rewrite search_skip.
  - apply (search_here _ _ (7 + String.length sid)).
    unfold Re.books_id.
    destruct sid as [|x sid]; [discriminate|].
    change (String.prefix "/books/" ("/books/" +:+ String x sid)) with true.
    change (Re.drop 7 ("/books/" +:+ String x sid)) with (String x sid).
    rewrite take_while_all by exact Hd. reflexivity.
  - repeat (split; [reflexivity|]). exact I.
Qed.

(** ** Title, series and contributors of a page *)

Lemma title_with_year (root h : element) (rest : list element) (body : string)
      (a b c d : ascii) :
  XPath.absolute [XPath.desc_where "h1" "class" "hover_title"] root = h :: rest ->
  Py.text_strip (text_content h) = body +:+ "(" +:+ year_text a b c d +:+ ")" ->
  forallb Py.is_digit [a; b; c; d] = true ->
  the_title root = Some (Py.ustrip body).
Proof.
  intros Hh Ht Hd. unfold the_title, the_title_series, Worker.parse_title_series.
  rewrite Hh. cbv zeta. rewrite Ht.
  destruct (sub_year body a b c d Hd) as [Hs Hb]. rewrite Hs, Hb.
  destruct (XPath.absolute [XPath.desc_where "span" "class" "series"] root)
    as [|sn ?]; [reflexivity|].
  destruct (Re.search Re.book_number _); reflexivity.
Qed.

Lemma series_with_number (root h sn : element) (rest rest' : list element)
      (s n : string) :
  XPath.absolute [XPath.desc_where "h1" "class" "hover_title"] root = h :: rest ->
  XPath.absolute [XPath.desc_where "span" "class" "series"] root = sn :: rest' ->
  Py.text_strip (text_content sn) = s +:+ ": Book " +:+ n ->
  all_chars no_colon s = true ->
  Py.nonempty n = true -> all_chars Py.is_digit n = true ->
  Worker.parse_title_series root
  = Ok (the_title root, Some (Py.ustrip s), Some [n]).
Proof.
  intros Hh Hsn Ht Hs Hn Hd.
  unfold the_title, the_title_series, Worker.parse_title_series.
  rewrite Hh, Hsn. cbv zeta. rewrite Ht.
  destruct (sub_book_number s n Hs Hn Hd) as [Hsearch Hsub].
  rewrite Hsearch, Hsub. reflexivity.
Qed.

Lemma search_app (m : Re.matcher) (pre t : string) :
  Re.search m t <> None -> Re.search m (pre +:+ t) <> None.
Proof.
  intros Ht. induction pre as [|c p IH]; [exact Ht|].
  change (String c p +:+ t) with (String c (p +:+ t)).
  cbn [Re.search]. destruct (m (String c (p +:+ t))) as [[l g]|];
    [discriminate | exact IH].
Qed.

(** An entry with a role has a match of the expression. *)
Lemma search_role (name role : string) :
  all_chars inside_role role = true ->
  Re.search Re.role (name +:+ " (" +:+ role +:+ ")") <> None.
Proof.
  intros Hr. apply search_app.
  pose proof (role_matched " " role eq_refl Hr) as Hm.
  change (" " +:+ "(" +:+ role +:+ ")") with (" (" +:+ role +:+ ")") in Hm.
  rewrite (search_here _ _ _ _ Hm). discriminate.
Qed.

(** A text without a parenthesis has none. *)
Lemma search_role_plain (name : string) :
  all_chars not_paren name = true -> Re.search Re.role name = None.
Proof.
  intros Hp.
  assert (Hn : forall s, all_chars not_paren s = true -> Re.role s = None).
  { intros s Hs. rewrite role_spec.
    assert (Hd : all_chars not_paren (Py.drop_while Py.is_space s) = true).
    { induction s as [|x s IH]; [reflexivity|]. cbn [all_chars Py.drop_while] in *.
      apply andb_true_iff in Hs. destruct Hs as [Hx Hs].
      destruct (Py.is_space x); [now apply IH|]. cbn [all_chars]. now rewrite Hx, Hs. }
    destruct (Py.drop_while Py.is_space s) as [|d rest]; [reflexivity|].
    cbn [all_chars] in Hd. apply andb_true_iff in Hd. destruct Hd as [Hd _].
    unfold not_paren in Hd. apply negb_true_iff in Hd. now rewrite Hd. }
  induction name as [|c n IH]; cbn [Re.search]; rewrite (Hn _ Hp); [reflexivity|].
  cbn [all_chars] in Hp. apply andb_true_iff in Hp. now apply IH.
Qed.

Lemma credited_author (text author : string) :
  credited text author -> Worker.sub_strip Re.role text = author.
Proof.
  intros [name Hp | name role Hp Hr]; unfold Worker.sub_strip.
  - now rewrite (search_role_plain _ Hp), (sub_role_plain _ Hp).
  - destruct (Re.search Re.role _) eqn:Es; [|now apply search_role in Es].
    rewrite (sub_role _ _ Hp Hr). apply ustrip_rstrip.
Qed.

Lemma authors_names (root : element) (li : element) (lis : list element)
      (authors : list string) :
  XPath.absolute [XPath.desc_where "div" "id" "WikiModule_Contributors";
                  XPath.desc "ol"; XPath.child "li"] root = li :: lis ->
  Forall2 (fun e author => credited (text_content e) author) (li :: lis) authors ->
  Worker.parse_authors root = Ok (Some authors).
Proof.
  intros Hl Hf. unfold Worker.parse_authors. rewrite Hl.
  f_equal. f_equal. clear Hl. induction Hf as [|e author es ns Hc _ IH]; [reflexivity|].
  cbn [map]. rewrite (credited_author _ _ Hc). now rewrite IH.
Qed.

(** ** The description of a page *)

Lemma replace_length (s : string) :
  forall skip, String.length (Worker.replace_double_space skip s) <= String.length s.
Proof.
  induction s as [|c s IH]; intros skip; [reflexivity|].
  cbn [Worker.replace_double_space String.length].
  destruct skip; [specialize (IH false); lia|].
  destruct (String.prefix "  " (String c s)); cbn [String.length];
    [specialize (IH true) | specialize (IH false)]; lia.
Qed.

Lemma replace_shrinks (s : string) :
  Py.contains "  " s = true ->
  String.length (Worker.replace_double_space false s) < String.length s.
Proof.
  induction s as [|c s IH]; [discriminate|].
  rewrite contains_cons. cbn [Worker.replace_double_space].
  destruct (String.prefix "  " (String c s)) eqn:Ep.
  - intros _. apply prefix_app in Ep. destruct Ep as [post Ep].
    change ("  " +:+ post) with (String " " (String " " post)) in Ep.
    inversion Ep; subst. cbn [Worker.replace_double_space String.length].
    pose proof (replace_length post false). lia.
  - cbn [orb String.length]. intros Hc. specialize (IH Hc). lia.
Qed.

Lemma collapse_no_double_blank (fuel : nat) :
  forall s, String.length s <= fuel ->
            Py.contains "  " (Worker.collapse fuel s) = false.
Proof.
  induction fuel as [|k IH]; intros s Hl.
  - destruct s; [reflexivity | cbn in Hl; lia].
  - cbn [Worker.collapse]. destruct (Py.contains "  " s) eqn:Ec; [|exact Ec].
    apply IH. pose proof (replace_shrinks s Ec). lia.
Qed.

Lemma replace_keeps_text (n : nat) :
  forall s, String.length s <= n ->
            Py.filter not_blank (Worker.replace_double_space false s)
            = Py.filter not_blank s.
Proof.
  induction n as [|n IH]; intros s Hl.
  - destruct s; [reflexivity | cbn in Hl; lia].
  - destruct s as [|c s]; [reflexivity|].
    cbn [Worker.replace_double_space].
    destruct (String.prefix "  " (String c s)) eqn:Ep.
    + apply prefix_app in Ep. destruct Ep as [post Ep].
      change ("  " +:+ post) with (String " " (String " " post)) in Ep.
      inversion Ep; subst. cbn [Worker.replace_double_space].
      cbn [Py.filter]. change (not_blank " ") with false. cbn iota.
      apply IH. cbn in Hl. lia.
    + cbn [Py.filter]. rewrite IH by (cbn in Hl; lia). reflexivity.
Qed.

Lemma collapse_keeps_text (fuel : nat) :
  forall s, Py.filter not_blank (Worker.collapse fuel s) = Py.filter not_blank s.
Proof.
  induction fuel as [|k IH]; intros s; [reflexivity|].
  cbn [Worker.collapse]. destruct (Py.contains "  " s); [|reflexivity].
  rewrite IH. now apply (replace_keeps_text (String.length s)).
Qed.

(** ** The rating path *)

Lemma has_tag_children (t : string) (e : element) :
  has_tag t e = false ->
  tag e <> t /\ Forall (fun k => has_tag t k = false) (children e).
Proof.
  destruct e as [t' a tx kids tl]. cbn [has_tag tag children].
  intros Hb. apply orb_false_iff in Hb. destruct Hb as [Ht Hk]. split.
  - intros ->. now rewrite String.eqb_refl in Ht.
  - clear Ht. induction kids as [|k ks IH]; [constructor|].
    apply orb_false_iff in Hk. destruct Hk as [Hk Hks].
    constructor; [exact Hk | exact (IH Hks)].
Qed.

Lemma holds_rating_child (p : element) :
  has_tag "rating" p = false ->
  XPath.holds p (XPath.AttrEqChild "class" "rating") = false.
Proof.
  intros Hp. apply has_tag_children in Hp. destruct Hp as [_ Hk].
  unfold XPath.holds. destruct (get p "class") as [x|]; [|reflexivity].
  induction Hk as [|k ks Hk _ IH]; [reflexivity|].
  cbn [existsb]. rewrite IH, orb_false_r.
  apply has_tag_children in Hk. destruct Hk as [Hk _].
  destruct (String.eqb_spec (tag k) "rating"); [contradiction | reflexivity].
Qed.

Lemma rating_path_matches (e : element) (chain : list element) :
  Forall (fun p => has_tag "rating" p = false) chain ->
  XPath.matches (rev Worker.rating_path) (e :: chain) = false.
Proof.
  intros Hc. cbn [rev Worker.rating_path app XPath.matches XPath.ax XPath.child_where].
  destruct chain as [|p up]; [apply andb_false_r|].
  inversion Hc as [|? ? Hp _]; subst.
  unfold XPath.test at 2. cbn [XPath.preds forallb].
  rewrite (holds_rating_child p Hp). cbn [andb]. rewrite andb_false_r.
  cbn [andb]. apply andb_false_r.
Qed.

Lemma select_without_rating (e : element) :
  forall chain,
    has_tag "rating" e = false ->
    Forall (fun p => has_tag "rating" p = false) chain ->
    XPath.select (rev Worker.rating_path) chain e = [].
Proof.
  induction e as [t a tx kids tl IH] using element_induction. intros chain He Hc.
  cbn [XPath.select]. rewrite (rating_path_matches _ _ Hc). cbn [app].
  pose proof (has_tag_children _ _ He) as [_ Hk]. cbn [children] in Hk.
  assert (Hc' : Forall (fun p => has_tag "rating" p = false)
                       (Element t a tx kids tl :: chain)) by (constructor; assumption).
  clear He. set (e0 := Element t a tx kids tl) in *. clearbody e0.
  induction IH as [|k ks Hsel _ IHks]; [reflexivity|].
  inversion Hk; subst. rewrite Hsel, IHks; auto.
Qed.

Lemma rating_needs_element (root : element) :
  has_tag "rating" root = false -> Worker.parse_rating root = Ok None.
Proof.
  intros Hr. unfold Worker.parse_rating, XPath.absolute.
  now rewrite select_without_rating.
Qed.

(** ** [quote] and the query *)

Lemma quote_char_safe (c : ascii) :
  all_chars (fun d => Py.always_safe d || Ascii.eqb d "%") (Py.quote_char c) = true.
Proof. destruct c as [[] [] [] [] [] [] [] []]; reflexivity. Qed.

Lemma quote_safe (s : string) :
  all_chars (fun d => Py.always_safe d || Ascii.eqb d "%") (Py.quote s) = true.
Proof.
  induction s as [|c s IH]; [reflexivity|].
  cbn [Py.quote]. rewrite all_chars_app, quote_char_safe, IH. reflexivity.
Qed.

Lemma all_chars_join (p : ascii -> bool) (sep : string) (l : list string) :
  all_chars p sep = true ->
  Forall (fun s => all_chars p s = true) l ->
  all_chars p (Py.join sep l) = true.
Proof.
  intros Hsep Hl. induction Hl as [|s l Hs Hl IH]; [reflexivity|].
  cbn [Py.join]. destruct l as [|s' l']; [exact Hs|].
  rewrite !all_chars_app, Hs, Hsep, IH. reflexivity.
Qed.

Lemma quoted_query_chars (tokens : list string) :
  Forall (fun s => all_chars query_char s = true) (map Py.quote tokens).
Proof.
  induction tokens as [|t ts IH]; constructor; [|exact IH].
  apply all_chars_weaken with (p := fun d => Py.always_safe d || Ascii.eqb d "%");
    [|apply quote_safe].
  intros c Hc. unfold query_char. apply orb_true_iff in Hc.
  destruct Hc as [-> | Hc]; [reflexivity|].
  apply Ascii.eqb_eq in Hc. subst c. reflexivity.
Qed.

Lemma param_query_chars (name : string) (tokens : list string) :
  all_chars query_char name = true ->
  Forall (fun s => all_chars query_char s = true) (param name tokens).
Proof.
  intros Hn. unfold param. destruct tokens as [|t ts]; constructor; [|constructor].
  rewrite !all_chars_app, Hn. cbn [all_chars andb].
  change (query_char "=") with true. cbn [andb].
  apply all_chars_join; [reflexivity | apply quoted_query_chars].
Qed.

Section QueryText.
Context `{Host}.

Lemma joined_query_chars (isbn : option string) (title : option string)
      (authors : option (list string)) :
  (forall i, isbn = Some i -> all_chars query_char i = true) ->
  all_chars query_char (joined isbn title authors) = true.
Proof.
  intros Hi. unfold joined. apply all_chars_join; [reflexivity|].
  apply Forall_app. split.
  - destruct isbn as [i|]; [|constructor]. constructor; [|constructor].
    rewrite all_chars_app, (Hi i eq_refl). reflexivity.
  - apply Forall_app. split; apply param_query_chars; reflexivity.
Qed.

End QueryText.

(** ** Genres *)

Section GenreTags.
Variable str_lower : string -> string.
Variable KEY_GENRE_MAPPINGS : list (string * list string).

Lemma existsb_eqb_In (x : string) (l : list string) :
  existsb (String.eqb x) l = true <-> In x l.
Proof.
  rewrite existsb_exists. split.
  - intros (y & Hy & E). apply String.eqb_eq in E. now subst.
  - intros Hx. exists x. split; [exact Hx | apply String.eqb_refl].
Qed.

Lemma add_tags_In (tags : list string) :
  forall acc x, In x (Worker.add_tags tags acc) <-> In x acc \/ In x tags.
Proof.
  induction tags as [|t ts IH]; intros acc x; cbn [Worker.add_tags In].
  - tauto.
  - rewrite IH. destruct (existsb (String.eqb t) acc) eqn:Eb.
    + apply existsb_eqb_In in Eb. split; [tauto|].
      intros [?|[<-|?]]; tauto.
    + rewrite in_app_iff. cbn [In]. tauto.
Qed.

Lemma add_tags_NoDup (tags : list string) :
  forall acc, List.NoDup acc -> List.NoDup (Worker.add_tags tags acc).
Proof.
  induction tags as [|t ts IH]; intros acc Hn; cbn [Worker.add_tags]; [exact Hn|].
  apply IH. destruct (existsb (String.eqb t) acc) eqn:Eb; [exact Hn|].
  apply NoDup_ListNoDup, NoDup_app. apply NoDup_ListNoDup in Hn.
  split; [exact Hn|]. split; [|apply NoDup_singleton].
  intros x Hx Hx'. apply list_elem_of_singleton in Hx'. subst x.
  apply list_elem_of_In, existsb_eqb_In in Hx. congruence.
Qed.

Lemma add_genres_In (genre_tags : list string) :
  forall acc x,
    In x (Worker.add_genres str_lower KEY_GENRE_MAPPINGS genre_tags acc) <->
    In x acc \/
    exists g tags,
      In g genre_tags /\
      Worker.calibre_tag_map str_lower KEY_GENRE_MAPPINGS !! str_lower g = Some tags /\
      In x tags.
Proof.
  induction genre_tags as [|g gs IH]; intros acc x; cbn [Worker.add_genres].
  - split; [tauto | intros [?|(g & tags & [] & _)]; assumption].
  - destruct (Worker.calibre_tag_map str_lower KEY_GENRE_MAPPINGS !! str_lower g)
      as [[|t more]|] eqn:Eg; rewrite IH.
    + split.
      * intros [?|(g' & tags & Hg & Hm & Hx)]; [tauto|].
        right. exists g', tags. cbn [In]. tauto.
      * intros [?|(g' & tags & [<-|Hg] & Hm & Hx)]; [tauto| |].
        -- rewrite Eg in Hm. inversion Hm; subst. destruct Hx.
        -- right. exists g', tags. tauto.
    + rewrite add_tags_In. split.
      * intros [[?|Hx]|(g' & tags & Hg & Hm & Hx)]; [tauto| |].
        -- right. exists g, (t :: more). cbn [In]. tauto.
        -- right. exists g', tags. cbn [In]. tauto.
      * intros [?|(g' & tags & [<-|Hg] & Hm & Hx)]; [tauto| |].
        -- rewrite Eg in Hm. inversion Hm; subst. tauto.
        -- right. exists g', tags. tauto.
    + split.
      * intros [?|(g' & tags & Hg & Hm & Hx)]; [tauto|].
        right. exists g', tags. cbn [In]. tauto.
      * intros [?|(g' & tags & [<-|Hg] & Hm & Hx)]; [tauto| |].
        -- rewrite Eg in Hm. discriminate.
        -- right. exists g', tags. tauto.
Qed.

Lemma add_genres_NoDup (genre_tags : list string) :
  forall acc,
    List.NoDup acc ->
    List.NoDup (Worker.add_genres str_lower KEY_GENRE_MAPPINGS genre_tags acc).
Proof.
  induction genre_tags as [|g gs IH]; intros acc Hn; cbn [Worker.add_genres];
    [exact Hn|].
  destruct (Worker.calibre_tag_map str_lower KEY_GENRE_MAPPINGS !! str_lower g)
    as [[|t more]|]; try (now apply IH).
  apply IH, add_tags_NoDup, Hn.
Qed.

Lemma convert_genres (genre_tags : list string) :
  let tags := Worker._convert_genres_to_calibre_tags
                str_lower KEY_GENRE_MAPPINGS genre_tags in
  List.NoDup tags /\
  forall x, In x tags <->
            exists g mapped, In g genre_tags /\
                             Worker.calibre_tag_map str_lower KEY_GENRE_MAPPINGS
                             !! str_lower g = Some mapped /\
                             In x mapped.
Proof.
  cbv zeta. unfold Worker._convert_genres_to_calibre_tags. split.
  - apply add_genres_NoDup. constructor.
  - intros x. rewrite add_genres_In. cbn [In]. tauto.
Qed.

End GenreTags.

Section Comments.
Context `{Host}.

Lemma comments_collapsed (root desc : element) (rest : list element) :
  XPath.absolute [XPath.desc_where "div" "class" "ugc nonTruncatedSum";
                  XPath.child "p"] root = desc :: rest ->
  exists txt,
    Worker.parse_comments root = Ok (Some (sanitize_comments_html txt)) /\
    Py.contains "  " txt = false /\
    Py.filter not_blank txt = Py.filter not_blank (Py.ustrip (tostring_html desc)).
Proof.
  intros Hd. unfold Worker.parse_comments. rewrite Hd. cbv zeta.
  eexists. split; [reflexivity|]. split.
  - now apply collapse_no_double_blank.
  - apply collapse_keeps_text.
Qed.

End Comments.

(** ** One worker, from its request to its record *)

Section Run.
Context `{Host}.

Lemma run_runs (u : string) (rank : nat) (w : world) :
  exists w',
    Worker.run (Worker.init u rank) w = (Ok tt, w') /\
    requests w' = requests w ++ [u] /\
    result_queue w' = result_queue w ++ emitted_by u rank /\
    isbn_to_identifier w' = isbn_cache_after u (isbn_to_identifier w) /\
    identifier_to_cover_url w' = cover_cache_after u (identifier_to_cover_url w).
Proof.
  unfold Worker.run, Worker.get_details, emitted_by, isbn_cache_after,
    cover_cache_after, complete_page, fetched_page.
  unfold try_except, bind at 1 2 3, log_call at 1, browse.
  cbn [Worker.url Worker.init Worker.url_arg].
  destruct (open_novisit u) as [resp|f].
  2: { destruct f; cbn; eexists; (split; [reflexivity|]);
       cbn; rewrite ?app_nil_r; auto. }
  destruct (read resp) as [raw|f].
  2: { destruct f; cbn; eexists; (split; [reflexivity|]);
       cbn; rewrite ?app_nil_r; auto. }
  destruct (Py.contains "<title>404 - " (Py.strip raw)).
  { cbn; eexists; (split; [reflexivity|]); cbn; rewrite ?app_nil_r; auto. }
  destruct (fromstring (Py.strip raw)) as [root|e].
  2: { cbn; eexists; (split; [reflexivity|]); cbn; rewrite ?app_nil_r; auto. }
  destruct (XPath.absolute _ root) as [|x xs].
  2: { cbn; eexists; (split; [reflexivity|]); cbn; rewrite ?app_nil_r; auto. }
  match goal with
  | |- context [Worker.parse_details _ root ?w0] =>
      destruct (parse_details_runs u rank root w0) as (self' & w' & E & R & Hc);
      rewrite E
  end.
  exists w'. split; [reflexivity|]. cbn in R, Hc. split; [exact R|].
  destruct (complete u root).
  - destruct Hc as (Q & I & C). rewrite Q, I, C.
    repeat split; destruct (resolved_isbn root), (resolved_cover root); reflexivity.
  - destruct Hc as (_ & Q & I & C & _). rewrite Q, I, C, app_nil_r. auto.
Qed.

Lemma start_all_runs (urls : list string) :
  forall (i : nat) (w : world),
  exists w',
    Shelfari.start_all i urls w = (Ok tt, w') /\
    requests w' = requests w ++ urls /\
    result_queue w' = result_queue w ++ emitted i urls /\
    isbn_to_identifier w' =
      fold_left (fun m u => isbn_cache_after u m) urls (isbn_to_identifier w) /\
    identifier_to_cover_url w' =
      fold_left (fun m u => cover_cache_after u m) urls (identifier_to_cover_url w).
Proof.
  induction urls as [|u rest IH]; intros i w.
  - exists w. cbn. rewrite !app_nil_r. auto.
  - cbn [Shelfari.start_all emitted fold_left]. unfold bind.
    destruct (run_runs u i w) as (w1 & E1 & R1 & Q1 & I1 & C1). rewrite E1.
    destruct (IH (S i) w1) as (w2 & E2 & R2 & Q2 & I2 & C2). rewrite E2.
    exists w2. split; [reflexivity|].
    rewrite R2, R1, Q2, Q1, I2, I1, C2, C1, <- !app_assoc. auto.
Qed.

End Run.

(** ** The driver *)

Section Identify.
Context `{Host}.

(** The result parser writes to the log only, whether it raises or not. *)
Lemma each_result_frame (title_tokens author_tokens : list string) (root : element)
      (results : list element) :
  forall (matches : list string) (w : world),
    same_but_log w
      (snd (Shelfari.each_result title_tokens author_tokens root results matches w)).
Proof.
  induction results as [|r rest IH]; intros matches w.
  - apply same_but_log_refl.
  - cbn [Shelfari.each_result]. unfold bind at 1.
    destruct (Py.truthy (get r "id")); [apply same_but_log_refl|].
    unfold ret at 1.
    destruct (XPath.relative Shelfari.entry_title_path r) as [|a ?];
      [apply same_but_log_refl|].
    destruct (XPath.relative Shelfari.entry_authors_path r) as [|b ?];
      [apply same_but_log_refl|].
    destruct (negb _).
    + unfold bind.
      match goal with
      | |- context [log_call ?l ?t ?a w] =>
          pose proof (log_call_same l t a w) as Hl;
          destruct (log_call l t a w) as [[[]|e] w1] eqn:El
      end.
      * eapply same_but_log_trans; [exact Hl | apply IH].
      * unfold log_call in El. discriminate.
    + destruct (XPath.attr_values _ _) as [|result_url ?]; [apply IH|].
      unfold bind. destruct KEY_GET_EDITIONS.
      * match goal with
        | |- context [log_call ?l ?t ?a w] =>
            pose proof (log_call_same l t a w) as Hl;
            destruct (log_call l t a w) as [[[]|e] w1] eqn:El
        end.
        -- eapply same_but_log_trans; [exact Hl | apply IH].
        -- unfold log_call in El. discriminate.
      * unfold ret. apply IH.
Qed.

Lemma parse_search_results_frame (title : option string) (authors : option (list string))
      (root : element) (matches : list string) (w : world) :
  same_but_log w (snd (Shelfari._parse_search_results title authors root matches w)).
Proof.
  unfold Shelfari._parse_search_results.
  destruct (XPath.absolute Shelfari.results_path root);
    [apply same_but_log_refl | apply each_result_frame].
Qed.

Lemma same_but_log_store (w w' : world) : same_but_log w w' -> same_store w w'.
Proof. intros (_ & Q & I & C & _). repeat split; assumption. Qed.


Lemma search_failed (title : option string) (authors : option (list string))
      (identifiers : gmap string string) (isbn : option string)
      (query : string) (f : failure) (w : world) :
  Shelfari._create_query title authors identifiers = Ok (Some query) ->
  open_novisit query = Failed f ->
  exists w',
    Shelfari.search title authors identifiers isbn w
    = (Ok (Shelfari.Return (Shelfari.Text (as_unicode f))), w') /\
    requests w' = requests w ++ [query] /\ same_store w w'.
Proof.
  intros Hq Ho.
  unfold Shelfari.search, bind, lift, log_call, browse, ret.
  rewrite Hq, Ho. eexists. split; [reflexivity|].
  cbn. repeat split; reflexivity.
Qed.

(** Whatever a search does, it makes at most one request and leaves the
    queue and the caches alone. *)
Lemma search_frame (title : option string) (authors : option (list string))
      (identifiers : gmap string string) (isbn : option string) (w : world) :
  let w' := snd (Shelfari.search title authors identifiers isbn w) in
  same_store w w' /\
  (requests w' = requests w \/ exists query, requests w' = requests w ++ [query]).
Proof.
  unfold Shelfari.search, bind, lift, log_call, browse, ret.
  destruct (Shelfari._create_query title authors identifiers) as [[query|]|e];
    cbn [snd]; try (split; [repeat split|left]; reflexivity).
  destruct (open_novisit query) as [resp|f];
    [|cbn; split; [repeat split|right; eexists]; reflexivity].
  destruct (Py.truthy isbn); cbn [negb].
  - destruct (negb (Py.contains "/search/" (geturl resp)));
      cbn; (split; [repeat split|right; eexists]; reflexivity).
  - destruct (read resp) as [raw|f];
      [|cbn; split; [repeat split|right; eexists]; reflexivity].
    destruct (negb (Py.nonempty (Py.strip raw)));
      [cbn; split; [repeat split|right; eexists]; reflexivity|].
    destruct (fromstring (Py.strip raw)) as [root|e];
      [|cbn; split; [repeat split|right; eexists]; reflexivity].
    match goal with
    | |- context [Shelfari._parse_search_results title authors root ?m ?w0] =>
        pose proof (parse_search_results_frame title authors root m w0) as Hf;
        destruct (Shelfari._parse_search_results title authors root m w0)
          as [[l|e] w1]
    end; cbn [snd] in *; destruct Hf as (R & Q & I & C & _); cbn in R, Q, I, C;
      (split; [repeat split; assumption | right; eexists; exact R]).
Qed.

End Identify.

Section IdentifyCases.
Context `{Host}.

Lemma identify_direct (abort : bool) (title : option string)
      (authors : option (list string)) (identifiers : gmap string string)
      (sid : string) (w : world) :
  identifiers !! "shelfari" = Some sid -> Py.nonempty sid = true ->
  exists w',
    Shelfari.identify abort title authors identifiers w = (Ok Shelfari.NoValue, w') /\
    if abort then w' = w
    else requests w' = requests w ++ [book_url sid] /\
         result_queue w' = result_queue w ++ emitted_by (book_url sid) 0 /\
         isbn_to_identifier w' = isbn_cache_after (book_url sid) (isbn_to_identifier w) /\
         identifier_to_cover_url w' =
           cover_cache_after (book_url sid) (identifier_to_cover_url w).
Proof.
  intros Hs Hn. unfold Shelfari.identify. rewrite Hs.
  change (default "" (Some sid)) with sid. fold (book_url sid).
  cbn [Py.truthy]. rewrite Hn. unfold bind at 1, ret at 1. destruct abort.
  - exists w. split; reflexivity.
  - unfold bind.
    destruct (start_all_runs [book_url sid] 0 w) as (w' & E & R & Q & I & C).
    rewrite E. exists w'. split; [reflexivity|].
    cbn in Q, I, C. rewrite app_nil_r in Q. auto.
Qed.


Lemma identify_failed (abort : bool) (title : option string)
      (authors : option (list string)) (identifiers : gmap string string)
      (query : string) (f : failure) (w : world) :
  Py.truthy (identifiers !! "shelfari") = false ->
  Shelfari._create_query title authors identifiers = Ok (Some query) ->
  open_novisit query = Failed f ->
  exists w',
    Shelfari.identify abort title authors identifiers w
    = (Ok (Shelfari.Text (as_unicode f)), w') /\
    requests w' = requests w ++ [query] /\ same_store w w'.
Proof.
  intros Hs Hq Ho. unfold Shelfari.identify. rewrite Hs. unfold bind at 1.
  destruct (search_failed title authors identifiers
              (check_isbn (identifiers !! "isbn")) query f w Hq Ho)
    as (w1 & E & R & S).
  rewrite E. exists w1. split; [reflexivity|]. split; assumption.
Qed.

Lemma identify_abort (title : option string) (authors : option (list string))
      (identifiers : gmap string string) (w : world) :
  let w' := snd (Shelfari.identify true title authors identifiers w) in
  same_store w w' /\
  (requests w' = requests w \/ exists query, requests w' = requests w ++ [query]).
Proof.
  cbv zeta. unfold Shelfari.identify, bind.
  destruct (Py.truthy (identifiers !! "shelfari")).
  - unfold ret. cbn. split; [repeat split|left]; reflexivity.
  - pose proof (search_frame title authors identifiers
                  (check_isbn (identifiers !! "isbn")) w) as Hf.
    cbv zeta in Hf.
    destruct (Shelfari.search _ _ _ _ w) as [[[v|[matches query]]|e] w1];
      cbn [snd] in *; exact Hf.
Qed.

End IdentifyCases.

Section TitleSearch.
Context `{Host}.

Lemma search_title_no_candidate (title : option string) (authors : option (list string))
      (identifiers : gmap string string) (isbn : option string) (w : world)
      (m : list string) (query : string) (w' : world) :
  rooted fromstring ->
  Py.truthy isbn = false ->
  Shelfari.search title authors identifiers isbn w
  = (Ok (Shelfari.Continue (m, query)), w') ->
  m = [].
Proof.
  intros Hp Hi. unfold Shelfari.search, bind, lift, log_call, browse, ret.
  destruct (Shelfari._create_query title authors identifiers) as [[q|]|e];
    try discriminate.
  destruct (open_novisit q) as [resp|f]; [|discriminate].
  rewrite Hi. cbn [negb].
  destruct (read resp) as [raw|f]; [|discriminate].
  destruct (negb (Py.nonempty (Py.strip raw))); [discriminate|].
  destruct (fromstring (Py.strip raw)) as [root|e] eqn:Er; [|discriminate].
  destruct (Shelfari._parse_search_results _ _ root [] _) as [[l|e] w1] eqn:Ep;
    [|discriminate].
  intros E. inversion E; subst. clear E.
  unfold Shelfari._parse_search_results in Ep.
  destruct (XPath.absolute Shelfari.results_path root).
  - unfold ret in Ep. now inversion Ep.
  - eapply each_result_appends_nothing; [|exact Ep].
    apply root_without_div. eapply Hp. exact Er.
Qed.

Lemma identify_title_never (abort : bool) (title : option string)
      (authors : option (list string)) (identifiers : gmap string string) (w : world) :
  rooted fromstring ->
  Py.truthy (identifiers !! "shelfari") = false ->
  Py.truthy (check_isbn (identifiers !! "isbn")) = false ->
  let w' := snd (Shelfari.identify abort title authors identifiers w) in
  same_store w w' /\
  (requests w' = requests w \/ exists query, requests w' = requests w ++ [query]).
Proof.
  intros Hp Hs Hi. cbv zeta. unfold Shelfari.identify, bind. rewrite Hs.
  pose proof (search_frame title authors identifiers
                (check_isbn (identifiers !! "isbn")) w) as Hf.
  cbv zeta in Hf.
  destruct (Shelfari.search _ _ _ _ w) as [[[v|[matches query]]|e] w1] eqn:Es;
    cbn [snd] in *; try exact Hf.
  apply search_title_no_candidate in Es; [subst matches | assumption | assumption].
  destruct abort; [exact Hf|].
  unfold log_call, ret. cbn. exact Hf.
Qed.

End TitleSearch.

(** ** Covers *)

Section Covers.
Context `{Host}.

Lemma get_cached_by_id (identifiers : gmap string string) (sid : string) (w : world) :
  identifiers !! "shelfari" = Some sid ->
  Shelfari.get_cached_cover_url identifiers w
  = (Ok (identifier_to_cover_url w !! sid), w).
Proof.
  intros Hs. unfold Shelfari.get_cached_cover_url. rewrite Hs. reflexivity.
Qed.

Lemma get_cached_by_isbn (identifiers : gmap string string) (i : string) (w : world) :
  identifiers !! "shelfari" = None ->
  identifiers !! "isbn" = Some i ->
  Shelfari.get_cached_cover_url identifiers w
  = (Ok (sid ← isbn_to_identifier w !! i; identifier_to_cover_url w !! sid), w).
Proof.
  intros Hs Hi. unfold Shelfari.get_cached_cover_url. rewrite Hs, Hi.
  unfold bind, cached_isbn_to_identifier, cached_identifier_to_cover_url, ret.
  destruct (isbn_to_identifier w !! i); reflexivity.
Qed.

Lemma get_cached_reads (identifiers : gmap string string) (w : world) :
  exists url, Shelfari.get_cached_cover_url identifiers w = (Ok url, w).
Proof.
  unfold Shelfari.get_cached_cover_url, bind, cached_isbn_to_identifier,
    cached_identifier_to_cover_url, ret.
  destruct (identifiers !! "shelfari").
  - eauto.
  - destruct (identifiers !! "isbn"); [|eauto].
    destruct (isbn_to_identifier w !! _); eauto.
Qed.

(** The cover found for a worker's page is found again from its ISBN and
    from its site identifier. *)
Lemma cover_cached_after_run (u : string) (rank : nat) (root : element)
      (i c : string) (w : world) :
  complete_page u = Some root ->
  resolved_isbn root = Some i ->
  resolved_cover root = Some c ->
  let w' := snd (Worker.run (Worker.init u rank) w) in
  exists sid,
    the_id u = Some sid /\
    fst (Shelfari.get_cached_cover_url {[ "isbn" := i ]} w') = Ok (Some c) /\
    fst (Shelfari.get_cached_cover_url {[ "shelfari" := sid ]} w') = Ok (Some c).
Proof.
  intros Hp Hi Hc. cbv zeta.
  destruct (run_runs u rank w) as (w' & E & _ & _ & I & C). rewrite E. cbn [snd].
  unfold isbn_cache_after in I. unfold cover_cache_after in C.
  rewrite Hp, Hi in I. rewrite Hp, Hc in C.
  assert (Hs : exists sid, the_id u = Some sid).
  { unfold complete_page in Hp. destruct (fetched_page u) as [r|]; [|discriminate].
    destruct (complete u r) eqn:Ec; [|discriminate].
    unfold complete in Ec. apply andb_true_iff in Ec. destruct Ec as [_ Hs].
    destruct (the_id u) as [sid|]; [eauto | discriminate]. }
  destruct Hs as [sid Hs]. rewrite Hs in I, C.
  change (default "" (Some sid)) with sid in I, C.
  exists sid. split; [exact Hs|]. split.
  - rewrite (get_cached_by_isbn _ i) by (simplify_map_eq; reflexivity).
    cbn [fst]. rewrite I, C. simplify_map_eq. reflexivity.
  - rewrite (get_cached_by_id _ sid) by (simplify_map_eq; reflexivity).
    cbn [fst]. rewrite C. simplify_map_eq. reflexivity.
Qed.

End Covers.

Section Download.
Context `{Host}.
Variable key_le : Metadata.t -> Metadata.t -> bool.

(** The last part of [download_cover], from the test of [cached_url]. *)
Lemma download_found (url : string) (w : world) :
  exists w',
    (log_call Info "Downloading cover from:" [url] ;;;
     r <- browse url ;;
     match (match r with Got resp => read resp | Failed f => Failed f end) with
     | Got cdata => ret [cdata]
     | Failed _ =>
         log_call Exception "Failed to download cover from:" [url] ;;; ret []
     end) w = (Ok (cover_data url), w') /\
    requests w' = requests w ++ [url] /\ same_store w w'.
Proof.
  unfold bind, log_call, browse, ret, cover_data, fetch.
  destruct (open_novisit url) as [resp|f].
  - destruct (read resp); eexists; (split; [reflexivity|]);
      cbn; repeat split; reflexivity.
  - eexists; (split; [reflexivity|]); cbn; repeat split; reflexivity.
Qed.

Lemma download_cached (abort abort_after : bool) (title : option string)
      (authors : option (list string)) (identifiers : gmap string string)
      (url : string) (w : world) :
  fst (Shelfari.get_cached_cover_url identifiers w) = Ok (Some url) ->
  exists w',
    Shelfari.download_cover key_le abort abort_after false title authors identifiers w
    = (Ok (cover_data url), w') /\
    requests w' = requests w ++ [url] /\ same_store w w'.
Proof.
  intros Hc. unfold Shelfari.download_cover. unfold bind at 1.
  destruct (get_cached_reads identifiers w) as [o Eo]. rewrite Eo in Hc |- *.
  cbn [fst] in Hc. inversion Hc; subst o.
  unfold bind at 1, ret at 1.
  apply download_found.
Qed.

End Download.

Section DownloadMiss.
Context `{Host}.
Variable key_le : Metadata.t -> Metadata.t -> bool.

Lemma identify_isbn_alone (abort : bool) (title : option string)
      (authors : option (list string)) (identifiers : gmap string string)
      (i : string) (w : world) :
  Py.truthy (identifiers !! "shelfari") = false ->
  check_isbn (identifiers !! "isbn") = Some i ->
  Py.truthy title || Py.truthy_list authors = false ->
  Shelfari.identify abort title authors identifiers w = (Raise TypeError, w).
Proof.
  intros Hs Hi Ht. unfold Shelfari.identify, Shelfari.search, bind, lift.
  rewrite Hs, create_query_unfold, Hi, Ht. reflexivity.
Qed.

Lemma download_isbn_alone (abort abort_after abort_download : bool)
      (title : option string) (authors : option (list string))
      (identifiers : gmap string string) (i : string) (w : world) :
  identifiers !! "shelfari" = None ->
  check_isbn (identifiers !! "isbn") = Some i ->
  Py.truthy title || Py.truthy_list authors = false ->
  fst (Shelfari.get_cached_cover_url identifiers w) = Ok None ->
  exists w',
    Shelfari.download_cover key_le abort abort_after abort_download
                            title authors identifiers w = (Raise TypeError, w') /\
    requests w' = requests w /\ same_store w w'.
Proof.
  intros Hs Hi Ht Hc. unfold Shelfari.download_cover. unfold bind at 1.
  destruct (get_cached_reads identifiers w) as [o Eo]. rewrite Eo in Hc |- *.
  cbn [fst] in Hc. inversion Hc; subst o.
  unfold bind, log_call, private_queue.
  rewrite identify_isbn_alone with (i := i); try assumption;
    [|now rewrite Hs].
  eexists. split; [reflexivity|]. cbn. repeat split; reflexivity.
Qed.

Lemma sort_one (mi : Metadata.t) : Shelfari.sort_by_key key_le [mi] = [mi].
Proof. reflexivity. Qed.

Lemma download_by_id (title : option string) (authors : option (list string))
      (identifiers : gmap string string) (sid c : string) (root : element)
      (w : world) :
  (forall mi, Metadata.identifiers (clean_downloaded_metadata mi) !! "shelfari"
              = Metadata.identifiers mi !! "shelfari") ->
  identifiers !! "shelfari" = Some sid ->
  Py.nonempty sid = true ->
  identifier_to_cover_url w !! sid = None ->
  complete_page (book_url sid) = Some root ->
  resolved_cover root = Some c ->
  exists w',
    Shelfari.download_cover key_le false false false title authors identifiers w
    = (Ok (cover_data c), w') /\
    requests w' = requests w ++ [book_url sid; c] /\
    result_queue w' = result_queue w.
Proof.
  intros Hclean Hs Hn Hmiss Hp Hc.
  unfold Shelfari.download_cover. unfold bind at 1.
  rewrite (get_cached_by_id _ sid) by exact Hs. rewrite Hmiss.
  unfold bind at 1 2 3, log_call at 1, private_queue.
  match goal with
  | |- context [Shelfari.identify false title authors identifiers ?w0] =>
      destruct (identify_direct false title authors identifiers sid w0 Hs Hn)
        as (w1 & E1 & R1 & Q1 & I1 & C1); rewrite E1
  end.
  cbn [requests result_queue isbn_to_identifier identifier_to_cover_url log] in *.
  unfold emitted_by in Q1. unfold cover_cache_after in C1. rewrite Hp in Q1, C1.
  rewrite Hc in C1. cbn [app] in Q1.
  cbn [snd]. rewrite Q1, sort_one.
  cbn [Shelfari.first_cached]. unfold bind at 1 2.
  assert (Hid : Shelfari.identifiers_of
                  (clean_downloaded_metadata (record_of (book_url sid) 0 root))
                !! "shelfari" = Some (default "" (the_id (book_url sid)))).
  { unfold Shelfari.identifiers_of.
    destruct (Py.truthy _); rewrite ?lookup_insert_ne by discriminate;
      rewrite Hclean; unfold record_of, built; cbn [Metadata.identifiers];
      apply lookup_insert_eq. }
  rewrite (get_cached_by_id _ _ _ Hid).
  cbn [identifier_to_cover_url]. rewrite C1, lookup_insert_eq.
  unfold ret at 1 2.
  match goal with
  | |- context [bind (log_call Info "Downloading cover from:" [c]) _ ?w2] =>
      destruct (download_found c w2) as (w' & E & R & Q & _)
  end.
  rewrite E. exists w'. split; [reflexivity|].
  cbn in R, Q. rewrite R, R1, Q, <- app_assoc. split; reflexivity.
Qed.

End DownloadMiss.

(** * Further properties of the code *)

(** ** The worker *)

(** X1. A worker never raises and makes exactly one request, the one for
    its address.  What it puts on the queue and writes to the two caches
    is fixed by the page behind the address: one record and the cache
    entries of a complete page, nothing otherwise. *)
Theorem X1_worker_run `{Host} (u : string) (rank : nat) (w : world) :
  exists w',
    Worker.run (Worker.init u rank) w = (Ok tt, w') /\
    requests w' = requests w ++ [u] /\
    result_queue w' = result_queue w ++ emitted_by u rank /\
    isbn_to_identifier w' = isbn_cache_after u (isbn_to_identifier w) /\
    identifier_to_cover_url w' = cover_cache_after u (identifier_to_cover_url w).
Proof. exact (run_runs u rank w). Qed.

(** X2. When the request of a worker fails, or the text is the 404 page of
    the site, or does not parse, or the tree has an element with the id
    [errorMessage], [run] ends normally (the [TypeError] of the last case
    is caught), after its one request and with the queue and both caches
    as they were. *)
Theorem X2_worker_without_page `{Host} (u : string) (rank : nat) (w : world) :
  fetched_page u = None ->
  exists w',
    Worker.run (Worker.init u rank) w = (Ok tt, w') /\
    requests w' = requests w ++ [u] /\
    same_store w w'.
Proof.
  intros Hp. destruct (run_runs u rank w) as (w' & E & R & Q & I & C).
  exists w'. split; [exact E|]. split; [exact R|].
  unfold emitted_by in Q. unfold isbn_cache_after in I. unfold cover_cache_after in C.
  unfold complete_page in Q, I, C. rewrite Hp in Q, I, C.
  rewrite app_nil_r in Q. repeat split; assumption.
Qed.

(** The site that answers with an error page: [get_details] raises and
    [run] logs it. *)
Lemma X2_worker_without_page_witness :
  @Worker.get_details Catalogue.error_site
     (Worker.init "http://www.shelfari.com/books/1" 0) empty_world
  = (Raise TypeError,
     {| log := [Log Info "Shelfari book url: %r" ["http://www.shelfari.com/books/1"]];
        requests := ["http://www.shelfari.com/books/1"]; result_queue := [];
        isbn_to_identifier := ∅; identifier_to_cover_url := ∅ |}) /\
  exists w',
    @Worker.run Catalogue.error_site
       (Worker.init "http://www.shelfari.com/books/1" 0) empty_world = (Ok tt, w') /\
    requests w' = ["http://www.shelfari.com/books/1"] /\
    same_store empty_world w'.
Proof.
  split; [reflexivity|].
  apply (@X2_worker_without_page Catalogue.error_site
           "http://www.shelfari.com/books/1" 0 empty_world).
  reflexivity.
Defined.

(** X3. The identifier that [parse_shelfari_id] reads from an address is a
    non-empty run of digits, and the address has it right after the text
    [/books/]. *)
Theorem X3_shelfari_id_digits (u d : string) :
  Worker.parse_shelfari_id u = Ok d ->
  Py.nonempty d = true /\ all_chars Py.is_digit d = true /\
  substring_of ("/books/" +:+ d) u.
Proof.
  unfold Worker.parse_shelfari_id.
  destruct (Re.search Re.books_id u) as [d'|] eqn:E; [|discriminate].
  intros Hd. inversion Hd; subst d'. now apply search_books_id.
Qed.

Lemma X3_shelfari_id_digits_witness :
  Worker.parse_shelfari_id "http://www.shelfari.com/books/6977769/61-Hours"
  = Ok "6977769" /\
  Py.nonempty "6977769" = true /\ all_chars Py.is_digit "6977769" = true /\
  substring_of ("/books/" +:+ "6977769") "http://www.shelfari.com/books/6977769/61-Hours".
Proof.
  split; [reflexivity|].
  apply (X3_shelfari_id_digits "http://www.shelfari.com/books/6977769/61-Hours" "6977769").
  reflexivity.
Defined.

(** X4. The address that [get_book_url] builds for an identifier made of
    digits is read back by [parse_shelfari_id] as this identifier. *)
Theorem X4_book_url_round_trip (identifiers : gmap string string)
        (k sid url : string) :
  Shelfari.get_book_url identifiers = Some (k, sid, url) ->
  all_chars Py.is_digit sid = true ->
  k = "shelfari" /\ identifiers !! "shelfari" = Some sid /\
  url = book_url sid /\ Worker.parse_shelfari_id url = Ok sid.
Proof.
  unfold Shelfari.get_book_url. intros Hg Hd.
  destruct (identifiers !! "shelfari") as [s|] eqn:Es; [|discriminate].
  cbn [Py.truthy] in Hg. destruct (Py.nonempty s) eqn:En; [|discriminate].
  change (default "" (Some s)) with s in Hg. inversion Hg; subst.
  repeat split. unfold Worker.parse_shelfari_id.
  now rewrite (search_book_url sid En Hd).
Qed.

Lemma X4_book_url_round_trip_witness :
  Worker.parse_shelfari_id (book_url "6977769") = Ok "6977769".
Proof.
  apply (X4_book_url_round_trip {[ "shelfari" := "6977769" ]}
           "shelfari" "6977769" (book_url "6977769")); reflexivity.
Defined.

(** X5. A title that ends with a year of four digits in brackets is
    returned without the year and without the white space of Unicode
    around the rest. *)
Theorem X5_title_without_year (root h : element) (rest : list element)
        (body : string) (a b c d : ascii) :
  XPath.absolute [XPath.desc_where "h1" "class" "hover_title"] root = h :: rest ->
  Py.text_strip (text_content h) = body +:+ "(" +:+ year_text a b c d +:+ ")" ->
  forallb Py.is_digit [a; b; c; d] = true ->
  the_title root = Some (Py.ustrip body).
Proof. apply title_with_year. Qed.

(** The title with a no-break space before the year. *)
Lemma X5_title_without_year_witness :
  the_title Catalogue.padded_book = Some "61 Hours".
Proof.
  apply (X5_title_without_year Catalogue.padded_book
           (Element "h1" [("class", "hover_title")]
                    ("61 Hours" +:+ Catalogue.nbsp +:+ "(2010)") [] "") []
           ("61 Hours" +:+ Catalogue.nbsp) "2" "0" "1" "0"); reflexivity.
Defined.

(** X6. A series text of the form [S: Book N], with no colon in [S] and
    [N] made of digits, gives the series [S] without the white space of
    Unicode around it and the number [N]. *)
Theorem X6_series_and_number (root h sn : element) (rest rest' : list element)
        (s n : string) :
  XPath.absolute [XPath.desc_where "h1" "class" "hover_title"] root = h :: rest ->
  XPath.absolute [XPath.desc_where "span" "class" "series"] root = sn :: rest' ->
  Py.text_strip (text_content sn) = s +:+ ": Book " +:+ n ->
  all_chars no_colon s = true ->
  Py.nonempty n = true -> all_chars Py.is_digit n = true ->
  Worker.parse_title_series root
  = Ok (the_title root, Some (Py.ustrip s), Some [n]).
Proof. apply series_with_number. Qed.

Lemma X6_series_and_number_witness :
  Worker.parse_title_series Catalogue.padded_book
  = Ok (Some "61 Hours", Some "Jack Reacher", Some ["14"]).
Proof.
  apply (X6_series_and_number Catalogue.padded_book
           (Element "h1" [("class", "hover_title")]
                    ("61 Hours" +:+ Catalogue.nbsp +:+ "(2010)") [] "")
           (Element "span" [("class", "series")]
                    ("Jack Reacher" +:+ Catalogue.nbsp +:+ ": Book 14") [] "")
           [] [] ("Jack Reacher" +:+ Catalogue.nbsp) "14"); reflexivity.
Defined.

(** X7. Each contributor entry gives one author, in the order of the
    page: for a name alone, the text as [.strip()] leaves it; for a name
    with a role in brackets behind it, the name without the white space
    of Unicode around it. *)
Theorem X7_authors_without_roles (root : element) (li : element)
        (lis : list element) (authors : list string) :
  XPath.absolute [XPath.desc_where "div" "id" "WikiModule_Contributors";
                  XPath.desc "ol"; XPath.child "li"] root = li :: lis ->
  Forall2 (fun e author => credited (text_content e) author) (li :: lis) authors ->
  Worker.parse_authors root = Ok (Some authors).
Proof. apply authors_names. Qed.

(** Two entries with no-break spaces around the names. *)
Lemma X7_authors_without_roles_witness :
  Worker.parse_authors Catalogue.padded_book = Ok (Some ["Lee Child"; "Andy Martin"]).
Proof.
  apply (X7_authors_without_roles Catalogue.padded_book
           (Element "li" [] ("Lee Child" +:+ Catalogue.nbsp) [] "")
           [Element "li" []
              (Catalogue.nbsp +:+ "Andy Martin" +:+ Catalogue.nbsp +:+ " (Foreword)")
              [] ""]
           ["Lee Child"; "Andy Martin"]);
    [reflexivity|].
  constructor; [|constructor; [|constructor]].
  - exact (credited_alone ("Lee Child" +:+ Catalogue.nbsp) eq_refl).
  - exact (credited_with_role (Catalogue.nbsp +:+ "Andy Martin" +:+ Catalogue.nbsp)
             "Foreword" eq_refl eq_refl).
Defined.

(** X8. The rating path compares the class of the list with a child
    element named [rating]: on a page that has no element of this name
    [parse_rating] finds no rating, whatever the classes of its lists. *)
Theorem X8_rating_needs_element (root : element) :
  has_tag "rating" root = false -> Worker.parse_rating root = Ok None.
Proof. apply rating_needs_element. Qed.

Lemma X8_rating_needs_element_witness :
  Worker.parse_rating Catalogue.rated_page = Ok None.
Proof. apply (X8_rating_needs_element Catalogue.rated_page). reflexivity. Defined.

(** X9. The description handed to [sanitize_comments_html] has no two
    blanks in a row, and apart from blanks it is the text that [tostring]
    gives for the description node, without the white space of Unicode
    around it. *)
Theorem X9_comments_collapsed `{Host} (root desc : element) (rest : list element) :
  XPath.absolute [XPath.desc_where "div" "class" "ugc nonTruncatedSum";
                  XPath.child "p"] root = desc :: rest ->
  exists txt,
    Worker.parse_comments root = Ok (Some (sanitize_comments_html txt)) /\
    Py.contains "  " txt = false /\
    Py.filter not_blank txt = Py.filter not_blank (Py.ustrip (tostring_html desc)).
Proof. apply comments_collapsed. Qed.

(** A description that ends with a no-break space. *)
Lemma X9_comments_collapsed_witness :
  exists txt,
    @Worker.parse_comments Catalogue.site Catalogue.padded_book
    = Ok (Some (@sanitize_comments_html Catalogue.site txt)) /\
    Py.contains "  " txt = false /\
    Py.filter not_blank txt = "Reacherisback.".
Proof.
  apply (@X9_comments_collapsed Catalogue.site Catalogue.padded_book
           (Element "p" [] (" Reacher   is  back." +:+ Catalogue.nbsp) [] "") []).
  reflexivity.
Defined.

(** X10. An ISBN that [parse_isbn] returns is made of digits. *)
Theorem X10_isbn_digits (root : element) (i : string) :
  Worker.parse_isbn root = Ok (Some i) -> all_chars Py.is_digit i = true.
Proof.
  unfold Worker.parse_isbn.
  destruct (XPath.absolute _ root) as [|n ?]; [discriminate|].
  intros E. inversion E. apply all_chars_strip, all_chars_filter.
Qed.

Lemma X10_isbn_digits_witness :
  Worker.parse_isbn Fixture.book = Ok (Some "9780385340588") /\
  all_chars Py.is_digit "9780385340588" = true.
Proof.
  split; [reflexivity|].
  apply (X10_isbn_digits Fixture.book "9780385340588"). reflexivity.
Defined.

(** X11. [parse_publisher_and_date] raises exactly when a block of the
    first edition mentions a publisher; when it returns, it returns
    neither a publisher nor a date. *)
Theorem X11_publisher_never (root : element) :
  (Worker.parse_publisher_and_date root = Raise TypeError <->
   exists div,
     In div (XPath.absolute [XPath.desc_where "div" "id" "WikiModule_FirstEdition";
                             XPath.desc "div"] root) /\
     substring_of "Publisher" (text_content div)) /\
  (forall p d, Worker.parse_publisher_and_date root = Ok (p, d) ->
               p = None /\ d = None).
Proof.
  unfold Worker.parse_publisher_and_date. cbv zeta.
  destruct (existsb _ _) eqn:Ee.
  - split; [|discriminate]. split; [|reflexivity]. intros _.
    apply existsb_exists in Ee. destruct Ee as (div & Hin & Hc).
    exists div. split; [exact Hin | now apply contains_substring].
  - split.
    + split; [discriminate|]. intros (div & Hin & Hc).
      apply contains_substring in Hc.
      assert (Ht : existsb (fun div => Py.contains "Publisher" (text_content div))
                     (XPath.absolute
                        [XPath.desc_where "div" "id" "WikiModule_FirstEdition";
                         XPath.desc "div"] root) = true)
        by (apply existsb_exists; eauto).
      congruence.
    + intros p d E. inversion E. auto.
Qed.

(** X12. A page whose language text, without the white space of Unicode
    around it, is one of the names that the table [lm] lists for a code
    has this code as its language. *)
Theorem X12_language_of_table `{Host} (root n : element) (rest : list element)
        (code : string) (names : list string) :
  XPath.absolute Worker.language_path root = n :: rest ->
  In (code, names) Worker.lm ->
  In (Py.ustrip (tostring_text n)) names ->
  Worker._parse_language root = Ok (Some code).
Proof.
  intros En Hc Hn. apply (parse_language_known root n rest code En).
  apply lang_map_lookup. eauto.
Qed.

(** The name of the language followed by a no-break space. *)
Lemma X12_language_of_table_witness :
  @Worker._parse_language Fixture.site Catalogue.padded_book = Ok (Some "eng").
Proof.
  apply (@X12_language_of_table Fixture.site Catalogue.padded_book
           (Element "div" [("itemprop", "inLanguage")]
                    ("English" +:+ Catalogue.nbsp) [] "") []
           "eng" ["English"; "Englisch"]);
    [reflexivity | left; reflexivity | left; reflexivity].
Defined.

(** X13. The language table of a worker does not depend on the order in
    which the dictionary [lm] is walked. *)
Theorem X13_lang_map_order (table : list (string * list string)) :
  Worker.lm ≡ₚ table -> Worker.lang_map_of table = Worker.lang_map.
Proof. apply lang_map_any_order. Qed.

Lemma X13_lang_map_order_witness :
  Worker.lang_map_of (rev Worker.lm) = Worker.lang_map.
Proof. apply (X13_lang_map_order (rev Worker.lm)). apply Permutation_rev. Defined.

(** X14. The tags that [_convert_genres_to_calibre_tags] returns have no
    duplicate, and a tag is returned exactly when the stored mapping,
    read with lower-cased keys, lists it for one of the genres. *)
Theorem X14_genres_to_tags (str_lower : string -> string)
        (KEY_GENRE_MAPPINGS : list (string * list string))
        (genre_tags : list string) :
  let tags := Worker._convert_genres_to_calibre_tags
                str_lower KEY_GENRE_MAPPINGS genre_tags in
  List.NoDup tags /\
  forall x, In x tags <->
            exists g mapped,
              In g genre_tags /\
              Worker.calibre_tag_map str_lower KEY_GENRE_MAPPINGS !! str_lower g
              = Some mapped /\
              In x mapped.
Proof. apply convert_genres. Qed.

(** ** The driver *)



(** X16. An aborted [identify] starts no worker: the queue and the caches
    are as before and at most the search request was made. *)
Theorem X16_identify_aborted `{Host} (title : option string)
        (authors : option (list string)) (identifiers : gmap string string)
        (w : world) :
  let w' := snd (Shelfari.identify true title authors identifiers w) in
  same_store w w' /\
  (requests w' = requests w \/ exists query, requests w' = requests w ++ [query]).
Proof. apply identify_abort. Qed.



(** X18. When the search request fails, [identify] returns the text of
    the failure; the request was made, and the queue and the caches are
    as before. *)
Theorem X18_identify_request_failed `{Host} (abort : bool) (title : option string)
        (authors : option (list string)) (identifiers : gmap string string)
        (query : string) (f : failure) (w : world) :
  Py.truthy (identifiers !! "shelfari") = false ->
  Shelfari._create_query title authors identifiers = Ok (Some query) ->
  open_novisit query = Failed f ->
  exists w',
    Shelfari.identify abort title authors identifiers w
    = (Ok (Shelfari.Text (as_unicode f)), w') /\
    requests w' = requests w ++ [query] /\ same_store w w'.
Proof. apply identify_failed. Qed.

Lemma X18_identify_request_failed_witness :
  exists w',
    @Shelfari.identify Fixture.site false (Some "61 Hours") (Some ["Lee Child"])
                       isbn_request empty_world
    = (Ok (Shelfari.Text "HTTP Error 404: Not Found"), w') /\
    requests w' = [Catalogue.isbn_query] /\ same_store empty_world w'.
Proof.
  apply (@X18_identify_request_failed Fixture.site false (Some "61 Hours")
           (Some ["Lee Child"]) isbn_request Catalogue.isbn_query HTTP404
           empty_world); reflexivity.
Defined.

(** X19. A search by title and authors alone never starts a worker when
    the parser gives trees with no [div] right below the root: the
    address of an entry is looked up at the root of the page and not at
    the entry.  The queue and the caches are as before and at most the
    search request was made. *)
Theorem X19_title_search_finds_nothing `{Host} (abort : bool)
        (title : option string) (authors : option (list string))
        (identifiers : gmap string string) (w : world) :
  rooted fromstring ->
  Py.truthy (identifiers !! "shelfari") = false ->
  Py.truthy (check_isbn (identifiers !! "isbn")) = false ->
  let w' := snd (Shelfari.identify abort title authors identifiers w) in
  same_store w w' /\
  (requests w' = requests w \/ exists query, requests w' = requests w ++ [query]).
Proof. apply identify_title_never. Qed.

Lemma X19_title_search_finds_nothing_witness :
  let w' := snd (@Shelfari.identify Fixture.site false (Some "61 Hours")
                   (Some ["Lee Child"]) ∅ empty_world) in
  same_store empty_world w' /\
  (requests w' = requests empty_world \/
   exists query, requests w' = requests empty_world ++ [query]).
Proof.
  apply (@X19_title_search_finds_nothing Fixture.site false (Some "61 Hours")
           (Some ["Lee Child"]) ∅ empty_world); [|reflexivity|reflexivity].
  intros raw root. cbn. unfold Fixture.parse_with.
  destruct (String.eqb raw "results").
  - intros E. inversion E. repeat constructor; discriminate.
  - destruct (String.eqb raw "book"); [|discriminate].
    intros E. inversion E. repeat constructor; discriminate.
Defined.

(** X20. With no site identifier, no valid ISBN and nothing to search
    for, [identify] logs that the metadata is insufficient and ends
    without a request. *)
Theorem X20_identify_insufficient `{Host} (abort : bool) (title : option string)
        (authors : option (list string)) (identifiers : gmap string string)
        (w : world) :
  Py.truthy (identifiers !! "shelfari") = false ->
  check_isbn (identifiers !! "isbn") = None ->
  Py.truthy title || Py.truthy_list authors = false \/
  (get_title_tokens title false true = [] /\ get_author_tokens authors true = []) ->
  exists w',
    Shelfari.identify abort title authors identifiers w = (Ok Shelfari.NoValue, w') /\
    log w' = log w ++ [Log Error "Insufficient metadata to construct query" []] /\
    requests w' = requests w /\
    result_queue w' = result_queue w.
Proof.
  intros Hs Hi Ht. apply identify_insufficient; [exact Hs|].
  apply create_query_None. auto.
Qed.

Lemma X20_identify_insufficient_witness :
  exists w',
    @Shelfari.identify Fixture.site false (Some "   ") None ∅ empty_world
    = (Ok Shelfari.NoValue, w') /\
    log w' = [Log Error "Insufficient metadata to construct query" []] /\
    requests w' = [] /\ result_queue w' = [].
Proof.
  apply (@X20_identify_insufficient Fixture.site false (Some "   ") None ∅
           empty_world); [reflexivity | reflexivity |].
  right. split; reflexivity.
Defined.

(** ** Covers *)

(** X21. After the worker for a complete page with an ISBN and a cover
    address, [get_cached_cover_url] finds the cover address from the ISBN
    alone and from the site identifier alone. *)
Theorem X21_cover_found_after_run `{Host} (u : string) (rank : nat)
        (root : element) (i c : string) (w : world) :
  complete_page u = Some root ->
  resolved_isbn root = Some i ->
  resolved_cover root = Some c ->
  let w' := snd (Worker.run (Worker.init u rank) w) in
  exists sid,
    the_id u = Some sid /\
    fst (Shelfari.get_cached_cover_url {[ "isbn" := i ]} w') = Ok (Some c) /\
    fst (Shelfari.get_cached_cover_url {[ "shelfari" := sid ]} w') = Ok (Some c).
Proof. apply cover_cached_after_run. Qed.

Lemma X21_cover_found_after_run_witness :
  let w' := snd (@Worker.run Fixture.site
                   (Worker.init "http://www.shelfari.com/books/6977769" 0)
                   empty_world) in
  exists sid,
    the_id "http://www.shelfari.com/books/6977769" = Some sid /\
    fst (Shelfari.get_cached_cover_url {[ "isbn" := "9780385340588" ]} w')
    = Ok (Some "http://www.shelfari.com/cover.jpg") /\
    fst (Shelfari.get_cached_cover_url {[ "shelfari" := sid ]} w')
    = Ok (Some "http://www.shelfari.com/cover.jpg").
Proof.
  apply (@X21_cover_found_after_run Fixture.site
           "http://www.shelfari.com/books/6977769" 0 Fixture.book
           "9780385340588" "http://www.shelfari.com/cover.jpg" empty_world);
    reflexivity.
Defined.

(** X22. With a cached cover address [download_cover] does not identify:
    its only request is the one for the cover, it puts the data it got,
    or nothing when the request failed, and leaves the queue of records
    and the caches as they were. *)
Theorem X22_download_cached `{Host} (key_le : Metadata.t -> Metadata.t -> bool)
        (abort abort_after : bool) (title : option string)
        (authors : option (list string)) (identifiers : gmap string string)
        (url : string) (w : world) :
  fst (Shelfari.get_cached_cover_url identifiers w) = Ok (Some url) ->
  exists w',
    Shelfari.download_cover key_le abort abort_after false title authors identifiers w
    = (Ok (cover_data url), w') /\
    requests w' = requests w ++ [url] /\ same_store w w'.
Proof. apply download_cached. Qed.

Lemma X22_download_cached_witness :
  exists w',
    @Shelfari.download_cover Catalogue.site (fun _ _ => true) false false false
       None None {[ "isbn" := "9780385340588" ]} Catalogue.cached
    = (Ok ["JPEG"], w') /\
    requests w' = [Catalogue.cover_url] /\ same_store Catalogue.cached w'.
Proof.
  apply (@X22_download_cached Catalogue.site (fun _ _ => true) false false None None
           {[ "isbn" := "9780385340588" ]} Catalogue.cover_url Catalogue.cached).
  reflexivity.
Defined.

(** X23. With a valid ISBN as the only input and no cached cover,
    [download_cover] raises the [TypeError] of the query builder: nothing
    is requested, and the queue and the caches are as before. *)
Theorem X23_download_isbn_alone `{Host} (key_le : Metadata.t -> Metadata.t -> bool)
        (abort abort_after abort_download : bool)
        (title : option string) (authors : option (list string))
        (identifiers : gmap string string) (i : string) (w : world) :
  identifiers !! "shelfari" = None ->
  check_isbn (identifiers !! "isbn") = Some i ->
  Py.truthy title || Py.truthy_list authors = false ->
  fst (Shelfari.get_cached_cover_url identifiers w) = Ok None ->
  exists w',
    Shelfari.download_cover key_le abort abort_after abort_download
                            title authors identifiers w = (Raise TypeError, w') /\
    requests w' = requests w /\ same_store w w'.
Proof. apply download_isbn_alone. Qed.

Lemma X23_download_isbn_alone_witness :
  exists w',
    @Shelfari.download_cover Fixture.site (fun _ _ => true) false false false
       None None isbn_request empty_world = (Raise TypeError, w') /\
    requests w' = requests empty_world /\ same_store empty_world w'.
Proof.
  apply (@X23_download_isbn_alone Fixture.site (fun _ _ => true) false false false
           None None isbn_request "9780385340588" empty_world); reflexivity.
Defined.

(** X24. With a site identifier and an empty cover cache,
    [download_cover] reads the page of the book and then the cover whose
    address the worker cached: two requests, one item of data, and the
    records of the worker stay on the private queue.  The identifier of a
    record survives [clean_downloaded_metadata], which the host
    provides. *)
Theorem X24_download_by_id `{Host} (key_le : Metadata.t -> Metadata.t -> bool)
        (title : option string) (authors : option (list string))
        (identifiers : gmap string string) (sid c : string) (root : element)
        (w : world) :
  (forall mi, Metadata.identifiers (clean_downloaded_metadata mi) !! "shelfari"
              = Metadata.identifiers mi !! "shelfari") ->
  identifiers !! "shelfari" = Some sid ->
  Py.nonempty sid = true ->
  identifier_to_cover_url w !! sid = None ->
  complete_page (book_url sid) = Some root ->
  resolved_cover root = Some c ->
  exists w',
    Shelfari.download_cover key_le false false false title authors identifiers w
    = (Ok (cover_data c), w') /\
    requests w' = requests w ++ [book_url sid; c] /\
    result_queue w' = result_queue w.
Proof. apply download_by_id. Qed.

Lemma X24_download_by_id_witness :
  exists w',
    @Shelfari.download_cover Catalogue.site (fun _ _ => true) false false false
       None None {[ "shelfari" := "6977769" ]} empty_world
    = (Ok ["JPEG"], w') /\
    requests w' = ["http://www.shelfari.com/books/6977769"; Catalogue.cover_url] /\
    result_queue w' = [].
Proof.
  apply (@X24_download_by_id Catalogue.site (fun _ _ => true) None None
           {[ "shelfari" := "6977769" ]} "6977769" Catalogue.cover_url
           Fixture.book empty_world); reflexivity.
Defined.

(** X25. When the abort event is set throughout, [download_cover] puts
    no cover: a value it returns is empty, and the queue of records and
    the caches are as before. *)
Theorem X25_download_aborted `{Host} (key_le : Metadata.t -> Metadata.t -> bool)
        (title : option string) (authors : option (list string))
        (identifiers : gmap string string) (w : world) :
  let r := Shelfari.download_cover key_le true true true title authors identifiers w in
  same_store w (snd r) /\ forall l, fst r = Ok l -> l = [].
Proof.
  cbv zeta.
  destruct (Shelfari.download_cover key_le true true true title authors identifiers w)
    as [r w'] eqn:Er.
  cbn [fst snd]. revert Er.
  unfold Shelfari.download_cover. unfold bind at 1.
  destruct (get_cached_reads identifiers w) as [o Eo]. rewrite Eo.
  destruct o as [url|].
  - unfold bind, ret. intros Er. inversion Er; subst.
    split; [repeat split|]. intros l E. now inversion E.
  - unfold bind at 1 2 3, log_call at 1, private_queue.
    match goal with
    | |- context [Shelfari.identify true title authors identifiers ?w0] =>
        pose proof (identify_abort title authors identifiers w0) as Hf;
        cbv zeta in Hf;
        destruct (Shelfari.identify true title authors identifiers w0)
          as [[v|e] w1]
    end; cbn [snd] in Hf; destruct Hf as ((Q & I & C) & _); cbn in Q, I, C;
      unfold bind, ret; intros Er; inversion Er; subst;
      (split; [repeat split; assumption|]); intros l E; now inversion E.
Qed.

(** ** The query *)

(** X26. The address that [_create_query] builds is the search address of
    the site followed by a non-empty query made of unreserved characters
    and of the marks [%], [=], [+] and [&] only, whatever the characters
    of the title and of the authors; this holds when the ISBN that the
    host validated has no other character. *)
Theorem X26_query_characters `{Host} (title : option string)
        (authors : option (list string)) (identifiers : gmap string string)
        (url : string) :
  (forall i, check_isbn (identifiers !! "isbn") = Some i ->
             all_chars query_char i = true) ->
  Shelfari._create_query title authors identifiers = Ok (Some url) ->
  exists q, url = search_prefix +:+ q /\ Py.nonempty q = true /\
            all_chars query_char q = true.
Proof.
  intros Hi. rewrite create_query_unfold. cbv zeta.
  destruct (Py.truthy title || Py.truthy_list authors).
  - destruct (Py.nonempty (joined _ title authors)) eqn:En; [|discriminate].
    intros E. inversion E. eexists. split; [reflexivity|]. split; [exact En|].
    apply joined_query_chars. exact Hi.
  - destruct (check_isbn _); discriminate.
Qed.

Lemma X26_query_characters_witness :
  exists q,
    "http://www.shelfari.com/search/books?Title=Caf%C3%A9+%26+Co" = search_prefix +:+ q /\
    Py.nonempty q = true /\ all_chars query_char q = true.
Proof.
  apply (@X26_query_characters Fixture.site (Some "Café & Co") None ∅
           "http://www.shelfari.com/search/books?Title=Caf%C3%A9+%26+Co").
  - intros i E. discriminate E.
  - reflexivity.
Defined.

(** X27. The query builder answers [None] exactly when the host finds no
    valid ISBN and there is nothing to search for: neither a title nor
    authors, or no token in either of them. *)
Theorem X27_query_none `{Host} (title : option string)
        (authors : option (list string)) (identifiers : gmap string string) :
  Shelfari._create_query title authors identifiers = Ok None <->
  check_isbn (identifiers !! "isbn") = None /\
  (Py.truthy title || Py.truthy_list authors = false \/
   (get_title_tokens title false true = [] /\ get_author_tokens authors true = [])).
Proof. apply create_query_None. Qed.

(** ** The results of a search *)

(** X28. Whether it returns or raises, [_parse_search_results] makes no
    request, puts nothing and writes to neither cache: it changes the
    log only. *)
Theorem X28_search_results_frame `{Host} (title : option string)
        (authors : option (list string)) (root : element) (matches : list string)
        (w : world) :
  same_but_log w (snd (Shelfari._parse_search_results title authors root matches w)).
Proof. apply parse_search_results_frame. Qed.
